(** * note-cli: the tree synthesis and selection engine of [main.py]

    A shallow embedding of the pure core of [main.py] (folder synthesis,
    tree building, selection handlers), of the scan [find_notes], of the
    validators, of the file operations [create_new_note],
    [create_new_folder] and [delete_file] and of the row rendering,
    followed by the properties the specification states about them and
    by further properties read off the code.

    Conventions of the embedding.
    - Python [str] is [string], holding the UTF-8 bytes of the text;
      comparison, search, splitting and sorting on the bytes agree with
      Python's on the characters.  [str.strip] removes the UTF-8 forms of
      Python's whitespace; [str.lower] is a parameter ([PyStr.Lower]).
    - A [pathlib.Path] is the list of its components below the filesystem
      root: [/r/a/n.md] is [["r"; "a"; "n.md"]].  Configured folders are
      stored by the folder menu in resolved absolute form, so
      [Path(folder).expanduser().resolve()] is the identity on them.
    - Python [int] is [Z]; a [set] of strings is a [gset string].
    - The filesystem is an explicit value of type [FS]; functions that
      touch the disk take it as an argument and return the new one.
    - [print] and [time.sleep] have no counterpart; [input] is an
      argument holding the typed line. *)

From Stdlib Require Import ZArith String Ascii List Bool Lia Sorted.
From stdpp Require Import base decidable option list sets gmap strings.

#[local] Set Warnings "-clear-no-such-hyp".

Local Open Scope string_scope.
Local Open Scope Z_scope.

(** ** Python string methods *)

Module PyStr.

(** [c.lower()] for one ASCII character. *)
Definition ascii_lower_char (c : ascii) : ascii :=
  let n := N_of_ascii c in
  if ((65 <=? n) && (n <=? 90))%N then ascii_of_N (n + 32) else c.

(** [s.lower()] for a string of ASCII characters. *)
Fixpoint ascii_lower (s : string) : string :=
  match s with
  | EmptyString => EmptyString
  | String c r => String (ascii_lower_char c) (ascii_lower r)
  end.

(** Every byte is below 128: the text is ASCII. *)
Fixpoint is_ascii (s : string) : bool :=
  match s with
  | EmptyString => true
  | String c r => (N_of_ascii c <? 128)%N && is_ascii r
  end.

(** [s.lower()].  Python lower-cases by the Unicode tables of its
    library, which are no part of the program: the function is taken as
    given, together with the two facts about it the proofs use.  On
    ASCII text it folds A-Z to a-z and changes nothing else, and it maps
    no character to nothing, so only the empty string becomes empty. *)
Class Lower := {
  lower : string → string;
  lower_ascii : ∀ s, is_ascii s = true → lower s = ascii_lower s;
  lower_nonempty : ∀ s, lower s = EmptyString → s = EmptyString
}.

(** The byte-wise function is such a function; the sample sessions,
    whose text is ASCII, are evaluated with it. *)
Definition ascii_Lower : Lower :=
  {| lower := ascii_lower;
     lower_ascii := λ _ _, eq_refl;
     lower_nonempty := ltac:(intros [|c r]; [reflexivity | discriminate]) |}.

(** [s.startswith(p)] *)
Fixpoint startswith (s p : string) : bool :=
  match p, s with
  | EmptyString, _ => true
  | String _ _, EmptyString => false
  | String a p', String b s' => Ascii.eqb a b && startswith s' p'
  end.

(** [sub in s] *)
Fixpoint contains (sub s : string) : bool :=
  startswith s sub ||
  match s with
  | EmptyString => false
  | String _ r => contains sub r
  end.

(** [s.endswith(suf)] *)
Fixpoint endswith (s suf : string) : bool :=
  String.eqb s suf ||
  match s with
  | EmptyString => false
  | String _ r => endswith r suf
  end.

(** [s.count(c)] for a one-character [c]. *)
Fixpoint count (c : ascii) (s : string) : Z :=
  match s with
  | EmptyString => 0
  | String a r => (if Ascii.eqb a c then 1 else 0) + count c r
  end.

(** [s.split(sep)] for a one-character separator: never the empty list,
    [''.split('/') = ['']]. *)
Fixpoint split (sep : ascii) (s : string) : list string :=
  match s with
  | EmptyString => [EmptyString]
  | String c r =>
      if Ascii.eqb c sep then EmptyString :: split sep r
      else match split sep r with
           | h :: t => String c h :: t
           | [] => [String c EmptyString]
           end
  end.

(** [sep.join(parts)] for a one-character separator. *)
Fixpoint join (sep : ascii) (parts : list string) : string :=
  match parts with
  | [] => EmptyString
  | [p] => p
  | p :: rest => p +:+ String sep (join sep rest)
  end.

(** The string with the given byte values. *)
Definition bytes (l : list nat) : string :=
  fold_right (λ n s, String (ascii_of_nat n) s) EmptyString l.

(** The characters for which [c.isspace()] holds, each in UTF-8:
    U+0009..U+000D, U+001C..U+0020, U+0085, U+00A0, U+1680,
    U+2000..U+200A, U+2028, U+2029, U+202F, U+205F and U+3000. *)
Definition whitespace : list string :=
  map bytes
    ([[9]; [10]; [11]; [12]; [13]; [28]; [29]; [30]; [31]; [32];
     [194; 133]; [194; 160]; [225; 154; 128];
     [226; 128; 128]; [226; 128; 129]; [226; 128; 130]; [226; 128; 131];
     [226; 128; 132]; [226; 128; 133]; [226; 128; 134]; [226; 128; 135];
     [226; 128; 136]; [226; 128; 137]; [226; 128; 138];
     [226; 128; 168]; [226; 128; 169]; [226; 128; 175];
     [226; 129; 159]; [227; 128; 128]] : list (list nat))%nat.

(** [s] without its leading [p], when it starts with [p]. *)
Fixpoint remove_prefix (p s : string) : option string :=
  match p, s with
  | EmptyString, _ => Some s
  | String _ _, EmptyString => None
  | String a p', String b s' => if Ascii.eqb a b then remove_prefix p' s' else None
  end.

(** [s] without one leading character of [chars], if it starts with one. *)
Fixpoint strip_one (chars : list string) (s : string) : option string :=
  match chars with
  | [] => None
  | w :: rest =>
      match remove_prefix w s with
      | Some s' => Some s'
      | None => strip_one rest s
      end
  end.

(** Leading characters of [chars] removed, at most [fuel] of them. *)
Fixpoint strip_left (chars : list string) (fuel : nat) (s : string) : string :=
  match fuel with
  | O => s
  | S n =>
      match strip_one chars s with
      | Some s' => strip_left chars n s'
      | None => s
      end
  end.

Fixpoint reverse (s : string) : string :=
  match s with
  | EmptyString => EmptyString
  | String c r => reverse r +:+ String c EmptyString
  end.

(** [s.lstrip()]: every removal takes at least one byte, so the length
    of [s] is fuel enough. *)
Definition lstrip (s : string) : string :=
  strip_left whitespace (String.length s) s.

(** [s.rstrip()]: the same from the right, on the reversed bytes. *)
Definition rstrip (s : string) : string :=
  reverse (strip_left (map reverse whitespace) (String.length s) (reverse s)).

(** [s.strip()] *)
Definition strip (s : string) : string := rstrip (lstrip s).

(** [bool(s)]: a string is truthy when it is not empty. *)
Definition truthy (s : string) : bool :=
  match s with EmptyString => false | _ => true end.

End PyStr.

(** ** [pathlib] *)

Definition Path := list string.

Module PyPath.

(** [p.parent] *)
Definition parent (p : Path) : Path := removelast p.

(** [p.name] *)
Definition name (p : Path) : string := List.last p EmptyString.

(** [p.relative_to(root)]: [None] stands for the [ValueError] raised
    when [root] is not a leading part of [p]. *)
Fixpoint relative_to (p root : Path) : option Path :=
  match root, p with
  | [], _ => Some p
  | _ :: _, [] => None
  | r :: root', c :: p' => if String.eqb r c then relative_to p' root' else None
  end.

(** [str(rel)] of a relative path: the empty relative path prints as
    a single dot. *)
Definition str (rel : Path) : string :=
  match rel with
  | [] => "."
  | _ => PyStr.join "/" rel
  end.

(** [bool(rel)]: [pathlib] paths define neither [__bool__] nor
    [__len__], so every path object is truthy. *)
Definition truthy (rel : Path) : bool := true.

(** Position of the last dot of a name, if any ([name.rfind('.')]). *)
Fixpoint rfind_dot (s : string) : option nat :=
  match s with
  | EmptyString => None
  | String c r =>
      match rfind_dot r with
      | Some i => Some (S i)
      | None => if Ascii.eqb c "." then Some O else None
      end
  end.

Fixpoint drop_chars (n : nat) (s : string) : string :=
  match n, s with
  | O, _ => s
  | S n', String _ r => drop_chars n' r
  | S _, EmptyString => EmptyString
  end.

(** [Path(f).suffix]: the text from the last dot on, unless that dot
    starts or ends the name. *)
Definition suffix (f : string) : string :=
  match rfind_dot f with
  | Some i =>
      if (0 <? i)%nat && (i <? String.length f - 1)%nat
      then drop_chars i f else EmptyString
  | None => EmptyString
  end.

(** Components of a string handed to [base / user_path]: empty and
    single-dot components vanish. *)
Definition parts (s : string) : list string :=
  filter (λ c, c ≠ EmptyString ∧ c ≠ ".") (PyStr.split "/" s).

(** [base / user_path]: an absolute right operand replaces the base. *)
Definition joinpath (base : Path) (user_path : string) : Path :=
  if PyStr.startswith user_path "/" then parts user_path
  else (base ++ parts user_path)%list.

(** [p.resolve()] on a filesystem without symbolic links: double-dot
    components climb one level and stop at the root. *)
Definition resolve (p : Path) : Path :=
  fold_left (λ acc c, if String.eqb c ".." then removelast acc else (acc ++ [c])%list) p [].

(** [base in p.parents]: [base] is a proper leading part of [p]. *)
Definition in_parents (base p : Path) : bool :=
  match relative_to p base with
  | Some (_ :: _) => true
  | _ => false
  end.

Definition eqb (p q : Path) : bool := bool_decide (p = q).

End PyPath.

Definition NOTE_EXTENSIONS : list string := [".txt"; ".md"].


(** [sorted(l, key=key)]: Python's sort is stable, and so is this
    insertion sort: an element goes in front of the first one whose key
    is not smaller, hence in front of the equal-keyed elements that
    followed it in the input. *)
Fixpoint insert_by {A : Type} (key : A → string) (x : A) (l : list A) : list A :=
  match l with
  | [] => [x]
  | y :: l' =>
      if String.leb (key x) (key y) then x :: l else y :: insert_by key x l'
  end.

Definition py_sorted {A : Type} (key : A → string) (l : list A) : list A :=
  foldr (insert_by key) [] l.

(** ** The filesystem *)

(** Directories and regular files by resolved absolute path; [fs_locked]
    lists the paths whose creation or removal the operating system
    refuses (the [except Exception] branches of the file operations). *)
Record FS := mkFS {
  fs_dirs : list Path;
  fs_files : list Path;
  fs_locked : list Path
}.

Definition is_dir (fs : FS) (p : Path) : bool :=
  bool_decide (PyPath.resolve p ∈ fs_dirs fs).

Definition is_file (fs : FS) (p : Path) : bool :=
  bool_decide (PyPath.resolve p ∈ fs_files fs).

(** [p.exists()] *)
Definition exists_ (fs : FS) (p : Path) : bool := is_dir fs p || is_file fs p.

(** [os.walk(top)]: every directory at or below [top] with the names of
    the files directly inside it (the [dirs] component is not used by the
    caller). *)
Definition os_walk (fs : FS) (top : Path) : list (Path * list string) :=
  map (λ d, (d, map PyPath.name (filter (λ f, PyPath.parent f = d) (fs_files fs))))
      (filter (λ d, is_Some (PyPath.relative_to d top)) (fs_dirs fs)).

(** [p.touch()]: [None] when the call raises. *)
Definition touch (fs : FS) (p : Path) : option FS :=
  let q := PyPath.resolve p in
  if bool_decide (q ∈ fs_locked fs) then None
  else if is_file fs p then Some fs
  else Some (mkFS (fs_dirs fs) (q :: fs_files fs) (fs_locked fs)).

(** [p.unlink()]: [None] when the call raises (no such file, or refused). *)
Definition unlink (fs : FS) (p : Path) : option FS :=
  let q := PyPath.resolve p in
  if bool_decide (q ∈ fs_locked fs) then None
  else if is_file fs p
       then Some (mkFS (fs_dirs fs) (filter (λ f, f ≠ q) (fs_files fs)) (fs_locked fs))
       else None.

(** ** Path safety *)

Definition is_safe_path (base_path : Path) (user_path : string) : bool :=
  let full_path := PyPath.resolve (PyPath.joinpath base_path user_path) in
  PyPath.in_parents base_path full_path || PyPath.eqb base_path full_path.

Definition dangerous_extensions : list string :=
  [".exe"; ".sh"; ".bat"; ".cmd"; ".py"; ".js"; ".php";
   ".rb"; ".pl"; ".ps1"; ".vbs"; ".jar"; ".app"].

Definition backslash : string := String (ascii_of_nat 92) EmptyString.
Definition nul : string := String (ascii_of_nat 0) EmptyString.

Definition validate_filename `{!PyStr.Lower} (filename : string) : bool :=
  if existsb (λ ext, PyStr.endswith (PyStr.lower filename) ext) dangerous_extensions
  then false
  else if PyStr.contains ".." filename || PyStr.contains "/" filename
          || PyStr.contains backslash filename
  then false
  else if PyStr.contains nul filename then false
  else true.

(** ** File operations *)

(** The search loop of [create_new_note]: the outer [None] is the
    [return None] of the security check, the inner option is the value
    of [absolute_folder_path] when the loop is left. *)
Fixpoint locate_folder (fs : FS) (folder_path : string) (folders : list Path)
    (absolute_folder_path : option Path) : option (option Path) :=
  match folders with
  | [] => Some absolute_folder_path
  | config_path :: rest =>
      if negb (is_safe_path config_path folder_path) then None
      else
        let candidate := PyPath.joinpath config_path folder_path in
        if is_dir fs candidate then Some (Some candidate)
        else locate_folder fs folder_path rest (Some candidate)
  end.

(** The default-extension step of [create_new_note]. *)
Definition with_default_extension (filename : string) : string :=
  if negb (existsb (λ ext, PyStr.endswith filename ext) NOTE_EXTENSIONS)
  then filename +:+ ".md" else filename.

(** [create_new_note(folder_path, config)] with [line] the text typed at
    the filename prompt.  Returns the created path and the new
    filesystem; [None] leaves the filesystem as it was. *)
Definition create_new_note `{!PyStr.Lower} (fs : FS) (folder_path : string) (config : list Path)
    (line : string) : option Path * FS :=
  match locate_folder fs folder_path config None with
  | None => (None, fs)
  | Some None => (None, fs)
  | Some (Some absolute_folder_path) =>
      if negb (is_dir fs absolute_folder_path) then (None, fs)
      else
        let filename := PyStr.strip line in
        if negb (PyStr.truthy filename) then (None, fs)
        else if negb (validate_filename filename) then (None, fs)
        else
          let filename := with_default_extension filename in
          let new_file_path := PyPath.joinpath absolute_folder_path filename in
          if exists_ fs new_file_path then (None, fs)
          else match touch fs new_file_path with
               | Some fs' => (Some new_file_path, fs')
               | None => (None, fs)
               end
  end.

(** [delete_file(note_path, config)] with [line] the text typed at the
    confirmation prompt. *)
Definition delete_file (fs : FS) (note_path : Path) (config : list Path)
    (line : string) : bool * FS :=
  let file_is_safe :=
    existsb (λ config_path,
               PyPath.in_parents config_path (PyPath.resolve note_path)
               || PyPath.eqb config_path (PyPath.parent (PyPath.resolve note_path)))
            config in
  if negb file_is_safe then (false, fs)
  else
    let confirm := PyStr.strip line in
    if negb (String.eqb confirm "DELETE") then (false, fs)
    else match unlink fs note_path with
         | Some fs' => (true, fs')
         | None => (false, fs)
         end.

(** ** The application state *)

(** [TreeItem = Tuple[str, Any, int]]: the tag in the first component
    decides the type of the second. *)
Inductive TreeItem : Type :=
  | FolderItem (folder : string) (indent_level : Z)
  | NoteItem (note : Path) (indent_level : Z).

(** The [state] dictionary, one field per key; the key [delete_file] is
    the field [delete_file_request], the name being taken by the function. *)
Record AppState := mkState {
  selected_index : Z;
  filtered_notes : list string;
  note_to_open : option Path;
  manage_folders : bool;
  create_file_in : option string;
  create_folder_in : option string;
  delete_file_request : option Path;
  show_help : bool;
  expanded_folders : gset string;
  tree_items : list TreeItem
}.

(** The [NoteCLI] object; [app_exited] records a call of
    [event.app.exit()]. *)
Record NoteCLI := mkCLI {
  config_folders : list Path;
  all_notes : list Path;
  state : AppState;
  app_exited : bool
}.

Definition set_selected_index (i : Z) (st : AppState) : AppState :=
  mkState i (filtered_notes st) (note_to_open st) (manage_folders st)
          (create_file_in st) (create_folder_in st) (delete_file_request st)
          (show_help st) (expanded_folders st) (tree_items st).

Definition set_filtered_notes (l : list string) (st : AppState) : AppState :=
  mkState (selected_index st) l (note_to_open st) (manage_folders st)
          (create_file_in st) (create_folder_in st) (delete_file_request st)
          (show_help st) (expanded_folders st) (tree_items st).

Definition set_note_to_open (n : option Path) (st : AppState) : AppState :=
  mkState (selected_index st) (filtered_notes st) n (manage_folders st)
          (create_file_in st) (create_folder_in st) (delete_file_request st)
          (show_help st) (expanded_folders st) (tree_items st).

Definition set_expanded_folders (e : gset string) (st : AppState) : AppState :=
  mkState (selected_index st) (filtered_notes st) (note_to_open st) (manage_folders st)
          (create_file_in st) (create_folder_in st) (delete_file_request st)
          (show_help st) e (tree_items st).

Definition set_tree_items (t : list TreeItem) (st : AppState) : AppState :=
  mkState (selected_index st) (filtered_notes st) (note_to_open st) (manage_folders st)
          (create_file_in st) (create_folder_in st) (delete_file_request st)
          (show_help st) (expanded_folders st) t.

Definition with_state (f : AppState → AppState) (self : NoteCLI) : NoteCLI :=
  mkCLI (config_folders self) (all_notes self) (f (state self)) (app_exited self).

Definition exit_app (self : NoteCLI) : NoteCLI :=
  mkCLI (config_folders self) (all_notes self) (state self) true.

(** Handlers that index [tree_items] can raise. *)
Inductive result (A : Type) : Type :=
  | Ok (a : A)
  | IndexError.
Arguments Ok {A} a.
Arguments IndexError {A}.

#[global] Instance result_bind : MBind result :=
  λ A B k r, match r with Ok a => k a | IndexError => IndexError end.

(** [l[i]] with Python's negative indices. *)
Definition getitem {A : Type} (l : list A) (i : Z) : result A :=
  let n := Z.of_nat (length l) in
  let j := if i <? 0 then n + i else i in
  if (0 <=? j) && (j <? n)
  then match l !! Z.to_nat j with Some x => Ok x | None => IndexError end
  else IndexError.

(** ** Folder synthesis: [_get_folders] *)

(** ['/'.join(path_parts[:i]) for i in range(1, len(path_parts))] *)
Definition parent_folders (folder : string) : list string :=
  let path_parts := PyStr.split "/" folder in
  map (λ i, PyStr.join "/" (take i path_parts)) (seq 1 (length path_parts - 1)).

(** [folders.add(rel)] followed by the loop adding its parent folders. *)
Definition add_with_parents (rel : string) (folders : gset string) : gset string :=
  foldl (λ acc parent_folder, {[ parent_folder ]} ∪ acc)
        ({[ rel ]} ∪ folders) (parent_folders rel).

(** The inner loop over the configured folders for one note: the first
    folder the note lies under decides, then [break]. *)
Fixpoint add_note_folder (note_parent : Path) (config : list Path)
    (folders : gset string) : gset string :=
  match config with
  | [] => folders
  | folder_path :: rest =>
      match PyPath.relative_to note_parent folder_path with
      | Some relative_path =>
          if PyPath.truthy relative_path
          then add_with_parents (PyPath.str relative_path) folders
          else folders
      | None => add_note_folder note_parent rest folders
      end
  end.

Definition has_notes `{!PyStr.Lower} (files : list string) : bool :=
  existsb (λ f, bool_decide (PyStr.lower (PyPath.suffix f) ∈ NOTE_EXTENSIONS)) files.

(** One iteration of the [os.walk] loop. *)
Definition add_empty_folder `{!PyStr.Lower} (folder_path : Path) (entry : Path * list string)
    (folders : gset string) : gset string :=
  match PyPath.relative_to entry.1 folder_path with
  | Some relative_root =>
      if negb (String.eqb (PyPath.str relative_root) ".")
      then if negb (has_notes entry.2)
           then add_with_parents (PyPath.str relative_root) folders
           else folders
      else folders
  | None => folders
  end.

(** The set built by the two loops of [_get_folders]. *)
Definition folder_set `{!PyStr.Lower} (fs : FS) (self : NoteCLI) : gset string :=
  let folders :=
    foldl (λ acc note, add_note_folder (PyPath.parent note) (config_folders self) acc)
          ∅ (all_notes self) in
  foldl (λ acc folder_path,
           if is_dir fs folder_path
           then foldl (λ acc' entry, add_empty_folder folder_path entry acc')
                      acc (os_walk fs folder_path)
           else acc)
        folders (config_folders self).

Definition _get_folders `{!PyStr.Lower} (fs : FS) (self : NoteCLI) : list string :=
  py_sorted id (elements (folder_set fs self)).

(** ** Tree building: [_build_tree_items] *)

(** The inner loop of [_get_notes_in_folder] for one note. *)
Fixpoint note_in_folder (note_parent : Path) (folder : string)
    (config : list Path) : bool :=
  match config with
  | [] => false
  | config_path :: rest =>
      match PyPath.relative_to note_parent config_path with
      | Some note_relative_path =>
          if String.eqb (PyPath.str note_relative_path) folder then true
          else note_in_folder note_parent folder rest
      | None => note_in_folder note_parent folder rest
      end
  end.

Definition _get_notes_in_folder (self : NoteCLI) (folder : string) : list Path :=
  filter (λ note, note_in_folder (PyPath.parent note) folder (config_folders self) = true)
         (all_notes self).

(** The visibility loop: with a query every folder passes; without one
    a parent that is in [folders] and not expanded hides the folder. *)
Definition should_show (self : NoteCLI) (folders : list string)
    (query folder : string) : bool :=
  if negb (PyStr.truthy query)
  then forallb (λ parent_folder,
                  negb (bool_decide (parent_folder ∈ folders)
                        && negb (bool_decide (parent_folder ∈ expanded_folders (state self)))))
               (parent_folders folder)
  else true.

(** The rows one folder of the sorted list contributes. *)
Definition folder_block `{!PyStr.Lower} (self : NoteCLI) (folders : list string)
    (query folder : string) : list TreeItem :=
  if PyStr.truthy query && negb (PyStr.contains query (PyStr.lower folder)) then []
  else if should_show self folders query folder then
    let indent_level := PyStr.count "/" folder * 2 in
    FolderItem folder indent_level ::
      (if bool_decide (folder ∈ expanded_folders (state self)) || PyStr.truthy query
       then
         map (λ note, NoteItem note (indent_level + 2))
             (filter (λ note, negb (PyStr.truthy query)
                              || PyStr.contains query (PyStr.lower (PyPath.name note)) = true)
                     (py_sorted PyPath.name (_get_notes_in_folder self folder)))
       else [])
  else [].

Definition _build_tree_items `{!PyStr.Lower} (self : NoteCLI) (folders : list string)
    (query : string) : list TreeItem :=
  flat_map (folder_block self folders query) (py_sorted id folders).

Definition _initialize_state `{!PyStr.Lower} (fs : FS) (self : NoteCLI) : NoteCLI :=
  let self1 := with_state (set_filtered_notes (_get_folders fs self)) self in
  with_state
    (set_tree_items (_build_tree_items self1 (filtered_notes (state self1)) EmptyString))
    self1.

(** [NoteCLI.__init__] once the configuration and the notes are loaded. *)
Definition init `{!PyStr.Lower} (fs : FS) (config : list Path) (notes : list Path) : NoteCLI :=
  _initialize_state fs
    (mkCLI config notes (mkState 0 [] None false None None None false ∅ []) false).

(** [_reset_state]: everything back to the initial values except the
    expanded folders. *)
Definition _reset_state `{!PyStr.Lower} (fs : FS) (self : NoteCLI) : NoteCLI :=
  let expanded := expanded_folders (state self) in
  _initialize_state fs
    (mkCLI (config_folders self) (all_notes self)
           (mkState 0 [] None false None None None false expanded [])
           (app_exited self)).

(** ** Key handlers *)

(** [bool(l)] for a list. *)
Definition nonempty {A : Type} (l : list A) : bool :=
  match l with [] => false | _ => true end.

(** The rebuild every structural handler ends with:
    [_build_tree_items(self.state["filtered_notes"])], the query left at
    its default. *)
Definition rebuild_tree_items `{!PyStr.Lower} (self : NoteCLI) : NoteCLI :=
  with_state
    (set_tree_items (_build_tree_items self (filtered_notes (state self)) EmptyString))
    self.

Definition move_down (self : NoteCLI) : NoteCLI :=
  let st := state self in
  if nonempty (tree_items st)
  then with_state
         (set_selected_index
            ((selected_index st + 1) `mod` Z.of_nat (length (tree_items st))))
         self
  else self.

Definition move_up (self : NoteCLI) : NoteCLI :=
  let st := state self in
  if nonempty (tree_items st)
  then with_state
         (set_selected_index
            ((selected_index st - 1 + Z.of_nat (length (tree_items st)))
               `mod` Z.of_nat (length (tree_items st))))
         self
  else self.

Definition expand_folder `{!PyStr.Lower} (self : NoteCLI) : result NoteCLI :=
  let st := state self in
  if nonempty (tree_items st) then
    selected ← getitem (tree_items st) (selected_index st);
    match selected with
    | FolderItem item _ =>
        if negb (bool_decide (item ∈ expanded_folders st))
        then Ok (rebuild_tree_items
                   (with_state (set_expanded_folders ({[ item ]} ∪ expanded_folders st)) self))
        else Ok self
    | NoteItem _ _ => Ok self
    end
  else Ok self.

Definition collapse_folder `{!PyStr.Lower} (self : NoteCLI) : result NoteCLI :=
  let st := state self in
  if nonempty (tree_items st) then
    selected ← getitem (tree_items st) (selected_index st);
    match selected with
    | FolderItem item _ =>
        if bool_decide (item ∈ expanded_folders st)
        then Ok (rebuild_tree_items
                   (with_state (set_expanded_folders (expanded_folders st ∖ {[ item ]})) self))
        else Ok self
    | NoteItem _ _ => Ok self
    end
  else Ok self.

Definition toggle_or_open `{!PyStr.Lower} (self : NoteCLI) : result NoteCLI :=
  let st := state self in
  if nonempty (tree_items st) then
    selected ← getitem (tree_items st) (selected_index st);
    match selected with
    | NoteItem item _ =>
        Ok (exit_app (with_state (set_note_to_open (Some item)) self))
    | FolderItem item _ =>
        let expanded :=
          if bool_decide (item ∈ expanded_folders st)
          then expanded_folders st ∖ {[ item ]}
          else {[ item ]} ∪ expanded_folders st in
        Ok (rebuild_tree_items (with_state (set_expanded_folders expanded) self))
    end
  else Ok self.

(** [_update_filtered_notes(buff)] with [text] the content of the search
    buffer. *)
Definition _update_filtered_notes `{!PyStr.Lower} (fs : FS) (self : NoteCLI) (text : string) : NoteCLI :=
  let query := PyStr.lower text in
  let self1 := with_state (set_filtered_notes (_get_folders fs self)) self in
  let self2 :=
    with_state
      (set_tree_items (_build_tree_items self1 (filtered_notes (state self1)) query))
      self1 in
  with_state (set_selected_index 0) self2.

(** The events of one session of the terminal interface. *)
Inductive Event : Type :=
  | Down | Up | Right | Left | Enter
  | TextChanged (text : string).

Definition handle `{!PyStr.Lower} (fs : FS) (ev : Event) (self : NoteCLI) : result NoteCLI :=
  match ev with
  | Down => Ok (move_down self)
  | Up => Ok (move_up self)
  | Right => expand_folder self
  | Left => collapse_folder self
  | Enter => toggle_or_open self
  | TextChanged text => Ok (_update_filtered_notes fs self text)
  end.

Fixpoint run_events `{!PyStr.Lower} (fs : FS) (evs : list Event) (self : NoteCLI) : result NoteCLI :=
  match evs with
  | [] => Ok self
  | ev :: rest => self' ← handle fs ev self; run_events fs rest self'
  end.

(** ** Reading a row sequence *)

Definition is_folder_row (folder : string) (row : TreeItem) : bool :=
  match row with
  | FolderItem f _ => String.eqb f folder
  | NoteItem _ _ => false
  end.

(** Some row of [rows] is the folder row of [folder]. *)
Definition has_folder_row (folder : string) (rows : list TreeItem) : bool :=
  existsb (is_folder_row folder) rows.

(** The folder rows of a row sequence, in order. *)
Definition folder_rows (rows : list TreeItem) : list string :=
  omap (λ row, match row with FolderItem f _ => Some f | NoteItem _ _ => None end) rows.

(** A folder set is ancestor-closed when, for each member, every proper
    non-empty prefix of its components (split on the slash), joined
    again, is a member too. *)
Definition ancestor_closed (folders : gset string) : Prop :=
  ∀ folder (i : nat),
    folder ∈ folders →
    (0 < i < length (PyStr.split "/" folder))%nat →
    PyStr.join "/" (take i (PyStr.split "/" folder)) ∈ folders.

(** [ancestor] is the path made of the first [i] components of [folder],
    for some [i] strictly between zero and the number of components. *)
Definition is_ancestor (ancestor folder : string) : Prop :=
  ∃ i : nat,
    (0 < i < length (PyStr.split "/" folder))%nat ∧
    ancestor = PyStr.join "/" (take i (PyStr.split "/" folder)).

(** [note] is one of the notes and lies, relative to some configured
    folder, in the directory that prints as [folder]. *)
Definition contained_in (self : NoteCLI) (note : Path) (folder : string) : Prop :=
  note ∈ all_notes self ∧
  ∃ config_path rel,
    config_path ∈ config_folders self ∧
    PyPath.relative_to (PyPath.parent note) config_path = Some rel ∧
    PyPath.str rel = folder.

(** No character of [s] is the separator. *)
Fixpoint sep_free (sep : ascii) (s : string) : bool :=
  match s with
  | EmptyString => true
  | String c r => negb (Ascii.eqb c sep) && sep_free sep r
  end.

(** Every note row of [rows] comes after a folder row of a folder that
    contains it, with nothing but note rows of that same folder in
    between, two columns further in. *)
Definition notes_follow_folder (self : NoteCLI) (rows : list TreeItem) : Prop :=
  ∀ (i : nat) note indent,
    rows !! i = Some (NoteItem note indent) →
    ∃ (j : nat) folder,
      (j < i)%nat ∧
      rows !! j = Some (FolderItem folder (indent - 2)) ∧
      contained_in self note folder ∧
      ∀ k : nat, (j < k < i)%nat →
        ∃ note', rows !! k = Some (NoteItem note' indent)
                 ∧ contained_in self note' folder.

(** ** Sample sessions *)

Module Examples.

#[local] Existing Instance PyStr.ascii_Lower.

Definition root : Path := ["srv"; "notes"].

Definition empty_state (expanded : gset string) : AppState :=
  mkState 0 [] None false None None None false expanded [].

(** An object with no notes and no configured folder, for calling the
    tree builder on a folder list of one's own. *)
Definition bare (expanded : gset string) : NoteCLI :=
  mkCLI [] [] (empty_state expanded) false.

(** [/srv/notes] holds the folder [ab] with two notes and the empty
    folder [b]. *)
Definition notes_two : list Path :=
  [["srv"; "notes"; "ab"; "ab1.md"]; ["srv"; "notes"; "ab"; "ab2.md"]].
Definition fs_two : FS :=
  mkFS [root; ["srv"; "notes"; "ab"]; ["srv"; "notes"; "b"]] notes_two [].
Definition cli_two : NoteCLI := init fs_two [root] notes_two.

(** [/srv/notes] holds the empty folder [a] and the folder [b] with
    one note. *)
Definition notes_ab : list Path := [["srv"; "notes"; "b"; "n.md"]].
Definition fs_ab : FS :=
  mkFS [root; ["srv"; "notes"; "a"]; ["srv"; "notes"; "b"]] notes_ab [].
Definition cli_ab : NoteCLI := init fs_ab [root] notes_ab.

(** Two configured folders, the second inside the first; the scan
    meets the one note once per configured folder. *)
Definition inner : Path := ["srv"; "notes"; "work"].
Definition notes_nested : list Path :=
  [["srv"; "notes"; "work"; "n.md"]; ["srv"; "notes"; "work"; "n.md"]].
Definition fs_nested : FS :=
  mkFS [root; inner] [["srv"; "notes"; "work"; "n.md"]] [].
Definition cli_nested : NoteCLI := init fs_nested [root; inner] notes_nested.

(** The same two configured folders with a folder [sub] in each: an
    empty one in the outer and one with a note in the inner. *)
Definition fs_sub : FS :=
  mkFS [root; ["srv"; "notes"; "sub"]; inner; ["srv"; "notes"; "work"; "sub"]]
       [["srv"; "notes"; "work"; "sub"; "n.md"]] [].
Definition notes_sub : list Path :=
  [["srv"; "notes"; "work"; "sub"; "n.md"]; ["srv"; "notes"; "work"; "sub"; "n.md"]].
Definition cli_sub : NoteCLI := init fs_sub [root; inner] notes_sub.

(** One note directly in the configured folder. *)
Definition notes_flat : list Path := [["srv"; "notes"; "n.md"]].
Definition fs_flat : FS := mkFS [root] notes_flat [].
Definition cli_flat : NoteCLI := init fs_flat [root] notes_flat.

(** One note three folders deep. *)
Definition notes_deep : list Path := [["srv"; "notes"; "x"; "y"; "z"; "n.md"]].
Definition fs_deep : FS :=
  mkFS [root; ["srv"; "notes"; "x"]; ["srv"; "notes"; "x"; "y"];
        ["srv"; "notes"; "x"; "y"; "z"]] notes_deep [].
Definition cli_deep : NoteCLI := init fs_deep [root] notes_deep.

(** Three rows with the selection at [i]. *)
Definition three_rows (i : Z) : NoteCLI :=
  mkCLI [root] notes_ab
        (mkState i ["a"; "b"] None false None None None false {[ "b" ]}
                 [FolderItem "a" 0; FolderItem "b" 0;
                  NoteItem ["srv"; "notes"; "b"; "n.md"] 2])
        false.

(** The session that leaves the selection behind the last row. *)
Definition stale_selection_keys : list Event :=
  [Down; Right; TextChanged "b"; Down; Down; Down; Left].

End Examples.

(** ** Editor and folder validation *)

Definition allowed_editors : list string :=
  ["vim"; "nvim"; "nano"; "code"; "subl"; "atom";
   "notepad"; "notepad++"; "gedit"; "kate"; "mousepad"].

Definition validate_editor `{!PyStr.Lower} (editor : string) : bool :=
  bool_decide (PyStr.lower editor ∈ allowed_editors).

(** [str(p)] of an absolute path. *)
Definition abs_str (p : Path) : string := "/" +:+ PyStr.join "/" p.

Definition sensitive_dirs : list string :=
  ["/etc"; "/var"; "/usr"; "/bin"; "/sbin"; "/root";
   "/boot"; "/dev"; "/proc"; "/sys"; "/tmp";
   "C:" +:+ backslash +:+ "Windows"; "C:" +:+ backslash +:+ "System32";
   "C:" +:+ backslash +:+ "Program Files"].

(** [os.access(p, os.R_OK)]: the filesystem value carries no read
    permissions, so whatever exists is readable. *)
Definition os_access (fs : FS) (p : Path) : bool := exists_ fs p.

Definition validate_folder_access (fs : FS) (folder_path : Path) : bool :=
  let resolved_path := PyPath.resolve folder_path in
  if existsb (λ sensitive_dir, PyStr.startswith (abs_str resolved_path) sensitive_dir)
             sensitive_dirs
  then false
  else is_dir fs resolved_path && os_access fs resolved_path.

(** ** Scanning: [find_notes] *)

(** [path.rglob("*")]: every directory and file strictly below [path];
    the traversal order is the order of the filesystem value. *)
Definition rglob (fs : FS) (path : Path) : list Path :=
  filter (λ p, PyPath.in_parents path p = true) (fs_dirs fs ++ fs_files fs)%list.

Definition is_note_file `{!PyStr.Lower} (fs : FS) (note_file : Path) : bool :=
  is_file fs note_file
  && bool_decide (PyStr.lower (PyPath.suffix (PyPath.name note_file)) ∈ NOTE_EXTENSIONS).

(** [find_notes(folders)]; reading never raises on this filesystem
    value, so the [except] branch has no counterpart. *)
Definition find_notes `{!PyStr.Lower} (fs : FS) (folders : list Path) : list Path :=
  py_sorted PyPath.name
    (flat_map (λ folder,
                 if negb (validate_folder_access fs folder) then []
                 else if is_dir fs folder
                      then filter (λ note_file, is_note_file fs note_file = true)
                                  (rglob fs folder)
                      else [])
              folders).

(** ** The remaining key handlers *)

Definition set_create_file_in (f : option string) (st : AppState) : AppState :=
  mkState (selected_index st) (filtered_notes st) (note_to_open st) (manage_folders st)
          f (create_folder_in st) (delete_file_request st)
          (show_help st) (expanded_folders st) (tree_items st).

Definition set_create_folder_in (f : option string) (st : AppState) : AppState :=
  mkState (selected_index st) (filtered_notes st) (note_to_open st) (manage_folders st)
          (create_file_in st) f (delete_file_request st)
          (show_help st) (expanded_folders st) (tree_items st).

Definition set_delete_file_request (n : option Path) (st : AppState) : AppState :=
  mkState (selected_index st) (filtered_notes st) (note_to_open st) (manage_folders st)
          (create_file_in st) (create_folder_in st) n
          (show_help st) (expanded_folders st) (tree_items st).

Definition set_manage_folders (b : bool) (st : AppState) : AppState :=
  mkState (selected_index st) (filtered_notes st) (note_to_open st) b
          (create_file_in st) (create_folder_in st) (delete_file_request st)
          (show_help st) (expanded_folders st) (tree_items st).

Definition set_show_help (b : bool) (st : AppState) : AppState :=
  mkState (selected_index st) (filtered_notes st) (note_to_open st) (manage_folders st)
          (create_file_in st) (create_folder_in st) (delete_file_request st)
          b (expanded_folders st) (tree_items st).

(** The handlers nested in [_setup_key_bindings] whose names the
    module-level functions already take. *)
Module KeyBindings.

Definition quit_app (self : NoteCLI) : NoteCLI := exit_app self.

Definition open_note (self : NoteCLI) : result NoteCLI :=
  let st := state self in
  if nonempty (tree_items st) then
    selected ← getitem (tree_items st) (selected_index st);
    match selected with
    | NoteItem item _ => Ok (exit_app (with_state (set_note_to_open (Some item)) self))
    | FolderItem _ _ => Ok self
    end
  else Ok self.

Definition create_note (self : NoteCLI) : result NoteCLI :=
  let st := state self in
  if nonempty (tree_items st) then
    selected ← getitem (tree_items st) (selected_index st);
    match selected with
    | FolderItem item _ =>
        Ok (exit_app (with_state (set_create_file_in (Some item)) self))
    | NoteItem _ _ => Ok self
    end
  else Ok self.

Definition create_folder (self : NoteCLI) : result NoteCLI :=
  let st := state self in
  if nonempty (tree_items st) then
    selected ← getitem (tree_items st) (selected_index st);
    match selected with
    | FolderItem item _ =>
        Ok (exit_app (with_state (set_create_folder_in (Some item)) self))
    | NoteItem _ _ => Ok self
    end
  else Ok self.

Definition delete_file (self : NoteCLI) : result NoteCLI :=
  let st := state self in
  if nonempty (tree_items st) then
    selected ← getitem (tree_items st) (selected_index st);
    match selected with
    | NoteItem item _ =>
        Ok (exit_app (with_state (set_delete_file_request (Some item)) self))
    | FolderItem _ _ => Ok self
    end
  else Ok self.

Definition manage_folders (self : NoteCLI) : NoteCLI :=
  exit_app (with_state (set_manage_folders true) self).

Definition show_help (self : NoteCLI) : NoteCLI :=
  exit_app (with_state (set_show_help true) self).

End KeyBindings.

(** The selection index is a valid Python index into the rows. *)
Definition index_valid (self : NoteCLI) : Prop :=
  let n := Z.of_nat (length (tree_items (state self))) in
  - n ≤ selected_index (state self) < n.

(** The rows are what the tree builder gives for the stored folder list
    with no query, as every structural handler leaves them. *)
Definition unfiltered `{!PyStr.Lower} (self : NoteCLI) : Prop :=
  tree_items (state self)
  = _build_tree_items self (filtered_notes (state self)) EmptyString.

(** The row under the selection. *)
Definition selected_row (self : NoteCLI) : option TreeItem :=
  if (0 <=? selected_index (state self))
  then tree_items (state self) !! Z.to_nat (selected_index (state self))
  else None.

(** The directory [d] relative to the first configured folder it lies
    under, as the note loop of [_get_folders] finds it. *)
Fixpoint first_relative (d : Path) (config : list Path) : option Path :=
  match config with
  | [] => None
  | folder_path :: rest =>
      match PyPath.relative_to d folder_path with
      | Some rel => Some rel
      | None => first_relative d rest
      end
  end.

(** The containing folder of a note: its directory relative to the
    first configured folder it lies under, printed. *)
Definition containing_folder (self : NoteCLI) (note : Path) : option string :=
  PyPath.str <$> first_relative (PyPath.parent note) (config_folders self).

(** No note of the object lies under two configured folders. *)
Definition roots_apart (self : NoteCLI) : Prop :=
  ∀ note r1 r2,
    note ∈ all_notes self →
    r1 ∈ config_folders self → r2 ∈ config_folders self →
    PyPath.relative_to (PyPath.parent note) r1 ≠ None →
    PyPath.relative_to (PyPath.parent note) r2 ≠ None →
    r1 = r2.

(** The names of the files directly inside [d]. *)
Definition files_in (fs : FS) (d : Path) : list string :=
  map PyPath.name (filter (λ f, PyPath.parent f = d) (fs_files fs)).

(** [base] is the folder of some note, relative to the first configured
    folder that note lies under. *)
Definition note_folder (self : NoteCLI) (base : string) : Prop :=
  ∃ note rel,
    note ∈ all_notes self
    ∧ first_relative (PyPath.parent note) (config_folders self) = Some rel
    ∧ base = PyPath.str rel.

(** [base] is a directory below a configured folder (an existing
    directory) that has no note file directly inside. *)
Definition noteless_folder `{!PyStr.Lower} (fs : FS) (self : NoteCLI) (base : string) : Prop :=
  ∃ root d rel,
    root ∈ config_folders self
    ∧ is_dir fs root = true
    ∧ d ∈ fs_dirs fs
    ∧ PyPath.relative_to d root = Some rel
    ∧ PyPath.str rel ≠ "."
    ∧ has_notes (files_in fs d) = false
    ∧ base = PyPath.str rel.

(** ** Creating a folder *)

(** [p.mkdir(parents=True, exist_ok=False)]: [None] when the call raises
    (the path exists, or the system refuses); missing parents are
    created along with the directory. *)
Definition mkdir (fs : FS) (p : Path) : option FS :=
  let q := PyPath.resolve p in
  if bool_decide (q ∈ fs_locked fs) then None
  else if exists_ fs p then None
  else
    let missing :=
      filter (λ d, d ∉ fs_dirs fs) (map (λ i, take i q) (seq 1 (length q))) in
    Some (mkFS (missing ++ fs_dirs fs)%list (fs_files fs) (fs_locked fs)).

(** [create_new_folder(parent_folder_path, config)] with [line] the
    text typed at the name prompt. *)
Definition create_new_folder `{!PyStr.Lower} (fs : FS) (parent_folder_path : string)
    (config : list Path) (line : string) : option Path * FS :=
  match locate_folder fs parent_folder_path config None with
  | None => (None, fs)
  | Some None => (None, fs)
  | Some (Some absolute_parent_path) =>
      if negb (is_dir fs absolute_parent_path) then (None, fs)
      else
        let folder_name := PyStr.strip line in
        if negb (PyStr.truthy folder_name) then (None, fs)
        else if negb (validate_filename folder_name) then (None, fs)
        else
          let new_folder_path := PyPath.joinpath absolute_parent_path folder_name in
          if exists_ fs new_folder_path then (None, fs)
          else match mkdir fs new_folder_path with
               | Some fs' => (Some new_folder_path, fs')
               | None => (None, fs)
               end
  end.

(** ** Rendering: [_get_notes_text] *)

Definition newline : string := String (ascii_of_nat 10) EmptyString.

(** [s * n] *)
Definition str_repeat (s : string) (n : Z) : string :=
  Nat.iter (Z.to_nat n) (λ acc, s +:+ acc) EmptyString.

(** The two fragments of one row; [i] is the row's position. *)
Definition row_text (self : NoteCLI) (i : Z) (row : TreeItem) : list (string * string) :=
  let is_selected := i =? selected_index (state self) in
  match row with
  | FolderItem item indent =>
      let indent_str := str_repeat "  " indent in
      let style := if is_selected then "class:selected-folder" else "class:folder" in
      let expand_indicator :=
        if bool_decide (item ∈ expanded_folders (state self)) then "▼" else "▶" in
      let folder_name :=
        if PyStr.contains "/" item then List.last (PyStr.split "/" item) EmptyString
        else item in
      [(style, indent_str +:+ expand_indicator +:+ " 📁 " +:+ folder_name);
       (EmptyString, newline)]
  | NoteItem item indent =>
      let indent_str := str_repeat "  " indent in
      let style := if is_selected then "class:selected" else EmptyString in
      [(style, indent_str +:+ "  📄 " +:+ PyPath.name item); (EmptyString, newline)]
  end.

(** The loop over [enumerate(tree_items)], from position [i] on. *)
Fixpoint rows_text (self : NoteCLI) (i : Z) (rows : list TreeItem)
    : list (string * string) :=
  match rows with
  | [] => []
  | row :: rest => (row_text self i row ++ rows_text self (i + 1) rest)%list
  end.

Definition _get_notes_text (self : NoteCLI) : list (string * string) :=
  let result := rows_text self 0 (tree_items (state self)) in
  if negb (nonempty (tree_items (state self)))
  then (result ++ [(EmptyString, "No folders or notes found.")])%list
  else result.

(** The two styles that mark the selected row. *)
Definition selected_style (style : string) : Prop :=
  style = "class:selected-folder" ∨ style = "class:selected".

(** An event that leaves the query empty. *)
Definition query_free (ev : Event) : Prop :=
  match ev with
  | TextChanged text => text = EmptyString
  | _ => True
  end.

(** What the handlers rely on: the rows are those of the stored folder
    list without a query, the list has no repetition, and the selection
    index is inside the rows unless there are none. *)
Definition selection_ok `{!PyStr.Lower} (self : NoteCLI) : Prop :=
  unfiltered self
  ∧ NoDup (filtered_notes (state self))
  ∧ (tree_items (state self) = []
     ∨ 0 ≤ selected_index (state self) < Z.of_nat (length (tree_items (state self)))).

(** Strictly ascending in Python's string order. *)
Definition str_lt (a b : string) : Prop := String.ltb a b = true.
Definition str_le (a b : string) : Prop := String.leb a b = true.

(** Ascending by a key. *)
Definition key_le {A : Type} (key : A → string) (a b : A) : Prop :=
  str_le (key a) (key b).

(** ** String facts *)

Section Properties.

Context {py_lower : PyStr.Lower}.

Section SplitJoin.
Variable sep : ascii.

Lemma split_not_nil s : PyStr.split sep s ≠ [].
Proof.
  destruct s as [|c r]; simpl; [done|].
  destruct (Ascii.eqb c sep); [done|].
  destruct (PyStr.split sep r); done.
Qed.

Lemma split_parts_sep_free s : Forall (λ p, sep_free sep p = true) (PyStr.split sep s).
Proof.
  induction s as [|c r IH]; simpl.
  - by constructor.
  - destruct (Ascii.eqb c sep) eqn:Hc.
    + by constructor.
    + destruct (PyStr.split sep r) as [|h t]; simpl.
      * constructor; [simpl; by rewrite Hc | constructor].
      * inversion IH; subst. constructor; [|done].
        simpl. by rewrite Hc.
Qed.

Lemma split_sep_free p : sep_free sep p = true → PyStr.split sep p = [p].
Proof.
  induction p as [|c r IH]; simpl; [done|].
  intros [Hc Hr]%andb_true_iff.
  apply negb_true_iff in Hc. rewrite Hc, (IH Hr). done.
Qed.

Lemma split_app_sep p t :
  sep_free sep p = true →
  PyStr.split sep (p +:+ String sep t) = p :: PyStr.split sep t.
Proof.
  induction p as [|c r IH]; simpl.
  - intros _. by rewrite Ascii.eqb_refl.
  - intros [Hc Hr]%andb_true_iff.
    apply negb_true_iff in Hc. rewrite Hc, (IH Hr). done.
Qed.

Lemma split_join l :
  l ≠ [] → Forall (λ p, sep_free sep p = true) l →
  PyStr.split sep (PyStr.join sep l) = l.
Proof.
  induction l as [|p l IH]; [done|].
  intros _ Hall. inversion Hall as [|? ? Hp Hl]; subst.
  destruct l as [|q l].
  - simpl. by apply split_sep_free.
  - change (PyStr.join sep (p :: q :: l))
      with (p +:+ String sep (PyStr.join sep (q :: l))).
    rewrite split_app_sep by done. f_equal. by apply IH.
Qed.

Lemma join_split s : PyStr.join sep (PyStr.split sep s) = s.
Proof.
  induction s as [|c r IH]; simpl; [done|].
  destruct (Ascii.eqb c sep) eqn:Hc.
  - apply Ascii.eqb_eq in Hc as ->.
    pose proof (split_not_nil r) as Hne.
    destruct (PyStr.split sep r) as [|h t] eqn:Hr; [done|].
    simpl in *. by rewrite IH.
  - pose proof (split_not_nil r) as Hne.
    destruct (PyStr.split sep r) as [|h t] eqn:Hr; [done|].
    destruct t as [|h' t]; simpl in *; by rewrite <- IH.
Qed.

(** Splitting a joined non-empty prefix of a split gives the prefix back. *)
Lemma split_join_take s (i : nat) :
  (0 < i)%nat →
  PyStr.split sep (PyStr.join sep (take i (PyStr.split sep s)))
  = take i (PyStr.split sep s).
Proof.
  intros Hi. apply split_join.
  - pose proof (split_not_nil s).
    destruct (PyStr.split sep s); [done|]. destruct i; [lia|done].
  - apply Forall_take, split_parts_sep_free.
Qed.
End SplitJoin.

Example split_abc : PyStr.split "/" "a/b/c" = ["a"; "b"; "c"].
Proof. reflexivity. Qed.

Example split_edges :
  PyStr.split "/" "/a//" = [EmptyString; "a"; EmptyString; EmptyString].
Proof. reflexivity. Qed.

Example suffix_cases :
  PyPath.suffix "plan.MD" = ".MD" ∧ PyPath.suffix ".md" = EmptyString
  ∧ PyPath.suffix "plan." = EmptyString ∧ PyPath.suffix "a.tar.gz" = ".gz".
Proof. repeat split. Qed.

Example resolve_dots :
  PyPath.resolve ["srv"; "notes"; ".."; ".."; ".."; "etc"] = ["etc"].
Proof. reflexivity. Qed.

Lemma lower_empty : PyStr.lower EmptyString = EmptyString.
Proof. by rewrite PyStr.lower_ascii. Qed.

Lemma lower_truthy s : PyStr.truthy (PyStr.lower s) = PyStr.truthy s.
Proof.
  destruct s as [|c s]; [by rewrite lower_empty|].
  destruct (PyStr.lower (String c s)) eqn:Hl; [|done].
  by apply PyStr.lower_nonempty in Hl.
Qed.

Lemma truthy_true s : PyStr.truthy s = true ↔ s ≠ EmptyString.
Proof. destruct s; simpl; split; done. Qed.

(** ** Sorting keeps the elements *)

Lemma elem_of_insert_by {A : Type} (key : A → string) (x a : A) (l : list A) :
  x ∈ insert_by key a l ↔ x = a ∨ x ∈ l.
Proof.
  induction l as [|y l IH]; simpl.
  - set_solver.
  - destruct (String.leb (key a) (key y)); set_solver.
Qed.

Lemma elem_of_py_sorted {A : Type} (key : A → string) (x : A) (l : list A) :
  x ∈ py_sorted key l ↔ x ∈ l.
Proof.
  induction l as [|y l IH]; simpl; [done|].
  rewrite elem_of_insert_by, IH. set_solver.
Qed.

(** ** Facts about folder synthesis *)

Lemma elem_of_parent_folders p folder :
  p ∈ parent_folders folder ↔ is_ancestor p folder.
Proof.
  unfold parent_folders, is_ancestor. rewrite list_elem_of_fmap. split.
  - intros (i & -> & Hi). apply elem_of_seq in Hi. exists i. split; [lia|done].
  - intros (i & Hi & ->). exists i. split; [done|]. apply elem_of_seq. lia.
Qed.

Lemma elem_of_add_all (l : list string) (X : gset string) x :
  x ∈ foldl (λ acc parent_folder, {[ parent_folder ]} ∪ acc) X l ↔ x ∈ l ∨ x ∈ X.
Proof.
  revert X. induction l as [|y l IH]; intros X; simpl.
  - set_solver.
  - rewrite IH. set_solver.
Qed.

Lemma elem_of_add_with_parents rel (X : gset string) x :
  x ∈ add_with_parents rel X ↔ x = rel ∨ is_ancestor x rel ∨ x ∈ X.
Proof.
  unfold add_with_parents. rewrite elem_of_add_all, elem_of_parent_folders.
  set_solver.
Qed.

(** An ancestor of an ancestor is an ancestor. *)
Lemma is_ancestor_trans a b c : is_ancestor a b → is_ancestor b c → is_ancestor a c.
Proof.
  intros (i & Hi & ->) (j & Hj & ->).
  rewrite split_join_take in Hi |- * by lia.
  rewrite length_take in Hi.
  exists i. split; [lia|]. rewrite take_take. f_equal. f_equal. lia.
Qed.

Lemma add_with_parents_closed rel (X : gset string) :
  ancestor_closed X → ancestor_closed (add_with_parents rel X).
Proof.
  intros HX folder i Hin Hi.
  assert (Hanc : is_ancestor (PyStr.join "/" (take i (PyStr.split "/" folder))) folder)
    by (by exists i).
  revert Hanc. generalize (PyStr.join "/" (take i (PyStr.split "/" folder))). intros p Hanc.
  apply elem_of_add_with_parents in Hin. apply elem_of_add_with_parents.
  destruct Hin as [-> | [Hin | Hin]].
  - by right; left.
  - right; left. by eapply is_ancestor_trans.
  - right; right. destruct Hanc as (k & Hk & ->). by apply HX.
Qed.

Lemma add_with_parents_mono rel (X : gset string) : X ⊆ add_with_parents rel X.
Proof. intros x Hx. apply elem_of_add_with_parents. auto. Qed.

Lemma add_note_folder_closed d config (X : gset string) :
  ancestor_closed X → ancestor_closed (add_note_folder d config X).
Proof.
  intros HX. induction config as [|r config IH]; simpl; [done|].
  destruct (PyPath.relative_to d r); [|done].
  simpl. by apply add_with_parents_closed.
Qed.

Lemma add_note_folder_mono d config (X : gset string) : X ⊆ add_note_folder d config X.
Proof.
  induction config as [|r config IH]; simpl; [done|].
  destruct (PyPath.relative_to d r); [|done].
  simpl. apply add_with_parents_mono.
Qed.

Lemma add_empty_folder_closed r entry (X : gset string) :
  ancestor_closed X → ancestor_closed (add_empty_folder r entry X).
Proof.
  intros HX. unfold add_empty_folder.
  destruct (PyPath.relative_to entry.1 r); [|done].
  destruct (negb _); [|done]. destruct (negb _); [|done].
  by apply add_with_parents_closed.
Qed.

Lemma add_empty_folder_mono r entry (X : gset string) : X ⊆ add_empty_folder r entry X.
Proof.
  unfold add_empty_folder.
  destruct (PyPath.relative_to entry.1 r); [|done].
  destruct (negb _); [|done]. destruct (negb _); [|done].
  apply add_with_parents_mono.
Qed.

(** A loop whose every step keeps an invariant keeps it. *)
Lemma foldl_invariant {A B : Type} (P : B → Prop) (f : B → A → B) (l : list A) (b : B) :
  (∀ b a, P b → P (f b a)) → P b → P (foldl f b l).
Proof.
  intros Hf. revert b. induction l as [|a l IH]; intros b Hb; simpl; [done|].
  apply IH, Hf, Hb.
Qed.

Lemma walk_loop_closed fs r (X : gset string) :
  ancestor_closed X →
  ancestor_closed
    (foldl (λ acc' entry, add_empty_folder r entry acc') X (os_walk fs r)).
Proof.
  apply (foldl_invariant ancestor_closed). intros. by apply add_empty_folder_closed.
Qed.

Lemma walk_loop_mono fs r (X : gset string) x :
  x ∈ X → x ∈ foldl (λ acc' entry, add_empty_folder r entry acc') X (os_walk fs r).
Proof.
  apply (foldl_invariant (λ Y : gset string, x ∈ Y)).
  intros Y e HY. by apply add_empty_folder_mono.
Qed.

Lemma folder_set_closed fs self : ancestor_closed (folder_set fs self).
Proof.
  unfold folder_set.
  apply (foldl_invariant ancestor_closed).
  - intros X r HX. destruct (is_dir fs r); [|done]. by apply walk_loop_closed.
  - apply (foldl_invariant ancestor_closed).
    + intros X note HX. by apply add_note_folder_closed.
    + intros folder i Hin. set_solver.
Qed.

Lemma elem_of_get_folders fs self x : x ∈ _get_folders fs self ↔ x ∈ folder_set fs self.
Proof. unfold _get_folders. rewrite elem_of_py_sorted. apply elem_of_elements. Qed.

(** Whatever the note loop has put in the set is in the result. *)
Lemma folder_set_keeps_note_folders fs self x :
  x ∈ foldl (λ acc note, add_note_folder (PyPath.parent note) (config_folders self) acc)
            (∅ : gset string) (all_notes self) →
  x ∈ folder_set fs self.
Proof.
  intros Hx. unfold folder_set.
  apply (foldl_invariant (λ Y : gset string, x ∈ Y)); [|done].
  intros Y r HY. destruct (is_dir fs r); [|done]. by apply walk_loop_mono.
Qed.

Lemma note_loop_mono config (notes : list Path) (X : gset string) x :
  x ∈ X →
  x ∈ foldl (λ acc note, add_note_folder (PyPath.parent note) config acc) X notes.
Proof.
  apply (foldl_invariant (λ Y : gset string, x ∈ Y)).
  intros Y n HY. by apply add_note_folder_mono.
Qed.

(** The note loop visits every note: what one visit adds stays. *)
Lemma note_loop_adds config (notes : list Path) (X : gset string) note x :
  note ∈ notes →
  (∀ Y : gset string, x ∈ add_note_folder (PyPath.parent note) config Y) →
  x ∈ foldl (λ acc n, add_note_folder (PyPath.parent n) config acc) X notes.
Proof.
  intros Hin Hadd. revert X.
  induction notes as [|n notes IH]; intros X; [by apply elem_of_nil in Hin|].
  simpl. apply elem_of_cons in Hin as [<- | Hin].
  - apply note_loop_mono, Hadd.
  - by apply IH.
Qed.

(** ** Facts about tree building *)

Lemma has_folder_row_app folder rows1 rows2 :
  has_folder_row folder (rows1 ++ rows2)
  = has_folder_row folder rows1 || has_folder_row folder rows2.
Proof. apply existsb_app. Qed.

Lemma has_folder_row_notes folder (f : Path → TreeItem) notes :
  (∀ n, is_folder_row folder (f n) = false) →
  has_folder_row folder (map f notes) = false.
Proof.
  intros Hf. induction notes as [|n notes IH]; simpl; [done|].
  by rewrite Hf, IH.
Qed.

Lemma has_folder_row_spec folder rows :
  has_folder_row folder rows = true ↔ ∃ indent, FolderItem folder indent ∈ rows.
Proof.
  unfold has_folder_row. rewrite existsb_exists. split.
  - intros ([f ind | n ind] & Hin & Hrow); simpl in Hrow; [|done].
    apply String.eqb_eq in Hrow as ->. exists ind. by apply list_elem_of_In.
  - intros (ind & Hin). exists (FolderItem folder ind). split.
    + by apply list_elem_of_In.
    + simpl. apply String.eqb_refl.
Qed.

Lemma has_folder_row_flat_map {A : Type} folder (g : A → list TreeItem) (l : list A) :
  has_folder_row folder (flat_map g l) = true
  ↔ ∃ x, x ∈ l ∧ has_folder_row folder (g x) = true.
Proof.
  induction l as [|y l IH]; simpl.
  - split; [done|]. intros (x & Hx & _). by apply elem_of_nil in Hx.
  - rewrite has_folder_row_app, orb_true_iff, IH. split.
    + intros [Hy | (x & Hx & Hrow)]; [exists y | exists x]; set_solver.
    + intros (x & [-> | Hx]%elem_of_cons & Hrow); [by left | right; eauto].
Qed.

(** A block holds the row of its own folder and of no other. *)
Lemma folder_block_has_folder_row self folders query x folder :
  has_folder_row folder (folder_block self folders query x) = true
  ↔ x = folder
    ∧ (PyStr.truthy query && negb (PyStr.contains query (PyStr.lower x))) = false
    ∧ should_show self folders query x = true.
Proof.
  unfold folder_block.
  destruct (PyStr.truthy query && negb (PyStr.contains query (PyStr.lower x))).
  { simpl. split; [done | by intros (_ & ? & _)]. }
  destruct (should_show self folders query x).
  2: { simpl. split; [done | by intros (_ & _ & ?)]. }
  set (indent := PyStr.count "/" x * 2).
  assert (Hrow : ∀ rest,
    has_folder_row folder (FolderItem x indent :: map (λ note, NoteItem note (indent + 2)) rest)
    = String.eqb x folder).
  { intros rest. unfold has_folder_row at 1. cbn [existsb is_folder_row].
    fold (has_folder_row folder (map (λ note, NoteItem note (indent + 2)) rest)).
    rewrite has_folder_row_notes by done. apply orb_false_r. }
  destruct (bool_decide (x ∈ expanded_folders (state self)) || PyStr.truthy query).
  - rewrite Hrow, String.eqb_eq. naive_solver.
  - specialize (Hrow []). cbn [map] in Hrow. rewrite Hrow, String.eqb_eq. naive_solver.
Qed.

Lemma should_show_no_query self folders folder :
  should_show self folders EmptyString folder = true
  ↔ ∀ p, is_ancestor p folder → p ∈ folders → p ∈ expanded_folders (state self).
Proof.
  unfold should_show. simpl. rewrite forallb_forall. split.
  - intros Hall p Hanc Hin.
    apply elem_of_parent_folders, list_elem_of_In, Hall in Hanc.
    apply negb_true_iff, andb_false_iff in Hanc as [Hf | He].
    + by apply bool_decide_eq_false in Hf.
    + by apply negb_false_iff, bool_decide_eq_true in He.
  - intros Hall p Hp. apply list_elem_of_In, elem_of_parent_folders in Hp.
    apply negb_true_iff, andb_false_iff.
    destruct (decide (p ∈ folders)) as [Hin | Hnin].
    + right. apply negb_false_iff, bool_decide_eq_true. by apply Hall.
    + left. by apply bool_decide_eq_false.
Qed.

Lemma should_show_query self folders query folder :
  PyStr.truthy query = true → should_show self folders query folder = true.
Proof. unfold should_show. by intros ->. Qed.

(** With a matching non-empty query the block starts with the folder row. *)
Lemma folder_block_query self folders query folder :
  PyStr.truthy query = true →
  PyStr.contains query (PyStr.lower folder) = true →
  FolderItem folder (PyStr.count "/" folder * 2) ∈ folder_block self folders query folder.
Proof.
  intros Hq Hc. unfold folder_block.
  rewrite Hq, Hc, should_show_query by done. simpl. apply list_elem_of_here.
Qed.

Lemma elem_of_get_notes_in_folder self note folder :
  note ∈ _get_notes_in_folder self folder → contained_in self note folder.
Proof.
  unfold _get_notes_in_folder, contained_in.
  rewrite list_elem_of_filter. intros [Hloop Hin]. split; [done|].
  induction (config_folders self) as [|r config IH]; simpl in Hloop; [done|].
  destruct (PyPath.relative_to (PyPath.parent note) r) as [rel|] eqn:Hrel.
  - destruct (String.eqb (PyPath.str rel) folder) eqn:Hstr.
    + apply String.eqb_eq in Hstr. exists r, rel. set_solver.
    + destruct (IH Hloop) as (r' & rel' & ? & ? & ?). exists r', rel'. set_solver.
  - destruct (IH Hloop) as (r' & rel' & ? & ? & ?). exists r', rel'. set_solver.
Qed.

(** Every block is empty or a folder row followed by notes of that folder. *)
Lemma folder_block_shape self folders query folder :
  folder_block self folders query folder = []
  ∨ ∃ notes,
      folder_block self folders query folder
      = FolderItem folder (PyStr.count "/" folder * 2)
          :: map (λ note, NoteItem note (PyStr.count "/" folder * 2 + 2)) notes
      ∧ Forall (λ note, contained_in self note folder) notes.
Proof.
  unfold folder_block.
  destruct (PyStr.truthy query && negb (PyStr.contains query (PyStr.lower folder)));
    [by left|].
  destruct (should_show self folders query folder); [|by left].
  right.
  destruct (bool_decide (folder ∈ expanded_folders (state self)) || PyStr.truthy query).
  - eexists. split; [done|].
    apply Forall_forall. intros note Hin.
    apply list_elem_of_filter in Hin as [_ Hin].
    apply elem_of_py_sorted in Hin. by apply elem_of_get_notes_in_folder.
  - exists []. split; [done | constructor].
Qed.

Lemma notes_follow_folder_nil self : notes_follow_folder self [].
Proof. intros i note indent Hi. by rewrite lookup_nil in Hi. Qed.

(** A well-formed block in front of a grouped sequence keeps it grouped. *)
Lemma notes_follow_folder_block self folder indent notes rest :
  Forall (λ note, contained_in self note folder) notes →
  notes_follow_folder self rest →
  notes_follow_folder self
    ((FolderItem folder indent :: map (λ note, NoteItem note (indent + 2)) notes) ++ rest).
Proof.
  intros Hnotes Hrest i note ind Hi.
  set (block := FolderItem folder indent :: map (λ n, NoteItem n (indent + 2)) notes) in *.
  assert (Hlen : length block = S (length notes)).
  { unfold block. simpl. by rewrite length_map. }
  assert (Hblock : ∀ k : nat, (0 < k < length block)%nat →
            ∃ n, block !! k = Some (NoteItem n (indent + 2)) ∧ contained_in self n folder).
  { intros [|k] Hk; [lia|]. unfold block. simpl.
    rewrite Hlen in Hk.
    destruct (lookup_lt_is_Some_2 notes k) as [n Hn]; [lia|].
    exists n. rewrite list_lookup_fmap, Hn. split; [done|].
    exact (Forall_lookup_1 _ notes k n Hnotes Hn). }
  destruct (decide (i < length block)%nat) as [Hlt | Hge].
  - rewrite lookup_app_l in Hi by done.
    destruct i as [|i]; [done|].
    destruct (Hblock (S i)) as (n & Hn & Hc); [lia|].
    rewrite Hn in Hi. injection Hi as -> <-.
    exists 0%nat, folder. split; [lia|]. split.
    { simpl. do 2 f_equal. lia. }
    split; [done|]. intros k Hk.
    destruct (Hblock k) as (n' & Hn' & Hc'); [lia|].
    exists n'. by rewrite lookup_app_l by lia.
  - rewrite lookup_app_r in Hi by lia.
    destruct (Hrest _ _ _ Hi) as (j & f & Hj & Hrow & Hc & Hbetween).
    exists (length block + j)%nat, f. split; [lia|]. split.
    { rewrite lookup_app_r by lia. rewrite <- Hrow. f_equal. lia. }
    split; [done|]. intros k Hk.
    destruct (Hbetween (k - length block)%nat) as (n' & Hn' & Hc'); [lia|].
    exists n'. by rewrite lookup_app_r by lia.
Qed.

Lemma notes_follow_folder_blocks self folders query (l : list string) :
  notes_follow_folder self (flat_map (folder_block self folders query) l).
Proof.
  induction l as [|folder l IH]; simpl.
  - apply notes_follow_folder_nil.
  - destruct (folder_block_shape self folders query folder) as [-> | (notes & -> & Hall)].
    + done.
    + by apply notes_follow_folder_block.
Qed.

(** ** Selection *)

Lemma nonempty_true {A : Type} (l : list A) : nonempty l = true ↔ l ≠ [].
Proof. destruct l; simpl; split; done. Qed.

(** C8. [move_down] and [move_up] wrap around modulo the number of rows:
    on a non-empty row sequence of length [n] they take the index [i] to
    [(i + 1) mod n] and [(i - 1) mod n], so the last row steps down to
    row 0 and row 0 steps up to the last row; on an empty row sequence
    both leave the object as it is. *)
Theorem move_wraps_around (self : NoteCLI) :
  let n := Z.of_nat (length (tree_items (state self))) in
  let i := selected_index (state self) in
  (tree_items (state self) = [] → move_down self = self ∧ move_up self = self)
  ∧ (tree_items (state self) ≠ [] →
       selected_index (state (move_down self)) = (i + 1) `mod` n
       ∧ selected_index (state (move_up self)) = (i - 1) `mod` n
       ∧ (i = n - 1 → selected_index (state (move_down self)) = 0)
       ∧ (i = 0 → selected_index (state (move_up self)) = n - 1)
       ∧ tree_items (state (move_down self)) = tree_items (state self)
       ∧ tree_items (state (move_up self)) = tree_items (state self)).
Proof.
  intros n i. split.
  - intros Hnil. unfold move_down, move_up. by rewrite Hnil.
  - intros Hne.
    assert (Hn : 0 < n).
    { unfold n. destruct (tree_items (state self)); [done | simpl; lia]. }
    apply nonempty_true in Hne.
    unfold move_down, move_up. rewrite Hne. simpl. fold n. fold i.
    assert (Hup : (i - 1 + n) `mod` n = (i - 1) `mod` n).
    { replace (i - 1 + n) with (i - 1 + 1 * n) by lia. apply Z_mod_plus_full. }
    repeat split.
    + done.
    + intros ->. replace (n - 1 + 1) with (0 + 1 * n) by lia.
      rewrite Z_mod_plus_full. by apply Z.mod_0_l, Z.neq_sym, Z.lt_neq.
    + intros ->. rewrite Hup. symmetry. apply Z.mod_unique with (q := -1); lia.
Qed.

Lemma rebuild_tree_items_selected_index self :
  selected_index (state (rebuild_tree_items self)) = selected_index (state self).
Proof. done. Qed.

(** C1, as the code has it.  After a query edit the rows are rebuilt and
    the selection index is 0.  Expanding, collapsing or toggling a folder
    rebuilds the rows and leaves the selection index as it was. *)
Theorem selection_after_rebuild (fs : FS) (self : NoteCLI) :
  (∀ text, selected_index (state (_update_filtered_notes fs self text)) = 0)
  ∧ (∀ self', expand_folder self = Ok self' →
       selected_index (state self') = selected_index (state self))
  ∧ (∀ self', collapse_folder self = Ok self' →
       selected_index (state self') = selected_index (state self))
  ∧ (∀ self', toggle_or_open self = Ok self' →
       selected_index (state self') = selected_index (state self)).
Proof.
  split; [done|].
  unfold expand_folder, collapse_folder, toggle_or_open.
  destruct (nonempty (tree_items (state self))).
  2: { repeat split; intros self' [= <-]; done. }
  destruct (getitem (tree_items (state self)) (selected_index (state self)))
    as [[item ind | item ind]|]; simpl.
  - repeat split; intros self'.
    + destruct (negb _); intros [= <-]; done.
    + destruct (bool_decide _); intros [= <-]; done.
    + intros [= <-]; done.
  - repeat split; intros self' [= <-]; done.
  - repeat split; intros self'; done.
Qed.

(** Moving keeps the selection inside a non-empty row sequence, and a
    query edit puts it on the first row. *)
Lemma move_keeps_selection_in_range (self : NoteCLI) :
  tree_items (state self) ≠ [] →
  let n := Z.of_nat (length (tree_items (state self))) in
  0 ≤ selected_index (state (move_down self)) < n
  ∧ 0 ≤ selected_index (state (move_up self)) < n.
Proof.
  intros Hne n.
  assert (Hn : 0 < n).
  { unfold n. destruct (tree_items (state self)); [done | simpl; lia]. }
  apply nonempty_true in Hne. unfold move_down, move_up. rewrite Hne. simpl.
  fold n. split; by apply Z.mod_pos_bound.
Qed.

(** ** Visibility *)

(** A folder has a row exactly when it is in the list, passes the query
    filter and passes the visibility loop. *)
Lemma folder_row_iff_shown self folders query folder :
  has_folder_row folder (_build_tree_items self folders query) = true
  ↔ folder ∈ folders
    ∧ (PyStr.truthy query && negb (PyStr.contains query (PyStr.lower folder))) = false
    ∧ should_show self folders query folder = true.
Proof.
  unfold _build_tree_items. rewrite has_folder_row_flat_map. split.
  - intros (x & Hx & Hrow).
    apply folder_block_has_folder_row in Hrow as (-> & Hq & Hshow).
    split; [by apply elem_of_py_sorted in Hx | done].
  - intros (Hin & Hq & Hshow). exists folder. split; [by apply elem_of_py_sorted|].
    by apply folder_block_has_folder_row.
Qed.

(** The visibility loop looks at the ancestor prefixes that are
    themselves in the folder list: with an empty query a folder has a
    row in the built sequence exactly when it is in the list and each of
    those is expanded. *)
Lemma folder_row_without_query (self : NoteCLI) (folders : list string)
    (folder : string) :
  has_folder_row folder (_build_tree_items self folders EmptyString) = true
  ↔ folder ∈ folders
    ∧ ∀ p, is_ancestor p folder → p ∈ folders → p ∈ expanded_folders (state self).
Proof.
  rewrite folder_row_iff_shown. split.
  - intros (Hin & _ & Hshow). split; [done|].
    intros p Hp Hfolders.
    by apply (proj1 (should_show_no_query self folders folder) Hshow).
  - intros [Hin Hanc]. split; [done|]. split; [done|].
    apply should_show_no_query. intros p Hp Hfolders. by apply Hanc.
Qed.

(** C3.  With an empty query, on every folder list that holds the
    ancestor prefixes of its members (every list folder synthesis
    returns is one, and the tree is built from no other) and for every
    expanded set, a folder has a row in the built sequence exactly when
    it is in the list and every ancestor prefix of its path is in the
    expanded set. *)
Theorem folder_visible_without_query (self : NoteCLI) (folders : list string)
    (folder : string) :
  (∀ f p, f ∈ folders → is_ancestor p f → p ∈ folders) →
  has_folder_row folder (_build_tree_items self folders EmptyString) = true
  ↔ folder ∈ folders
    ∧ ∀ p, is_ancestor p folder → p ∈ expanded_folders (state self).
Proof.
  intros Hclosed. rewrite folder_row_iff_shown, should_show_no_query. split.
  - intros (Hin & _ & Hanc). split; [done|]. intros p Hp. apply Hanc; [done|].
    by apply (Hclosed folder).
  - intros [Hin Hanc]. split; [done|]. split; [done|]. intros p Hp _. by apply Hanc.
Qed.

(** The same on the lists the program builds its rows from, the results
    of [_get_folders], with nothing assumed. *)
Lemma folder_visible_on_synthesized (fs : FS) (other self : NoteCLI) (folder : string) :
  has_folder_row folder
    (_build_tree_items self (_get_folders fs other) EmptyString) = true
  ↔ folder ∈ _get_folders fs other
    ∧ ∀ p, is_ancestor p folder → p ∈ expanded_folders (state self).
Proof.
  rewrite folder_row_iff_shown, should_show_no_query. split.
  - intros (Hin & _ & Hanc). split; [done|]. intros p Hp. apply Hanc; [done|].
    destruct Hp as (i & Hi & ->). revert Hin. rewrite !elem_of_get_folders.
    intros Hin. by apply folder_set_closed.
  - intros [Hin Hanc]. split; [done|]. split; [done|]. intros p Hp _. by apply Hanc.
Qed.

(** With a non-empty lower-case query every folder of the list whose
    lower-cased path contains it gets its row, whatever is expanded. *)
Lemma build_tree_items_query self folders query folder :
  query ≠ EmptyString →
  folder ∈ folders →
  PyStr.contains query (PyStr.lower folder) = true →
  FolderItem folder (PyStr.count "/" folder * 2) ∈ _build_tree_items self folders query.
Proof.
  intros Hq Hin Hc. apply truthy_true in Hq.
  unfold _build_tree_items. apply list_elem_of_In, in_flat_map.
  exists folder. split.
  - by apply list_elem_of_In, elem_of_py_sorted.
  - by apply list_elem_of_In, folder_block_query.
Qed.

(** C4.  After the search text changes to a non-empty [text], every
    synthesized folder whose path contains [text], both lower-cased, has
    its folder row among the rows, for any state of the object and so
    for any expanded set. *)
Theorem query_bypasses_expansion (fs : FS) (self : NoteCLI) (text folder : string) :
  text ≠ EmptyString →
  folder ∈ _get_folders fs self →
  PyStr.contains (PyStr.lower text) (PyStr.lower folder) = true →
  FolderItem folder (PyStr.count "/" folder * 2)
  ∈ tree_items (state (_update_filtered_notes fs self text)).
Proof.
  intros Htext Hin Hc. unfold _update_filtered_notes. simpl.
  apply build_tree_items_query; [|done|done].
  apply truthy_true. rewrite lower_truthy. by apply truthy_true.
Qed.

(** In every row sequence the tree builder returns, a note row at index
    [i] has a folder row at some earlier index [j]; the note is listed
    under the folder of that row (its directory is that folder relative
    to some configured folder), the rows strictly between [j] and [i]
    are note rows of the same folder, and the note rows sit two columns
    further in than the folder row. *)
Lemma note_rows_follow_a_listing_folder (self : NoteCLI) (folders : list string)
    (query : string) (i : nat) (note : Path) (indent : Z) :
  _build_tree_items self folders query !! i = Some (NoteItem note indent) →
  ∃ (j : nat) folder,
    (j < i)%nat
    ∧ _build_tree_items self folders query !! j = Some (FolderItem folder (indent - 2))
    ∧ contained_in self note folder
    ∧ ∀ k : nat, (j < k < i)%nat →
        ∃ note', _build_tree_items self folders query !! k = Some (NoteItem note' indent)
                 ∧ contained_in self note' folder.
Proof. apply notes_follow_folder_blocks. Qed.

Lemma first_relative_root d config rel :
  first_relative d config = Some rel →
  ∃ r, r ∈ config ∧ PyPath.relative_to d r = Some rel.
Proof.
  induction config as [|r config IH]; simpl; [done|].
  destruct (PyPath.relative_to d r) as [rel'|] eqn:Hrel.
  - intros [= <-]. exists r. split; [apply list_elem_of_here | done].
  - intros (r' & Hr' & Hrel')%IH. exists r'. split; [by apply list_elem_of_further | done].
Qed.

Lemma first_relative_found d config r rel :
  r ∈ config → PyPath.relative_to d r = Some rel →
  ∃ rel', first_relative d config = Some rel'.
Proof.
  induction config as [|r' config IH]; simpl; [by intros ?%elem_of_nil|].
  intros [-> | Hin]%elem_of_cons Hrel.
  - rewrite Hrel. eauto.
  - destruct (PyPath.relative_to d r'); eauto.
Qed.

(** Where the configured folders do not overlap on the notes, the
    folder a note is listed under is its containing folder. *)
Lemma contained_in_containing_folder self note folder :
  roots_apart self →
  contained_in self note folder → containing_folder self note = Some folder.
Proof.
  intros Hapart (Hnote & r & rel & Hr & Hrel & <-). unfold containing_folder.
  destruct (first_relative_found _ _ _ _ Hr Hrel) as [rel' Hfirst].
  rewrite Hfirst. simpl.
  destruct (first_relative_root _ _ _ Hfirst) as (r' & Hr' & Hrel').
  assert (r' = r) as ->.
  { apply (Hapart note); [done | done | done | by rewrite Hrel' | by rewrite Hrel]. }
  rewrite Hrel in Hrel'. by injection Hrel' as ->.
Qed.

(** X24.  Where no note lies under two configured folders, every note
    row of a built row sequence comes after the folder row of its
    containing folder (its directory relative to the configured folder
    it lies under), with nothing but note rows of that same folder in
    between, two columns further in than the folder row. *)
Theorem note_rows_follow_containing_folder (self : NoteCLI) (folders : list string)
    (query : string) (i : nat) (note : Path) (indent : Z) :
  roots_apart self →
  _build_tree_items self folders query !! i = Some (NoteItem note indent) →
  ∃ (j : nat) folder,
    (j < i)%nat
    ∧ _build_tree_items self folders query !! j = Some (FolderItem folder (indent - 2))
    ∧ containing_folder self note = Some folder
    ∧ ∀ k : nat, (j < k < i)%nat →
        ∃ note', _build_tree_items self folders query !! k = Some (NoteItem note' indent)
                 ∧ containing_folder self note' = Some folder.
Proof.
  intros Hapart Hrow.
  destruct (notes_follow_folder_blocks self folders query _ i note indent Hrow)
    as (j & folder & Hj & Hfolder & Hin & Hbetween).
  exists j, folder. split; [done|]. split; [done|].
  split; [by apply contained_in_containing_folder|].
  intros k Hk. destruct (Hbetween k Hk) as (note' & Hrow' & Hin').
  exists note'. split; [done | by apply contained_in_containing_folder].
Qed.

(** ** Folder synthesis *)

(** C5.  The folder list [_get_folders] returns is ancestor-closed: for
    every member and every [i] strictly between 0 and the number of its
    slash-separated components, the first [i] components joined by a
    slash are a member too. *)
Theorem get_folders_ancestor_closed (fs : FS) (self : NoteCLI) (folder : string)
    (i : nat) :
  folder ∈ _get_folders fs self →
  (0 < i < length (PyStr.split "/" folder))%nat →
  PyStr.join "/" (take i (PyStr.split "/" folder)) ∈ _get_folders fs self.
Proof.
  rewrite !elem_of_get_folders. apply folder_set_closed.
Qed.

Lemma relative_to_self p : PyPath.relative_to p p = Some [].
Proof.
  induction p as [|c p IH]; simpl; [done|]. by rewrite String.eqb_refl.
Qed.

(** The first configured folder a directory lies under decides what the
    note loop adds for it. *)
Lemma add_note_folder_first d pre r post (X : gset string) :
  Forall (λ r', PyPath.relative_to d r' = None) pre →
  add_note_folder d (pre ++ r :: post)%list X
  = match PyPath.relative_to d r with
    | Some rel => add_with_parents (PyPath.str rel) X
    | None => add_note_folder d post X
    end.
Proof.
  induction 1 as [|r' pre Hr' _ IH]; simpl.
  - by destruct (PyPath.relative_to d r).
  - by rewrite Hr'.
Qed.

(** C9, as the code has it.  If the directory of some note is a
    configured folder and the note lies under none of the folders
    configured before it, the synthesized folder list holds the path
    made of a single dot. *)
Theorem root_level_note_gives_dot_folder (fs : FS) (self : NoteCLI) (note : Path)
    (pre post : list Path) :
  note ∈ all_notes self →
  config_folders self = (pre ++ PyPath.parent note :: post)%list →
  Forall (λ r, PyPath.relative_to (PyPath.parent note) r = None) pre →
  "." ∈ _get_folders fs self.
Proof.
  intros Hnote Hconfig Hpre.
  apply elem_of_get_folders, folder_set_keeps_note_folders.
  apply (note_loop_adds _ _ _ note); [done|].
  intros Y. rewrite Hconfig, add_note_folder_first by done.
  rewrite relative_to_self. apply elem_of_add_with_parents. by left.
Qed.

(** ** File operations *)

(** C6, as the code has it.  When the typed confirmation, stripped of
    surrounding whitespace, is not the word DELETE, [delete_file] returns
    [False] and the filesystem is unchanged. *)
Theorem delete_requires_confirmation (fs : FS) (note_path : Path)
    (config : list Path) (line : string) :
  PyStr.strip line ≠ "DELETE" →
  delete_file fs note_path config line = (false, fs).
Proof.
  intros Hne. unfold delete_file.
  destruct (negb (existsb _ config)); [done|].
  apply String.eqb_neq in Hne. by rewrite Hne.
Qed.

Lemma startswith_nil s : PyStr.startswith s EmptyString = true.
Proof. by destruct s. Qed.

Lemma contains_char_sep_free c s :
  PyStr.contains (String c EmptyString) s = false → sep_free c s = true.
Proof.
  induction s as [|b r IH]; [done|].
  cbn [PyStr.contains PyStr.startswith sep_free].
  rewrite startswith_nil, andb_true_r.
  intros [Hb Hr]%orb_false_iff. rewrite (IH Hr), andb_true_r.
  apply negb_true_iff. rewrite Ascii.eqb_sym. exact Hb.
Qed.

Lemma sep_free_startswith c s :
  sep_free c s = true → PyStr.startswith s (String c EmptyString) = false.
Proof.
  destruct s as [|b r]; [done|].
  cbn [PyStr.startswith sep_free]. rewrite startswith_nil, andb_true_r.
  intros [Hb _]%andb_true_iff. apply negb_true_iff in Hb.
  by rewrite Ascii.eqb_sym.
Qed.

Lemma sep_free_append c a b :
  sep_free c (a +:+ b) = sep_free c a && sep_free c b.
Proof.
  induction a as [|x a IH]; simpl; [done|]. by rewrite IH, andb_assoc.
Qed.

Lemma validate_filename_sep_free filename :
  validate_filename filename = true → sep_free "/" filename = true.
Proof.
  unfold validate_filename.
  destruct (existsb _ dangerous_extensions); [done|].
  destruct (PyStr.contains ".." filename); [done|].
  destruct (PyStr.contains "/" filename) eqn:Hslash; [done|].
  intros _. by apply contains_char_sep_free.
Qed.

(** The path of a plain file name inside a directory ends in that name. *)
Lemma name_joinpath dir filename :
  sep_free "/" filename = true →
  filename ≠ EmptyString → filename ≠ "." →
  PyPath.name (PyPath.joinpath dir filename) = filename.
Proof.
  intros Hfree Hne Hdot. unfold PyPath.joinpath, PyPath.parts, PyPath.name.
  rewrite sep_free_startswith, split_sep_free by done.
  rewrite filter_cons_True by done. rewrite filter_nil. apply last_last.
Qed.

Lemma with_default_extension_plain filename :
  validate_filename filename = true →
  filename ≠ EmptyString →
  sep_free "/" (with_default_extension filename) = true
  ∧ with_default_extension filename ≠ EmptyString
  ∧ with_default_extension filename ≠ ".".
Proof.
  intros Hvalid Hne. apply validate_filename_sep_free in Hvalid.
  unfold with_default_extension.
  destruct (existsb _ NOTE_EXTENSIONS) eqn:Hext; simpl.
  - split; [done|]. split; [done|]. intros ->. discriminate Hext.
  - rewrite sep_free_append, Hvalid. split; [done|].
    destruct filename as [|c [|c' r]]; done.
Qed.

(** When the folder resolves, the name is valid and the target is free
    and not refused, the note is created. *)
Lemma create_new_note_succeeds fs folder_path config line dir :
  locate_folder fs folder_path config None = Some (Some dir) →
  is_dir fs dir = true →
  PyStr.strip line ≠ EmptyString →
  validate_filename (PyStr.strip line) = true →
  let target := PyPath.joinpath dir (with_default_extension (PyStr.strip line)) in
  exists_ fs target = false →
  PyPath.resolve target ∉ fs_locked fs →
  ∃ fs', create_new_note fs folder_path config line = (Some target, fs')
         ∧ is_file fs' target = true.
Proof.
  intros Hloc Hdir Hne Hvalid target Hfree Hlock.
  unfold create_new_note. rewrite Hloc, Hdir. simpl.
  apply truthy_true in Hne. rewrite Hne, Hvalid. simpl.
  fold target. rewrite Hfree. unfold touch.
  rewrite bool_decide_eq_false_2 by done.
  apply orb_false_iff in Hfree as [_ Hfile]. rewrite Hfile.
  eexists. split; [done|].
  unfold is_file. simpl. apply bool_decide_eq_true_2, list_elem_of_here.
Qed.

(** A successful [create_new_note] creates a file whose name is the
    typed name (stripped) when that name, as typed, ends in [.txt] or
    [.md], and the typed name followed by [.md] when it ends in neither;
    the file did not exist before and exists after. *)
Lemma create_new_note_name (fs fs' : FS) (folder_path : string)
    (config : list Path) (line : string) (p : Path) :
  create_new_note fs folder_path config line = (Some p, fs') →
  let filename := PyStr.strip line in
  (PyStr.endswith filename ".txt" = true ∨ PyStr.endswith filename ".md" = true →
     PyPath.name p = filename)
  ∧ (PyStr.endswith filename ".txt" = false ∧ PyStr.endswith filename ".md" = false →
       PyPath.name p = filename +:+ ".md")
  ∧ exists_ fs p = false
  ∧ is_file fs' p = true.
Proof.
  unfold create_new_note.
  destruct (locate_folder fs folder_path config None) as [[dir|]|]; [|done|done].
  destruct (negb (is_dir fs dir)); [done|].
  destruct (negb (PyStr.truthy (PyStr.strip line))) eqn:Hne; [done|].
  destruct (negb (validate_filename (PyStr.strip line))) eqn:Hvalid; [done|].
  apply negb_false_iff in Hne, Hvalid. apply truthy_true in Hne.
  destruct (with_default_extension_plain _ Hvalid Hne) as (Hfree & Hne' & Hdot).
  set (target := PyPath.joinpath dir (with_default_extension (PyStr.strip line))).
  destruct (exists_ fs target) eqn:Hexists; [done|].
  unfold touch. destruct (bool_decide (PyPath.resolve target ∈ fs_locked fs)); [done|].
  apply orb_false_iff in Hexists as Hparts. destruct Hparts as [_ Hfile].
  rewrite Hfile. intros [= <- <-]. cbv zeta.
  set (filename := PyStr.strip line) in *.
  assert (Hname : PyPath.name target = with_default_extension filename)
    by (by apply name_joinpath).
  rewrite Hname. unfold with_default_extension. cbn [existsb NOTE_EXTENSIONS].
  repeat split.
  - intros [-> | ->]; [done|]. by rewrite orb_true_r.
  - intros [-> ->]. done.
  - done.
  - unfold is_file. simpl. apply bool_decide_eq_true_2, list_elem_of_here.
Qed.

(** * Further properties of the code *)

(** ** Indexing and moving *)

Lemma getitem_ok_iff {A : Type} (l : list A) (i : Z) :
  (∃ x, getitem l i = Ok x) ↔ - Z.of_nat (length l) ≤ i < Z.of_nat (length l).
Proof.
  unfold getitem.
  set (n := Z.of_nat (length l)).
  destruct (Z.ltb_spec i 0) as [Hneg | Hpos].
  - destruct (Z.leb_spec 0 (n + i)) as [Hlo | Hlo];
      destruct (Z.ltb_spec (n + i) n) as [Hhi | Hhi]; simpl.
    + destruct (lookup_lt_is_Some_2 l (Z.to_nat (n + i))) as [x Hx]; [unfold n in *; lia|].
      rewrite Hx. split; [lia | eauto].
    + lia.
    + split; [by intros [? ?] | lia].
    + lia.
  - destruct (Z.leb_spec 0 i) as [_ | ?]; [|lia].
    destruct (Z.ltb_spec i n) as [Hhi | Hhi]; simpl.
    + destruct (lookup_lt_is_Some_2 l (Z.to_nat i)) as [x Hx]; [unfold n in *; lia|].
      rewrite Hx. split; [lia | eauto].
    + split; [by intros [? ?] | lia].
Qed.

Lemma getitem_error_iff {A : Type} (l : list A) (i : Z) :
  getitem l i = IndexError ↔ ¬ (- Z.of_nat (length l) ≤ i < Z.of_nat (length l)).
Proof.
  rewrite <- getitem_ok_iff. destruct (getitem l i) as [x|]; split.
  - done.
  - intros Hno. destruct Hno. eauto.
  - intros _ [x Hx]. done.
  - done.
Qed.

(** X1.  Each handler that reads the selected row raises [IndexError]
    exactly when there are rows and the selection index is not a valid
    index into them; on an empty row sequence none of them raises. *)
Theorem handlers_raise_iff_index_invalid (self : NoteCLI) :
  let raises (r : result NoteCLI) :=
    r = IndexError ↔ tree_items (state self) ≠ [] ∧ ¬ index_valid self in
  raises (expand_folder self) ∧ raises (collapse_folder self)
  ∧ raises (toggle_or_open self) ∧ raises (KeyBindings.open_note self)
  ∧ raises (KeyBindings.create_note self) ∧ raises (KeyBindings.create_folder self)
  ∧ raises (KeyBindings.delete_file self).
Proof.
  intros raises. unfold raises, index_valid.
  unfold expand_folder, collapse_folder, toggle_or_open, KeyBindings.open_note,
    KeyBindings.create_note, KeyBindings.create_folder, KeyBindings.delete_file.
  set (valid := - Z.of_nat (length (tree_items (state self)))
                ≤ selected_index (state self)
                < Z.of_nat (length (tree_items (state self)))).
  pose proof (getitem_error_iff (tree_items (state self)) (selected_index (state self)))
    as Herr. fold valid in Herr.
  destruct (nonempty (tree_items (state self))) eqn:Hne.
  - apply nonempty_true in Hne.
    destruct (getitem (tree_items (state self)) (selected_index (state self)))
      as [[item ind | item ind]|]; simpl.
    + assert (Hvalid : ¬ (tree_items (state self) ≠ [] ∧ ¬ valid)).
      { intros [_ Hbad]. by apply Herr in Hbad. }
      repeat match goal with |- _ ∧ _ => split end;
        repeat match goal with |- context [if ?b then _ else _] => destruct b end;
        (split; [discriminate | intros HP; destruct (Hvalid HP)]).
    + assert (Hvalid : ¬ (tree_items (state self) ≠ [] ∧ ¬ valid)).
      { intros [_ Hbad]. by apply Herr in Hbad. }
      repeat match goal with |- _ ∧ _ => split end;
        (split; [discriminate | intros HP; destruct (Hvalid HP)]).
    + assert (Hbad : ¬ valid) by (by apply Herr).
      repeat match goal with |- _ ∧ _ => split end; (split; [done | done]).
  - assert (Hnil : tree_items (state self) = []).
    { destruct (tree_items (state self)); done. }
    repeat match goal with |- _ ∧ _ => split end;
      (split; [discriminate | by intros [? _]]).
Qed.

(** X2.  With the selection inside a non-empty row sequence, moving down
    and then up, or up and then down, gives the object back. *)
Theorem move_up_down_round_trip (self : NoteCLI) :
  0 ≤ selected_index (state self) < Z.of_nat (length (tree_items (state self))) →
  move_up (move_down self) = self ∧ move_down (move_up self) = self.
Proof.
  destruct self as [config notes [i f o m cf cd d h e rows] ex]. simpl.
  intros Hi.
  assert (Hne : nonempty rows = true) by (destruct rows; simpl in *; [lia | done]).
  set (n := Z.of_nat (length rows)) in *.
  assert (Hdown : ((i + 1) `mod` n - 1 + n) `mod` n = i).
  { destruct (decide (i + 1 = n)) as [Heq | Hneq].
    - rewrite Heq, Z_mod_same_full. symmetry. apply Z.mod_unique with (q := 0); lia.
    - rewrite (Z.mod_small (i + 1) n) by lia.
      symmetry. apply Z.mod_unique with (q := 1); lia. }
  assert (Hup : ((i - 1 + n) `mod` n + 1) `mod` n = i).
  { destruct (decide (i = 0)) as [-> | Hneq].
    - rewrite (Z.mod_small (0 - 1 + n) n) by lia.
      symmetry. apply Z.mod_unique with (q := 1); lia.
    - assert (H1 : (i - 1 + n) `mod` n = i - 1).
      { symmetry. apply Z.mod_unique with (q := 1); lia. }
      rewrite H1. replace (i - 1 + 1) with i by lia. apply Z.mod_small. lia. }
  unfold move_down, move_up. simpl. rewrite Hne. simpl. rewrite Hne.
  unfold with_state, set_selected_index. simpl. fold n.
  by rewrite Hdown, Hup.
Qed.

(** ** The rows of the tree *)

Lemma elem_of_build_tree_items self folders query row :
  row ∈ _build_tree_items self folders query
  ↔ ∃ folder, folder ∈ folders ∧ row ∈ folder_block self folders query folder.
Proof.
  unfold _build_tree_items. rewrite list_elem_of_In, in_flat_map. split.
  - intros (f & Hf & Hrow). exists f.
    split; [by apply list_elem_of_In, elem_of_py_sorted in Hf | by apply list_elem_of_In].
  - intros (f & Hf & Hrow). exists f.
    split; [by apply list_elem_of_In, elem_of_py_sorted | by apply list_elem_of_In].
Qed.

(** The folder row of a block. *)
Lemma folder_row_in_block self folders query folder f indent :
  FolderItem f indent ∈ folder_block self folders query folder
  ↔ f = folder ∧ indent = PyStr.count "/" folder * 2
    ∧ (PyStr.truthy query && negb (PyStr.contains query (PyStr.lower folder))) = false
    ∧ should_show self folders query folder = true.
Proof.
  unfold folder_block.
  destruct (PyStr.truthy query && negb (PyStr.contains query (PyStr.lower folder))).
  { split; [by intros ?%elem_of_nil | by intros (_ & _ & ? & _)]. }
  destruct (should_show self folders query folder).
  2: { split; [by intros ?%elem_of_nil | by intros (_ & _ & _ & ?)]. }
  rewrite elem_of_cons. split.
  - intros [[= -> ->] | Hin]; [done|].
    destruct (bool_decide _ || PyStr.truthy query); [|by apply elem_of_nil in Hin].
    apply list_elem_of_fmap in Hin as (n & Hn & _). done.
  - intros (-> & -> & _). by left.
Qed.

(** The note rows of a block. *)
Lemma note_row_in_block self folders query folder note indent :
  NoteItem note indent ∈ folder_block self folders query folder
  ↔ indent = PyStr.count "/" folder * 2 + 2
    ∧ (PyStr.truthy query && negb (PyStr.contains query (PyStr.lower folder))) = false
    ∧ should_show self folders query folder = true
    ∧ (folder ∈ expanded_folders (state self) ∨ PyStr.truthy query = true)
    ∧ note ∈ _get_notes_in_folder self folder
    ∧ (PyStr.truthy query = false
       ∨ PyStr.contains query (PyStr.lower (PyPath.name note)) = true).
Proof.
  unfold folder_block.
  destruct (PyStr.truthy query && negb (PyStr.contains query (PyStr.lower folder))).
  { split; [by intros ?%elem_of_nil | by intros (_ & ? & _)]. }
  destruct (should_show self folders query folder).
  2: { split; [by intros ?%elem_of_nil | by intros (_ & _ & ? & _)]. }
  rewrite elem_of_cons.
  destruct (bool_decide (folder ∈ expanded_folders (state self)) || PyStr.truthy query)
    eqn:Hopen.
  - apply orb_true_iff in Hopen.
    rewrite bool_decide_eq_true in Hopen.
    rewrite list_elem_of_fmap. split.
    + intros [? | (n & [= -> ->] & Hn)]; [done|].
      apply list_elem_of_filter in Hn as [Hmatch Hn].
      apply elem_of_py_sorted in Hn.
      apply orb_true_iff in Hmatch. rewrite negb_true_iff in Hmatch.
      done.
    + intros (-> & _ & _ & _ & Hn & Hmatch). right. exists note. split; [done|].
      apply list_elem_of_filter. split; [|by apply elem_of_py_sorted].
      apply orb_true_iff. by rewrite negb_true_iff.
  - apply orb_false_iff in Hopen as [Hexp Hq].
    apply bool_decide_eq_false in Hexp. split.
    + intros [? | ?%elem_of_nil]; done.
    + intros (_ & _ & _ & [? | ?] & _); [done | congruence].
Qed.

(** X3.  Every folder row is indented by twice the number of slashes in
    its path and names a folder of the list; every note row is indented
    two columns further than the row of a folder of the list that holds
    it. *)
Theorem row_indentation (self : NoteCLI) (folders : list string) (query : string) :
  (∀ folder indent,
     FolderItem folder indent ∈ _build_tree_items self folders query →
     folder ∈ folders ∧ indent = PyStr.count "/" folder * 2)
  ∧ (∀ note indent,
       NoteItem note indent ∈ _build_tree_items self folders query →
       ∃ folder,
         FolderItem folder (PyStr.count "/" folder * 2)
         ∈ _build_tree_items self folders query
         ∧ note ∈ _get_notes_in_folder self folder
         ∧ indent = PyStr.count "/" folder * 2 + 2).
Proof.
  split.
  - intros folder indent (f & Hf & Hrow)%elem_of_build_tree_items.
    apply folder_row_in_block in Hrow as (-> & -> & _). done.
  - intros note indent (f & Hf & Hrow)%elem_of_build_tree_items.
    apply note_row_in_block in Hrow as (-> & Hq & Hshow & _ & Hn & _).
    exists f. split; [|done].
    apply elem_of_build_tree_items. exists f. split; [done|].
    by apply folder_row_in_block.
Qed.

(** X4.  Under a non-empty query a note has a row exactly when it lies
    in a folder of the list and the query occurs both in the lower-cased
    folder path and in the lower-cased note name; a folder has a row
    exactly when it is in the list and the query occurs in its
    lower-cased path.  A note whose name matches is left out when the
    path of its folder does not. *)
Theorem rows_under_query (self : NoteCLI) (folders : list string) (query : string) :
  query ≠ EmptyString →
  (∀ folder indent,
     FolderItem folder indent ∈ _build_tree_items self folders query
     ↔ folder ∈ folders
       ∧ PyStr.contains query (PyStr.lower folder) = true
       ∧ indent = PyStr.count "/" folder * 2)
  ∧ (∀ note indent,
       NoteItem note indent ∈ _build_tree_items self folders query
       ↔ ∃ folder,
           folder ∈ folders
           ∧ PyStr.contains query (PyStr.lower folder) = true
           ∧ note ∈ _get_notes_in_folder self folder
           ∧ PyStr.contains query (PyStr.lower (PyPath.name note)) = true
           ∧ indent = PyStr.count "/" folder * 2 + 2).
Proof.
  intros Hq. apply truthy_true in Hq. split.
  - intros folder indent. rewrite elem_of_build_tree_items. split.
    + intros (f & Hf & Hrow). apply folder_row_in_block in Hrow as (-> & -> & Hm & _).
      rewrite Hq in Hm. simpl in Hm. apply negb_false_iff in Hm. done.
    + intros (Hf & Hm & ->). exists folder. split; [done|].
      apply folder_row_in_block. rewrite Hq, Hm, should_show_query by done. done.
  - intros note indent. rewrite elem_of_build_tree_items. split.
    + intros (f & Hf & Hrow).
      apply note_row_in_block in Hrow as (-> & Hm & _ & _ & Hn & Hname).
      rewrite Hq in Hm. simpl in Hm. apply negb_false_iff in Hm.
      destruct Hname as [Hname | Hname]; [congruence|].
      exists f. done.
    + intros (f & Hf & Hm & Hn & Hname & ->). exists f. split; [done|].
      apply note_row_in_block. rewrite Hq, Hm, should_show_query by done.
      repeat split; auto.
Qed.

(** X5.  With an empty query a note has a row exactly when it lies in a
    folder that has a row and is expanded. *)
Theorem note_rows_without_query (self : NoteCLI) (folders : list string)
    (note : Path) (indent : Z) :
  NoteItem note indent ∈ _build_tree_items self folders EmptyString
  ↔ ∃ folder,
      has_folder_row folder (_build_tree_items self folders EmptyString) = true
      ∧ folder ∈ expanded_folders (state self)
      ∧ note ∈ _get_notes_in_folder self folder
      ∧ indent = PyStr.count "/" folder * 2 + 2.
Proof.
  rewrite elem_of_build_tree_items. split.
  - intros (f & Hf & Hrow).
    apply note_row_in_block in Hrow as (-> & _ & Hshow & Hexp & Hn & _).
    destruct Hexp as [Hexp | ?]; [|done].
    exists f. split; [|done]. by apply folder_row_iff_shown.
  - intros (f & Hrow & Hexp & Hn & ->).
    apply folder_row_iff_shown in Hrow as (Hf & _ & Hshow).
    exists f. split; [done|]. apply note_row_in_block. simpl. auto 10.
Qed.

(** ** Python's string order *)

Lemma str_compare_refl a : String.compare a a = Eq.
Proof.
  induction a as [|x a IH]; simpl; [done|].
  unfold Ascii.compare. by rewrite N.compare_refl.
Qed.

Lemma str_le_refl a : str_le a a.
Proof. unfold str_le, String.leb. by rewrite str_compare_refl. Qed.

Lemma str_le_trans a b c : str_le a b → str_le b c → str_le a c.
Proof.
  unfold str_le, String.leb. revert b c.
  induction a as [|x a IH]; intros [|y b] [|z c]; simpl; try done.
  unfold Ascii.compare.
  destruct (N.compare_spec (N_of_ascii x) (N_of_ascii y)) as [Hxy | Hxy | Hxy];
    destruct (N.compare_spec (N_of_ascii y) (N_of_ascii z)) as [Hyz | Hyz | Hyz];
    destruct (N.compare_spec (N_of_ascii x) (N_of_ascii z)) as [Hxz | Hxz | Hxz];
    try done; try lia.
  apply IH.
Qed.

Lemma str_le_total a b : str_le a b ∨ str_le b a.
Proof. apply String.leb_total. Qed.

Lemma str_le_antisym a b : str_le a b → str_le b a → a = b.
Proof. apply String.leb_antisym. Qed.

Lemma str_lt_iff a b : str_lt a b ↔ str_le a b ∧ a ≠ b.
Proof.
  unfold str_lt, str_le, String.ltb, String.leb.
  destruct (String.compare a b) eqn:Hc.
  - apply String.compare_eq_iff in Hc as ->. split; [done | intros [_ Hne]; by destruct Hne].
  - split; [|done]. intros _. split; [done|]. intros ->.
    rewrite str_compare_refl in Hc. discriminate.
  - split; [done | by intros [? _]].
Qed.

(** A string comes before each of its extensions. *)
Lemma str_le_append a t : str_le a (a +:+ t).
Proof.
  unfold str_le, String.leb.
  induction a as [|x a IH]; simpl.
  - by destruct t.
  - unfold Ascii.compare. by rewrite N.compare_refl.
Qed.

(** ** Sorting *)

Section Sorted.
Context {A : Type} (key : A → string).

Lemma insert_by_perm x l : insert_by key x l ≡ₚ x :: l.
Proof.
  induction l as [|y l IH]; simpl; [done|].
  destruct (String.leb (key x) (key y)); [done|].
  rewrite IH. apply Permutation_swap.
Qed.

Lemma py_sorted_perm l : py_sorted key l ≡ₚ l.
Proof.
  induction l as [|x l IH]; simpl; [done|].
  rewrite insert_by_perm. by f_equiv.
Qed.

Lemma insert_by_sorted x l :
  StronglySorted (key_le key) l → StronglySorted (key_le key) (insert_by key x l).
Proof.
  induction 1 as [|y l Hl IH Hall]; simpl.
  - repeat constructor.
  - destruct (String.leb (key x) (key y)) eqn:Hxy.
    + constructor; [by constructor|].
      constructor; [done|].
      eapply Forall_impl; [exact Hall|]. intros z Hz. by eapply str_le_trans.
    + constructor; [done|].
      rewrite insert_by_perm. constructor; [|done].
      destruct (str_le_total (key x) (key y)) as [H | H]; [|done].
      unfold str_le in H. congruence.
Qed.

Lemma py_sorted_sorted l : StronglySorted (key_le key) (py_sorted key l).
Proof.
  induction l as [|x l IH]; simpl; [constructor|]. by apply insert_by_sorted.
Qed.

End Sorted.

Lemma StronglySorted_filter {A : Type} (R : A → A → Prop) (P : A → Prop)
    `{∀ x, Decision (P x)} (l : list A) :
  StronglySorted R l → StronglySorted R (filter P l).
Proof.
  induction 1 as [|x l Hl IH Hall]; [constructor|].
  rewrite filter_cons. destruct (decide (P x)); [|done].
  constructor; [done|].
  apply Forall_forall. intros y [_ Hy]%list_elem_of_filter.
  by apply (proj1 (Forall_forall _ _) Hall).
Qed.

(** Sorted without repetition is strictly sorted. *)
Lemma sorted_nodup_strict (l : list string) :
  StronglySorted str_le l → NoDup l → StronglySorted str_lt l.
Proof.
  induction 1 as [|x l Hl IH Hall]; intros Hnd; [constructor|].
  apply NoDup_cons in Hnd as [Hx Hnd].
  constructor; [by apply IH|].
  apply Forall_forall. intros y Hy. apply str_lt_iff. split.
  - by apply (proj1 (Forall_forall _ _) Hall).
  - by intros ->.
Qed.

Lemma py_sorted_strict (l : list string) :
  NoDup l → StronglySorted str_lt (py_sorted id l).
Proof.
  intros Hnd. apply sorted_nodup_strict.
  - apply (py_sorted_sorted id).
  - by rewrite (py_sorted_perm id).
Qed.

Lemma get_folders_nodup fs self : NoDup (_get_folders fs self).
Proof. unfold _get_folders. rewrite (py_sorted_perm id). apply NoDup_elements. Qed.

(** X6.  The folder list [_get_folders] returns is strictly ascending in
    Python's string order; in particular no folder occurs twice. *)
Theorem get_folders_strictly_sorted (fs : FS) (self : NoteCLI) :
  StronglySorted str_lt (_get_folders fs self) ∧ NoDup (_get_folders fs self).
Proof.
  unfold _get_folders. split.
  - apply py_sorted_strict, NoDup_elements.
  - rewrite (py_sorted_perm id). apply NoDup_elements.
Qed.

Lemma folder_rows_app rows1 rows2 :
  folder_rows (rows1 ++ rows2) = (folder_rows rows1 ++ folder_rows rows2)%list.
Proof. apply omap_app. Qed.

Lemma folder_rows_notes (f : Path → Z) (notes : list Path) :
  folder_rows (map (λ note, NoteItem note (f note)) notes) = [].
Proof. induction notes as [|n notes IH]; simpl; [done|]. exact IH. Qed.

(** The folder rows are the folders that pass the query filter and the
    visibility loop, in sorted order. *)
Lemma folder_rows_build self folders query :
  folder_rows (_build_tree_items self folders query)
  = filter (λ folder,
              (PyStr.truthy query && negb (PyStr.contains query (PyStr.lower folder))) = false
              ∧ should_show self folders query folder = true)
           (py_sorted id folders).
Proof.
  unfold _build_tree_items.
  induction (py_sorted id folders) as [|f l IH]; [done|].
  simpl flat_map. rewrite folder_rows_app, IH, filter_cons. f_equal.
  unfold folder_block.
  destruct (PyStr.truthy query && negb (PyStr.contains query (PyStr.lower f))).
  { rewrite decide_False; [done | by intros [? _]]. }
  destruct (should_show self folders query f).
  2: { rewrite decide_False; [done | by intros [_ ?]]. }
  rewrite decide_True by done.
  destruct (bool_decide _ || PyStr.truthy query); [|done].
  simpl. by rewrite (folder_rows_notes (λ _, _)).
Qed.

(** X7.  The folder rows of a built row sequence come in ascending
    string order; when the folder list has no repetition they are
    strictly ascending, so no folder has two rows. *)
Theorem folder_rows_ascending (self : NoteCLI) (folders : list string) (query : string) :
  StronglySorted str_le (folder_rows (_build_tree_items self folders query))
  ∧ (NoDup folders →
     StronglySorted str_lt (folder_rows (_build_tree_items self folders query))
     ∧ NoDup (folder_rows (_build_tree_items self folders query))).
Proof.
  rewrite folder_rows_build. split.
  - apply StronglySorted_filter, (py_sorted_sorted id).
  - intros Hnd. split.
    + by apply StronglySorted_filter, py_sorted_strict.
    + apply NoDup_filter. by rewrite (py_sorted_perm id).
Qed.

(** A path with a single component has no ancestor. *)
Lemma no_ancestor_of_single p folder :
  length (PyStr.split "/" folder) = 1%nat → ¬ is_ancestor p folder.
Proof. intros Hlen (i & Hi & _). lia. Qed.

(** The first component of a member of an ancestor-closed set is a
    member with a single component. *)
Lemma first_component_member (X : gset string) folder :
  ancestor_closed X → folder ∈ X →
  ∃ top, top ∈ X ∧ length (PyStr.split "/" top) = 1%nat.
Proof.
  intros HX Hin.
  pose proof (split_not_nil "/" folder) as Hne.
  destruct (PyStr.split "/" folder) as [|c [|c' rest]] eqn:Hsplit; [done| |].
  - exists folder. by rewrite Hsplit.
  - exists (PyStr.join "/" (take 1 (PyStr.split "/" folder))). split.
    + apply HX; [done|]. rewrite Hsplit. simpl. lia.
    + rewrite split_join_take by lia. rewrite Hsplit. done.
Qed.

(** X8.  If folder synthesis finds any folder at all, the tree built
    from its result without a query has at least one row, whatever is
    expanded: a top-level folder is always shown. *)
Theorem unfiltered_tree_not_empty (fs : FS) (self other : NoteCLI) :
  _get_folders fs self ≠ [] →
  _build_tree_items other (_get_folders fs self) EmptyString ≠ [].
Proof.
  intros Hne.
  destruct (_get_folders fs self) as [|f l] eqn:Hfolders; [done|]. clear Hne.
  assert (Hf : f ∈ folder_set fs self).
  { apply elem_of_get_folders. rewrite Hfolders. apply list_elem_of_here. }
  destruct (first_component_member _ f (folder_set_closed fs self) Hf)
    as (top & Htop & Hlen).
  assert (Hrow : has_folder_row top
                   (_build_tree_items other (f :: l) EmptyString) = true).
  { apply folder_row_iff_shown. split.
    - rewrite <- Hfolders. by apply elem_of_get_folders.
    - split; [done|]. apply should_show_no_query.
      intros p Hp. by apply no_ancestor_of_single in Hp. }
  intros Hnil. rewrite Hnil in Hrow. done.
Qed.

(** ** Toggling a folder without a query *)

Lemma join_app sep (l1 l2 : list string) :
  l1 ≠ [] → l2 ≠ [] →
  PyStr.join sep (l1 ++ l2) = PyStr.join sep l1 +:+ String sep (PyStr.join sep l2).
Proof.
  intros Hl1 Hl2. induction l1 as [|p l1 IH]; [done|].
  destruct l1 as [|q l1].
  - destruct l2; done.
  - change (PyStr.join sep ((p :: q :: l1) ++ l2))
      with (p +:+ String sep (PyStr.join sep ((q :: l1) ++ l2))).
    rewrite IH by done.
    change (PyStr.join sep (p :: q :: l1))
      with (p +:+ String sep (PyStr.join sep (q :: l1))).
    generalize (PyStr.join sep (q :: l1)) (String sep (PyStr.join sep l2)).
    intros s t. induction p as [|c p IHp]; [reflexivity|].
    change (String c (p +:+ String sep (s +:+ t)) = String c ((p +:+ String sep s) +:+ t)).
    by rewrite IHp.
Qed.

Lemma forallb_ext_in {A : Type} (f g : A → bool) (l : list A) :
  (∀ x, In x l → f x = g x) → forallb f l = forallb g l.
Proof.
  induction l as [|x l IH]; intros Hfg; simpl; [done|].
  rewrite Hfg, IH; [done | |]; [intros y Hy; apply Hfg; by right | by left].
Qed.

Lemma flat_map_ext_in_local {A B : Type} (f g : A → list B) (l : list A) :
  (∀ x, x ∈ l → f x = g x) → flat_map f l = flat_map g l.
Proof.
  induction l as [|x l IH]; intros Hfg; simpl; [done|].
  rewrite Hfg, IH; [done | |]; [intros y Hy; apply Hfg; by right | by left].
Qed.

(** An ancestor is another path and sorts in front of its descendant. *)
Lemma is_ancestor_before p folder : is_ancestor p folder → str_le p folder ∧ p ≠ folder.
Proof.
  intros (i & Hi & ->). split.
  - rewrite <- (join_split "/" folder) at 2.
    rewrite <- (take_drop i (PyStr.split "/" folder)) at 2.
    rewrite join_app.
    + apply str_le_append.
    + intros Hnil. apply (f_equal length) in Hnil. rewrite length_take in Hnil.
      simpl in Hnil. lia.
    + intros Hnil. apply (f_equal length) in Hnil. rewrite length_drop in Hnil.
      simpl in Hnil. lia.
  - intros Heq. apply (f_equal (λ s, length (PyStr.split "/" s))) in Heq.
    simpl in Heq. rewrite split_join_take, length_take in Heq by lia. lia.
Qed.

(** The object with another expanded set. *)
Lemma folder_block_expanded_ext self (E' : gset string) folders folder :
  (∀ x, x = folder ∨ is_ancestor x folder →
        (x ∈ expanded_folders (state self) ↔ x ∈ E')) →
  folder_block (with_state (set_expanded_folders E') self) folders EmptyString folder
  = folder_block self folders EmptyString folder.
Proof.
  intros Hext. unfold folder_block. simpl.
  assert (Hshow :
    should_show (with_state (set_expanded_folders E') self) folders EmptyString folder
    = should_show self folders EmptyString folder).
  { unfold should_show. simpl. apply forallb_ext_in. intros p Hp.
    apply list_elem_of_In, elem_of_parent_folders in Hp.
    f_equal. f_equal. f_equal. apply bool_decide_ext. symmetry. apply Hext. by right. }
  rewrite Hshow.
  destruct (should_show self folders EmptyString folder); [|done].
  rewrite !orb_false_r.
  rewrite (bool_decide_ext (folder ∈ E') (folder ∈ expanded_folders (state self))).
  - done.
  - symmetry. apply Hext. by left.
Qed.

(** A folder row inside a concatenation of blocks is the head of the
    block of its folder. *)
Lemma lookup_folder_row_blocks self folders (l : list string) (i : nat) item indent :
  flat_map (folder_block self folders EmptyString) l !! i = Some (FolderItem item indent) →
  ∃ l1 l2 rest,
    l = (l1 ++ item :: l2)%list
    ∧ length (flat_map (folder_block self folders EmptyString) l1) = i
    ∧ folder_block self folders EmptyString item = FolderItem item indent :: rest.
Proof.
  revert i. induction l as [|f l IH]; intros i Hi;
    [simpl in Hi; by rewrite lookup_nil in Hi|].
  simpl in Hi.
  destruct (decide (i < length (folder_block self folders EmptyString f))%nat)
    as [Hlt | Hge].
  - rewrite lookup_app_l in Hi by done.
    destruct (folder_block_shape self folders EmptyString f)
      as [Hnil | (notes & Hblock & _)].
    { rewrite Hnil in Hlt. simpl in Hlt. lia. }
    rewrite Hblock in Hi. destruct i as [|i].
    + injection Hi as -> <-. exists [], l. eexists. split; [done|]. split; [done|].
      exact Hblock.
    + simpl in Hi. rewrite list_lookup_fmap in Hi.
      destruct (notes !! i); done.
  - rewrite lookup_app_r in Hi by lia.
    destruct (IH _ Hi) as (l1 & l2 & rest & -> & Hlen & Hblock).
    exists (f :: l1), l2, rest. split; [done|]. split; [|done].
    simpl. rewrite length_app, Hlen. lia.
Qed.

(** Changing the expanded set at one folder leaves the row of that
    folder where it is. *)
Lemma folder_row_stays self (E' : gset string) folders (i : nat) item indent :
  NoDup folders →
  (∀ x, x ≠ item → (x ∈ expanded_folders (state self) ↔ x ∈ E')) →
  _build_tree_items self folders EmptyString !! i = Some (FolderItem item indent) →
  _build_tree_items (with_state (set_expanded_folders E') self) folders EmptyString !! i
  = Some (FolderItem item indent).
Proof.
  intros Hnd Hext Hi. unfold _build_tree_items in *.
  pose proof (py_sorted_sorted id folders) as Hsorted.
  assert (Hnd' : NoDup (py_sorted id folders)) by (by rewrite (py_sorted_perm id)).
  destruct (lookup_folder_row_blocks _ _ _ _ _ _ Hi) as (l1 & l2 & rest & Hl & Hlen & Hblock).
  rewrite Hl in *. clear Hi Hl.
  apply NoDup_app in Hnd' as (_ & Hdisj & _).
  assert (Hbefore : ∀ f, f ∈ l1 → str_le f item ∧ f ≠ item).
  { intros f Hf. split.
    - clear -Hsorted Hf. induction l1 as [|g l1 IH]; [by apply elem_of_nil in Hf|].
      simpl in Hsorted. apply StronglySorted_inv in Hsorted as [Hrest Hall].
      apply elem_of_cons in Hf as [-> | Hf]; [|by apply IH].
      apply (proj1 (Forall_forall _ _) Hall).
      apply elem_of_app. right. apply list_elem_of_here.
    - intros ->. apply (Hdisj item Hf), list_elem_of_here. }
  rewrite !flat_map_app. simpl.
  assert (Hsame : flat_map (folder_block (with_state (set_expanded_folders E') self)
                              folders EmptyString) l1
                  = flat_map (folder_block self folders EmptyString) l1).
  { apply flat_map_ext_in_local. intros f Hf.
    apply folder_block_expanded_ext. intros x [-> | Hanc].
    - apply Hext. by apply Hbefore.
    - apply Hext. intros ->.
      destruct (Hbefore f Hf) as [Hle Hne].
      apply is_ancestor_before in Hanc as [Hle' _].
      apply Hne. by apply str_le_antisym. }
  rewrite Hsame, lookup_app_r by lia.
  rewrite Hlen, Nat.sub_diag.
  assert (Hhead : ∃ rest',
            folder_block (with_state (set_expanded_folders E') self) folders EmptyString item
            = FolderItem item indent :: rest').
  { assert (Hshow :
      should_show (with_state (set_expanded_folders E') self) folders EmptyString item
      = should_show self folders EmptyString item).
    { unfold should_show. simpl. apply forallb_ext_in. intros p Hp.
      apply list_elem_of_In, elem_of_parent_folders, is_ancestor_before in Hp as [_ Hp].
      f_equal. f_equal. f_equal. apply bool_decide_ext. symmetry. by apply Hext. }
    revert Hblock. unfold folder_block. rewrite Hshow. simpl.
    destruct (should_show self folders EmptyString item); [|done].
    intros [= <- _]. eauto. }
  destruct Hhead as [rest' ->]. done.
Qed.

Lemma selected_row_getitem self row :
  selected_row self = Some row →
  nonempty (tree_items (state self)) = true
  ∧ getitem (tree_items (state self)) (selected_index (state self)) = Ok row
  ∧ 0 ≤ selected_index (state self) < Z.of_nat (length (tree_items (state self))).
Proof.
  unfold selected_row, getitem.
  destruct (Z.leb_spec 0 (selected_index (state self))) as [Hpos | ?]; [|done].
  intros Hrow. pose proof (lookup_lt_Some _ _ _ Hrow) as Hlt.
  assert (Hi : selected_index (state self) < Z.of_nat (length (tree_items (state self))))
    by lia.
  split; [destruct (tree_items (state self)); [simpl in Hlt; lia | done]|].
  split; [|lia].
  destruct (Z.ltb_spec (selected_index (state self)) 0) as [? | _]; [lia|].
  destruct (Z.leb_spec 0 (selected_index (state self))) as [_ | ?]; [|lia].
  destruct (Z.ltb_spec (selected_index (state self))
              (Z.of_nat (length (tree_items (state self))))) as [_ | ?]; [|lia].
  simpl. by rewrite Hrow.
Qed.

Lemma rebuild_keeps_selection self (E' : gset string) item indent :
  unfiltered self →
  NoDup (filtered_notes (state self)) →
  selected_row self = Some (FolderItem item indent) →
  (∀ x, x ≠ item → (x ∈ expanded_folders (state self) ↔ x ∈ E')) →
  selected_row (rebuild_tree_items (with_state (set_expanded_folders E') self))
  = Some (FolderItem item indent)
  ∧ unfiltered (rebuild_tree_items (with_state (set_expanded_folders E') self)).
Proof.
  intros Hunf Hnd Hrow Hext. split; [|reflexivity].
  unfold selected_row in *. simpl.
  destruct (0 <=? selected_index (state self)); [|done].
  rewrite Hunf in Hrow. by apply folder_row_stays.
Qed.

Lemma structural_step_keeps_row (self self' : NoteCLI) (row : TreeItem) :
  unfiltered self →
  NoDup (filtered_notes (state self)) →
  selected_row self = Some row →
  expand_folder self = Ok self' ∨ collapse_folder self = Ok self'
  ∨ toggle_or_open self = Ok self' →
  selected_row self' = Some row
  ∧ 0 ≤ selected_index (state self') < Z.of_nat (length (tree_items (state self')))
  ∧ unfiltered self'
  ∧ NoDup (filtered_notes (state self')).
Proof.
  intros Hunf Hnd Hrow Hstep.
  destruct (selected_row_getitem _ _ Hrow) as (Hne & Hget & Hrange).
  assert (Hgoal : selected_row self' = Some row ∧ unfiltered self'
                  ∧ NoDup (filtered_notes (state self'))).
  { unfold expand_folder, collapse_folder, toggle_or_open in Hstep.
    rewrite Hne, Hget in Hstep. simpl in Hstep.
    destruct row as [item indent | note indent].
    - destruct Hstep as [Hstep | [Hstep | Hstep]].
      + destruct (bool_decide (item ∈ expanded_folders (state self))) eqn:Hin;
          simpl in Hstep; injection Hstep as <-; [done|].
        destruct (rebuild_keeps_selection self ({[ item ]} ∪ expanded_folders (state self))
                    item indent) as [Hsel Hunf']; try done.
        intros x Hx. set_solver.
      + destruct (bool_decide (item ∈ expanded_folders (state self))) eqn:Hin;
          simpl in Hstep; injection Hstep as <-; [|done].
        destruct (rebuild_keeps_selection self (expanded_folders (state self) ∖ {[ item ]})
                    item indent) as [Hsel Hunf']; try done.
        intros x Hx. set_solver.
      + injection Hstep as <-.
        destruct (bool_decide (item ∈ expanded_folders (state self))).
        * destruct (rebuild_keeps_selection self (expanded_folders (state self) ∖ {[ item ]})
                      item indent) as [Hsel Hunf']; try done.
          intros x Hx. set_solver.
        * destruct (rebuild_keeps_selection self ({[ item ]} ∪ expanded_folders (state self))
                      item indent) as [Hsel Hunf']; try done.
          intros x Hx. set_solver.
    - destruct Hstep as [Hstep | [Hstep | Hstep]]; injection Hstep as <-; done. }
  destruct Hgoal as (Hsel & Hunf' & Hnd'). split; [done|]. split; [|done].
  by apply (selected_row_getitem _ _ Hsel).
Qed.

(** X9.  While the rows are those of the stored folder list without a
    query and that list has no repetition, expanding, collapsing or
    toggling leaves the selection on the same row: the row under the
    selection index is the same folder (or note) as before, the index is
    inside the rows, and the rows are again those of the stored list
    without a query. *)
Theorem structural_handlers_keep_selected_row (self self' : NoteCLI) (row : TreeItem) :
  unfiltered self →
  NoDup (filtered_notes (state self)) →
  selected_row self = Some row →
  expand_folder self = Ok self' ∨ collapse_folder self = Ok self'
  ∨ toggle_or_open self = Ok self' →
  selected_row self' = Some row
  ∧ 0 ≤ selected_index (state self') < Z.of_nat (length (tree_items (state self')))
  ∧ unfiltered self'
  ∧ NoDup (filtered_notes (state self')).
Proof.
  intros Hunf Hnd Hrow Hstep.
  destruct (structural_step_keeps_row self self' row Hunf Hnd Hrow Hstep)
    as (Hsel & Hrange & Hunf' & Hnd').
  auto.
Qed.

(** The tree builder reads the configured folders, the notes and the
    expanded set, nothing else of the object. *)
Lemma build_tree_items_ext self1 self2 folders query :
  config_folders self1 = config_folders self2 →
  all_notes self1 = all_notes self2 →
  expanded_folders (state self1) = expanded_folders (state self2) →
  _build_tree_items self1 folders query = _build_tree_items self2 folders query.
Proof.
  destruct self1 as [c1 a1 [i1 f1 o1 m1 cf1 cd1 d1 h1 e1 r1] x1].
  destruct self2 as [c2 a2 [i2 f2 o2 m2 cf2 cd2 d2 h2 e2 r2] x2].
  simpl. by intros -> -> ->.
Qed.

(** X10.  Under the same conditions, expanding a collapsed folder and
    collapsing it again gives the object back. *)
Theorem expand_collapse_round_trip (self : NoteCLI) (item : string) (indent : Z) :
  unfiltered self →
  NoDup (filtered_notes (state self)) →
  selected_row self = Some (FolderItem item indent) →
  item ∉ expanded_folders (state self) →
  ∃ self', expand_folder self = Ok self' ∧ collapse_folder self' = Ok self
           ∧ item ∈ expanded_folders (state self').
Proof.
  intros Hunf Hnd Hrow Hnin.
  destruct (selected_row_getitem _ _ Hrow) as (Hne & Hget & _).
  destruct (rebuild_keeps_selection self ({[ item ]} ∪ expanded_folders (state self))
              item indent) as [Hsel _]; try done.
  { intros x Hx. set_solver. }
  destruct (selected_row_getitem _ _ Hsel) as (Hne' & Hget' & _).
  eexists. split; [|split].
  - unfold expand_folder. rewrite Hne, Hget. simpl.
    by rewrite bool_decide_eq_false_2.
  - unfold collapse_folder. rewrite Hne', Hget'. simpl.
    rewrite bool_decide_eq_true_2 by set_solver.
    f_equal. unfold unfiltered in Hunf.
    destruct self as [config notes [i f o m cf cd d h e rows] ex]. simpl in *.
    unfold rebuild_tree_items, with_state, set_tree_items, set_expanded_folders. simpl.
    assert (He : ({[ item ]} ∪ e) ∖ {[ item ]} = e) by set_solver.
    rewrite He. f_equal. f_equal. rewrite Hunf.
    by apply build_tree_items_ext.
  - simpl. set_solver.
Qed.

(** ** Sessions without a query *)

Lemma selection_ok_init fs config notes : selection_ok (init fs config notes).
Proof.
  split; [reflexivity|]. split.
  - unfold init, _initialize_state. simpl.
    apply get_folders_nodup.
  - unfold init, _initialize_state. simpl.
    destruct (_build_tree_items _ _ _); [by left | right; simpl; lia].
Qed.

Lemma selection_ok_reset fs self : selection_ok (_reset_state fs self).
Proof.
  split; [reflexivity|]. split.
  - unfold _reset_state, _initialize_state. simpl.
    apply get_folders_nodup.
  - unfold _reset_state, _initialize_state. simpl.
    destruct (_build_tree_items _ _ _); [by left | right; simpl; lia].
Qed.

Lemma selection_ok_step fs ev self :
  selection_ok self → query_free ev →
  ∃ self', handle fs ev self = Ok self' ∧ selection_ok self'.
Proof.
  intros (Hunf & Hnd & Hsel) Hev.
  assert (Hmove : ∀ i,
    tree_items (state self) ≠ [] →
    selection_ok (with_state (set_selected_index
                    (i `mod` Z.of_nat (length (tree_items (state self))))) self)).
  { intros i Hne. split; [exact Hunf|]. split; [exact Hnd|]. right. simpl.
    apply Z.mod_pos_bound. destruct (tree_items (state self)); [done | simpl; lia]. }
  assert (Hstruct : ∀ h : NoteCLI → result NoteCLI,
    (∀ self', h self = Ok self' →
       expand_folder self = Ok self' ∨ collapse_folder self = Ok self'
       ∨ toggle_or_open self = Ok self') →
    (tree_items (state self) = [] → h self = Ok self) →
    (∀ row, selected_row self = Some row → ∃ self', h self = Ok self') →
    ∃ self', h self = Ok self' ∧ selection_ok self').
  { intros h Hh Hnil Hok. destruct Hsel as [Hempty | Hrange].
    - exists self. split; [by apply Hnil|]. split; [done|]. split; [done | by left].
    - destruct (lookup_lt_is_Some_2 (tree_items (state self))
                  (Z.to_nat (selected_index (state self)))) as [row Hrow]; [lia|].
      assert (Hsrow : selected_row self = Some row).
      { unfold selected_row. destruct (Z.leb_spec 0 (selected_index (state self)));
          [done | lia]. }
      destruct (Hok row Hsrow) as [self' Hself']. exists self'. split; [done|].
      destruct (structural_step_keeps_row self self' row Hunf Hnd Hsrow
                  (Hh _ Hself')) as (_ & Hr & Hu & Hn).
      split; [done|]. split; [done | by right]. }
  assert (Hruns : ∀ row, selected_row self = Some row →
    (∃ s, expand_folder self = Ok s) ∧ (∃ s, collapse_folder self = Ok s)
    ∧ (∃ s, toggle_or_open self = Ok s)).
  { intros row Hrow. destruct (selected_row_getitem _ _ Hrow) as (Hne & Hget & _).
    unfold expand_folder, collapse_folder, toggle_or_open. rewrite Hne, Hget. simpl.
    destruct row; repeat split;
      repeat match goal with |- context [if ?b then _ else _] => destruct b end;
      eauto. }
  assert (Hnilrun : tree_items (state self) = [] →
    expand_folder self = Ok self ∧ collapse_folder self = Ok self
    ∧ toggle_or_open self = Ok self).
  { intros Hnil. unfold expand_folder, collapse_folder, toggle_or_open.
    by rewrite Hnil. }
  destruct ev as [| | | | | text]; simpl.
  - eexists. split; [done|]. unfold move_down.
    destruct (nonempty (tree_items (state self))) eqn:Hne; [|done].
    apply Hmove. by apply nonempty_true.
  - eexists. split; [done|]. unfold move_up.
    destruct (nonempty (tree_items (state self))) eqn:Hne; [|done].
    apply Hmove. by apply nonempty_true.
  - apply Hstruct; [auto | intros Hnil; apply (Hnilrun Hnil)
                   | intros row Hrow; apply (Hruns row Hrow)].
  - apply Hstruct; [auto | intros Hnil; apply (Hnilrun Hnil)
                   | intros row Hrow; apply (Hruns row Hrow)].
  - apply Hstruct; [auto | intros Hnil; apply (Hnilrun Hnil)
                   | intros row Hrow; apply (Hruns row Hrow)].
  - simpl in Hev. subst text. eexists. split; [done|].
    split; [unfold unfiltered; simpl; by rewrite lower_empty|]. split.
    + unfold _update_filtered_notes. simpl. apply get_folders_nodup.
    + unfold _update_filtered_notes. simpl.
      destruct (_build_tree_items _ _ _); [by left | right; simpl; lia].
Qed.

Lemma selection_ok_run fs evs self :
  selection_ok self → Forall query_free evs →
  ∃ self', run_events fs evs self = Ok self' ∧ selection_ok self'.
Proof.
  intros Hok Hevs. revert self Hok.
  induction Hevs as [|ev evs Hev _ IH]; intros self Hok; simpl.
  - by exists self.
  - destruct (selection_ok_step fs ev self Hok Hev) as (self1 & -> & Hok1).
    simpl. by apply IH.
Qed.

(** X11.  From start-up, and from every reset after an action, a session
    of key presses in which the search text stays empty never raises
    [IndexError], and at its end the selection index is inside the rows
    (or there are no rows). *)
Theorem query_free_session_never_raises (fs : FS) (config notes : list Path)
    (previous : NoteCLI) (evs : list Event) :
  Forall query_free evs →
  (∃ self', run_events fs evs (init fs config notes) = Ok self' ∧ selection_ok self')
  ∧ (∃ self', run_events fs evs (_reset_state fs previous) = Ok self'
              ∧ selection_ok self').
Proof.
  intros Hevs. split.
  - apply selection_ok_run; [apply selection_ok_init | done].
  - apply selection_ok_run; [apply selection_ok_reset | done].
Qed.

(** ** What folder synthesis returns *)

Lemma foldl_ext_pointwise {A B : Type} (f g : B → A → B) (l : list A) (b : B) :
  (∀ b a, f b a = g b a) → foldl f b l = foldl g b l.
Proof.
  intros Hfg. revert b. induction l as [|a l IH]; intros b; simpl; [done|].
  by rewrite Hfg, IH.
Qed.

(** A loop that adds, for some of its items, a path with its parents. *)
Lemma elem_of_foldl_add_with_parents {A : Type} (g : A → option string)
    (l : list A) (X : gset string) x :
  x ∈ foldl (λ acc a, match g a with
                      | Some b => add_with_parents b acc
                      | None => acc
                      end) X l
  ↔ x ∈ X ∨ ∃ a b, a ∈ l ∧ g a = Some b ∧ (x = b ∨ is_ancestor x b).
Proof.
  revert X. induction l as [|a l IH]; intros X; simpl.
  - split; [by left|]. intros [? | (a & b & Ha & _)]; [done|].
    by apply elem_of_nil in Ha.
  - rewrite IH. split.
    + intros [Hx | (a' & b & Ha' & Hg & Hb)].
      * destruct (g a) as [b|] eqn:Hg; [|by left].
        apply elem_of_add_with_parents in Hx as [-> | [Hanc | Hx]].
        -- right. exists a, b. split; [apply list_elem_of_here | auto].
        -- right. exists a, b. split; [apply list_elem_of_here | auto].
        -- by left.
      * right. exists a', b. split; [by apply list_elem_of_further | auto].
    + intros [Hx | (a' & b & Ha' & Hg & Hb)].
      * left. destruct (g a); [|done]. by apply add_with_parents_mono.
      * apply elem_of_cons in Ha' as [-> | Ha'].
        -- left. rewrite Hg. apply elem_of_add_with_parents.
           destruct Hb as [-> | Hb]; auto.
        -- right. exists a', b. auto.
Qed.

Lemma add_note_folder_first_relative d config (X : gset string) :
  add_note_folder d config X
  = match PyPath.str <$> first_relative d config with
    | Some b => add_with_parents b X
    | None => X
    end.
Proof.
  induction config as [|r config IH]; simpl; [done|].
  destruct (PyPath.relative_to d r); [done | exact IH].
Qed.

(** What one step of the walk loop adds, if anything. *)
Lemma add_empty_folder_option root (entry : Path * list string) (X : gset string) :
  add_empty_folder root entry X
  = match (rel ← PyPath.relative_to entry.1 root;
           if negb (String.eqb (PyPath.str rel) ".") && negb (has_notes entry.2)
           then Some (PyPath.str rel) else None) with
    | Some b => add_with_parents b X
    | None => X
    end.
Proof.
  unfold add_empty_folder.
  destruct (PyPath.relative_to entry.1 root) as [rel|]; simpl; [|done].
  destruct (negb (String.eqb (PyPath.str rel) ".")); simpl; [|done].
  by destruct (negb (has_notes entry.2)).
Qed.

Lemma elem_of_os_walk fs root d files :
  (d, files) ∈ os_walk fs root
  ↔ d ∈ fs_dirs fs ∧ is_Some (PyPath.relative_to d root) ∧ files = files_in fs d.
Proof.
  unfold os_walk. rewrite list_elem_of_fmap. split.
  - intros (d' & [= -> ->] & Hd). apply list_elem_of_filter in Hd as [Hrel Hd]. done.
  - intros (Hd & Hrel & ->). exists d. split; [done|].
    by apply list_elem_of_filter.
Qed.

(** The walk loop over all configured folders. *)
Lemma elem_of_walk_loops fs (config : list Path) (X : gset string) x :
  x ∈ foldl (λ acc folder_path,
               if is_dir fs folder_path
               then foldl (λ acc' entry, add_empty_folder folder_path entry acc')
                          acc (os_walk fs folder_path)
               else acc) X config
  ↔ x ∈ X
    ∨ ∃ root d rel,
        root ∈ config ∧ is_dir fs root = true ∧ d ∈ fs_dirs fs
        ∧ PyPath.relative_to d root = Some rel
        ∧ PyPath.str rel ≠ "."
        ∧ has_notes (files_in fs d) = false
        ∧ (x = PyPath.str rel ∨ is_ancestor x (PyPath.str rel)).
Proof.
  revert X. induction config as [|root config IH]; intros X; simpl.
  - split; [by left|]. intros [? | (r & ? & ? & Hr & _)]; [done|].
    by apply elem_of_nil in Hr.
  - rewrite IH. clear IH.
    assert (Hinner : ∀ Y : gset string,
      x ∈ foldl (λ acc' entry, add_empty_folder root entry acc') Y (os_walk fs root)
      ↔ x ∈ Y
        ∨ ∃ d rel, d ∈ fs_dirs fs ∧ PyPath.relative_to d root = Some rel
                   ∧ PyPath.str rel ≠ "." ∧ has_notes (files_in fs d) = false
                   ∧ (x = PyPath.str rel ∨ is_ancestor x (PyPath.str rel))).
    { intros Y.
      rewrite (foldl_ext_pointwise _ _ _ _ (λ b a, add_empty_folder_option root a b)).
      rewrite elem_of_foldl_add_with_parents. split.
      - intros [? | ([d files] & b & Hentry & Hg & Hb)]; [by left|]. right.
        apply elem_of_os_walk in Hentry as (Hd & _ & ->). simpl in Hg.
        destruct (PyPath.relative_to d root) as [rel|] eqn:Hrel; [|done]. simpl in Hg.
        destruct (negb (String.eqb (PyPath.str rel) ".")) eqn:Hdot; [|done].
        destruct (negb (has_notes (files_in fs d))) eqn:Hnotes; [|done].
        injection Hg as <-. exists d, rel.
        apply negb_true_iff in Hdot, Hnotes. apply String.eqb_neq in Hdot. done.
      - intros [? | (d & rel & Hd & Hrel & Hdot & Hnotes & Hb)]; [by left|]. right.
        exists (d, files_in fs d), (PyPath.str rel). split.
        + apply elem_of_os_walk. by rewrite Hrel.
        + split; [|done]. simpl. rewrite Hrel. simpl.
          apply String.eqb_neq in Hdot. by rewrite Hdot, Hnotes. }
    split.
    + intros [Hx | (r & d & rel & Hr & Hrest)].
      * destruct (is_dir fs root) eqn:Hdir; [|by left].
        apply Hinner in Hx as [? | (d & rel & Hd & Hrest)]; [by left|].
        right. exists root, d, rel. split; [apply list_elem_of_here | done].
      * right. exists r, d, rel. split; [by apply list_elem_of_further | done].
    + intros [Hx | (r & d & rel & Hr & Hdir & Hrest)].
      * left. destruct (is_dir fs root); [|done]. apply Hinner. by left.
      * apply elem_of_cons in Hr as [-> | Hr].
        -- left. rewrite Hdir. apply Hinner. right. by exists d, rel.
        -- right. by exists r, d, rel.
Qed.

(** X12.  The synthesized folders are exactly the folders of the notes
    (relative to the first configured folder each note lies under), the
    directories below an existing configured folder that hold no note
    file directly, and the ancestors of both. *)
Theorem get_folders_characterised (fs : FS) (self : NoteCLI) (folder : string) :
  folder ∈ _get_folders fs self
  ↔ ∃ base,
      (folder = base ∨ is_ancestor folder base)
      ∧ (note_folder self base ∨ noteless_folder fs self base).
Proof.
  rewrite elem_of_get_folders. unfold folder_set.
  rewrite elem_of_walk_loops.
  rewrite (foldl_ext_pointwise _
             (λ acc note, match PyPath.str <$> first_relative (PyPath.parent note)
                                                 (config_folders self) with
                          | Some b => add_with_parents b acc
                          | None => acc
                          end)) by (intros; apply add_note_folder_first_relative).
  rewrite elem_of_foldl_add_with_parents. split.
  - intros [[? | (note & b & Hnote & Hg & Hb)] | (r & d & rel & Hr & Hdir & Hd & Hrel & Hdot & Hn & Hb)].
    + set_solver.
    + exists b. split; [done|]. left.
      destruct (first_relative _ _) as [rel|] eqn:Hrel; [|done].
      injection Hg as <-. by exists note, rel.
    + exists (PyPath.str rel). split; [done|]. right. by exists r, d, rel.
  - intros (base & Hb & [(note & rel & Hnote & Hrel & ->)
                        | (r & d & rel & Hr & Hdir & Hd & Hrel & Hdot & Hn & ->)]).
    + left. right. exists note, (PyPath.str rel). by rewrite Hrel.
    + right. by exists r, d, rel.
Qed.

Lemma first_relative_is_Some d config :
  (∃ r, r ∈ config ∧ is_Some (PyPath.relative_to d r)) →
  is_Some (first_relative d config).
Proof.
  intros (r & Hr & Hrel). induction config as [|r' config IH]; simpl.
  - by apply elem_of_nil in Hr.
  - destruct (PyPath.relative_to d r') eqn:Hr'; [done|].
    apply elem_of_cons in Hr as [-> | Hr]; [|by apply IH].
    rewrite Hr' in Hrel. by destruct Hrel.
Qed.

Lemma note_in_folder_first d config rel :
  first_relative d config = Some rel →
  note_in_folder d (PyPath.str rel) config = true.
Proof.
  induction config as [|r config IH]; simpl; [done|].
  destruct (PyPath.relative_to d r) as [rel'|].
  - intros [= ->]. by rewrite String.eqb_refl.
  - exact IH.
Qed.

(** X13.  No note is left out of the tree structure: every note that
    lies under some configured folder belongs to a folder of the
    synthesized list, namely its directory relative to the first
    configured folder it lies under. *)
Theorem every_note_has_a_folder (fs : FS) (self : NoteCLI) (note : Path) :
  note ∈ all_notes self →
  (∃ r, r ∈ config_folders self ∧ is_Some (PyPath.relative_to (PyPath.parent note) r)) →
  ∃ folder,
    folder ∈ _get_folders fs self ∧ note ∈ _get_notes_in_folder self folder.
Proof.
  intros Hnote Hunder.
  destruct (first_relative_is_Some _ _ Hunder) as [rel Hrel].
  exists (PyPath.str rel). split.
  - apply elem_of_get_folders, folder_set_keeps_note_folders.
    apply (note_loop_adds _ _ _ note); [done|].
    intros Y. rewrite add_note_folder_first_relative, Hrel. simpl.
    apply elem_of_add_with_parents. by left.
  - unfold _get_notes_in_folder. apply list_elem_of_filter. split; [|done].
    by apply note_in_folder_first.
Qed.

(** ** Where the file operations write *)

Lemma relative_to_app p q r rel :
  PyPath.relative_to p r = Some rel →
  PyPath.relative_to (p ++ q)%list r = Some (rel ++ q)%list.
Proof.
  revert p. induction r as [|c r IH]; intros [|c' p]; simpl; try done.
  - intros [= <-]. by destruct q.
  - by intros [= <-].
  - destruct (String.eqb c c'); [apply IH | done].
Qed.

Lemma resolve_snoc p c :
  c ≠ ".." → PyPath.resolve (p ++ [c])%list = (PyPath.resolve p ++ [c])%list.
Proof.
  intros Hc. unfold PyPath.resolve. rewrite fold_left_app. simpl.
  apply String.eqb_neq in Hc. by rewrite Hc.
Qed.

Lemma joinpath_plain dir filename :
  sep_free "/" filename = true →
  filename ≠ EmptyString → filename ≠ "." →
  PyPath.joinpath dir filename = (dir ++ [filename])%list.
Proof.
  intros Hfree Hne Hdot. unfold PyPath.joinpath, PyPath.parts.
  rewrite sep_free_startswith, split_sep_free by done.
  by rewrite filter_cons_True, filter_nil by done.
Qed.

Lemma with_default_extension_not_dotdot filename :
  with_default_extension filename ≠ "..".
Proof.
  unfold with_default_extension.
  destruct (existsb _ NOTE_EXTENSIONS) eqn:Hext; simpl.
  - intros ->. discriminate Hext.
  - destruct filename as [|c [|c' [|c'' r]]]; done.
Qed.

Lemma is_safe_path_relative base user_path :
  is_safe_path base user_path = true →
  is_Some (PyPath.relative_to (PyPath.resolve (PyPath.joinpath base user_path)) base).
Proof.
  unfold is_safe_path, PyPath.in_parents, PyPath.eqb.
  intros [Hin | Heq]%orb_true_iff.
  - destruct (PyPath.relative_to _ base); [done | discriminate].
  - apply bool_decide_eq_true in Heq. rewrite <- Heq, relative_to_self. done.
Qed.

(** The folder the search loop settles on is a configured folder joined
    with the folder path, and passed the safety check. *)
Lemma locate_folder_safe fs folder_path config last dir :
  locate_folder fs folder_path config last = Some (Some dir) →
  last = Some dir
  ∨ ∃ config_path,
      config_path ∈ config
      ∧ dir = PyPath.joinpath config_path folder_path
      ∧ is_safe_path config_path folder_path = true.
Proof.
  revert last. induction config as [|r config IH]; intros last; simpl.
  - intros [= ->]. by left.
  - destruct (is_safe_path r folder_path) eqn:Hsafe; simpl; [|done].
    destruct (is_dir fs (PyPath.joinpath r folder_path)).
    + intros [= <-]. right. exists r. split; [apply list_elem_of_here | done].
    + intros [Hlast | (cp & Hcp & Hrest)]%IH.
      * injection Hlast as <-. right. exists r. split; [apply list_elem_of_here | done].
      * right. exists cp. split; [by apply list_elem_of_further | done].
Qed.

(** X14.  A successful [create_new_note] writes exactly one new file,
    directly inside the located folder, and that file lies strictly
    below a configured folder once the path is resolved; directories and
    all other files are as before.  A failed call leaves the filesystem
    as it was. *)
Theorem create_new_note_writes_inside_config (fs fs' : FS) (folder_path : string)
    (config : list Path) (line : string) (result : option Path) :
  create_new_note fs folder_path config line = (result, fs') →
  match result with
  | None => fs' = fs
  | Some p =>
      (∃ config_path,
         config_path ∈ config
         ∧ PyPath.in_parents config_path (PyPath.resolve p) = true)
      ∧ fs_dirs fs' = fs_dirs fs
      ∧ fs_files fs' = (PyPath.resolve p :: fs_files fs)
      ∧ (PyPath.resolve p ∉ fs_files fs)
      ∧ fs_locked fs' = fs_locked fs
  end.
Proof.
  unfold create_new_note.
  destruct (locate_folder fs folder_path config None) as [[dir|]|] eqn:Hloc;
    [|by intros [= <- <-] | by intros [= <- <-]].
  destruct (negb (is_dir fs dir)); [by intros [= <- <-]|].
  destruct (negb (PyStr.truthy (PyStr.strip line))) eqn:Hne; [by intros [= <- <-]|].
  destruct (negb (validate_filename (PyStr.strip line))) eqn:Hvalid;
    [by intros [= <- <-]|].
  apply negb_false_iff in Hne, Hvalid. apply truthy_true in Hne.
  destruct (with_default_extension_plain _ Hvalid Hne) as (Hfree & Hne' & Hdot).
  set (final := with_default_extension (PyStr.strip line)) in *.
  rewrite (joinpath_plain dir final) by done.
  destruct (exists_ fs (dir ++ [final])%list) eqn:Hexists; [by intros [= <- <-]|].
  unfold touch.
  destruct (bool_decide (PyPath.resolve (dir ++ [final])%list ∈ fs_locked fs));
    [by intros [= <- <-]|].
  apply orb_false_iff in Hexists as [_ Hfile]. rewrite Hfile.
  intros [= <- <-]. simpl.
  apply bool_decide_eq_false in Hfile.
  split; [|done].
  apply locate_folder_safe in Hloc as [? | (cp & Hcp & -> & Hsafe)]; [done|].
  exists cp. split; [done|].
  destruct (is_safe_path_relative _ _ Hsafe) as [rel Hrel].
  rewrite resolve_snoc by apply with_default_extension_not_dotdot.
  unfold PyPath.in_parents. rewrite (relative_to_app _ [final] _ _ Hrel).
  by destruct rel.
Qed.

Lemma relative_to_parent p : is_Some (PyPath.relative_to p (PyPath.parent p)).
Proof.
  unfold PyPath.parent.
  induction p as [|c [|c' p] IH]; simpl in *; [done | done |].
  by rewrite String.eqb_refl.
Qed.

(** X15.  [delete_file] removes a file only when the stripped
    confirmation is the word DELETE and the resolved path lies in or
    below a configured folder; it then removes exactly that file and
    nothing else.  Whenever it returns [False] the filesystem is as it
    was. *)
Theorem delete_file_removes_only_confirmed (fs fs' : FS) (note_path : Path)
    (config : list Path) (line : string) (deleted : bool) :
  delete_file fs note_path config line = (deleted, fs') →
  if deleted
  then PyStr.strip line = "DELETE"
       ∧ (∃ config_path,
            config_path ∈ config
            ∧ is_Some (PyPath.relative_to (PyPath.resolve note_path) config_path))
       ∧ PyPath.resolve note_path ∈ fs_files fs
       ∧ fs_files fs' = filter (λ f, f ≠ PyPath.resolve note_path) (fs_files fs)
       ∧ fs_dirs fs' = fs_dirs fs
       ∧ fs_locked fs' = fs_locked fs
  else fs' = fs.
Proof.
  unfold delete_file.
  destruct (existsb _ config) eqn:Hsafe; simpl; [|by intros [= <- <-]].
  destruct (String.eqb (PyStr.strip line) "DELETE") eqn:Hconfirm; simpl;
    [|by intros [= <- <-]].
  unfold unlink.
  destruct (bool_decide (PyPath.resolve note_path ∈ fs_locked fs));
    [by intros [= <- <-]|].
  destruct (is_file fs note_path) eqn:Hfile; [|by intros [= <- <-]].
  intros [= <- <-]. simpl.
  apply String.eqb_eq in Hconfirm. apply bool_decide_eq_true in Hfile.
  split; [done|]. split; [|done].
  apply existsb_exists in Hsafe as (cp & Hcp & Hunder).
  exists cp. split; [by apply list_elem_of_In|].
  apply orb_true_iff in Hunder as [Hin | Heq].
  - unfold PyPath.in_parents in Hin.
    destruct (PyPath.relative_to (PyPath.resolve note_path) cp); [done | discriminate].
  - apply bool_decide_eq_true in Heq. rewrite Heq. apply relative_to_parent.
Qed.

(** ** The editor whitelist *)

Lemma lower_char_not_letter (c x : ascii) :
  PyStr.ascii_lower_char c = c →
  (∀ y, PyStr.ascii_lower_char y = c → y = c) →
  Ascii.eqb (PyStr.ascii_lower_char x) c = Ascii.eqb x c.
Proof.
  intros Hc Hinj. destruct (Ascii.eqb_spec x c) as [-> | Hne].
  - rewrite Hc. apply Ascii.eqb_refl.
  - apply Ascii.eqb_neq. intros Heq. by apply Hne, Hinj.
Qed.

Lemma lower_char_slash y : PyStr.ascii_lower_char y = "/"%char → y = "/"%char.
Proof.
  destruct y as [[] [] [] [] [] [] [] []]; vm_compute; intros H; try done;
    discriminate H.
Qed.

Lemma lower_char_blank y : PyStr.ascii_lower_char y = " "%char → y = " "%char.
Proof.
  destruct y as [[] [] [] [] [] [] [] []]; vm_compute; intros H; try done;
    discriminate H.
Qed.

Lemma sep_free_lower c s :
  PyStr.ascii_lower_char c = c →
  (∀ y, PyStr.ascii_lower_char y = c → y = c) →
  sep_free c (PyStr.ascii_lower s) = sep_free c s.
Proof.
  intros Hc Hinj. induction s as [|x s IH]; simpl; [done|].
  by rewrite lower_char_not_letter, IH.
Qed.

Lemma lower_char_idemp c :
  PyStr.ascii_lower_char (PyStr.ascii_lower_char c) = PyStr.ascii_lower_char c.
Proof. destruct c as [[] [] [] [] [] [] [] []]; reflexivity. Qed.

Lemma lower_char_ascii c :
  (N_of_ascii (PyStr.ascii_lower_char c) <? 128)%N = (N_of_ascii c <? 128)%N.
Proof. destruct c as [[] [] [] [] [] [] [] []]; reflexivity. Qed.

Lemma ascii_lower_idemp s : PyStr.ascii_lower (PyStr.ascii_lower s) = PyStr.ascii_lower s.
Proof.
  induction s as [|c s IH]; simpl; [done|]. by rewrite lower_char_idemp, IH.
Qed.

Lemma is_ascii_lower s : PyStr.is_ascii (PyStr.ascii_lower s) = PyStr.is_ascii s.
Proof.
  induction s as [|c s IH]; simpl; [done|]. by rewrite lower_char_ascii, IH.
Qed.

(** On ASCII text lower-casing twice is lower-casing once. *)
Lemma lower_idemp s :
  PyStr.is_ascii s = true → PyStr.lower (PyStr.lower s) = PyStr.lower s.
Proof.
  intros Hs. rewrite (PyStr.lower_ascii s Hs).
  rewrite PyStr.lower_ascii by by rewrite is_ascii_lower.
  apply ascii_lower_idemp.
Qed.

(** X16.  For a command of ASCII characters [validate_editor] looks at
    the lower-cased command only, and a command it accepts is one of the
    listed words up to letter case: it holds no slash and no blank, so
    neither a path nor an argument. *)
Theorem validate_editor_accepts_bare_words (editor : string) :
  PyStr.is_ascii editor = true →
  validate_editor (PyStr.lower editor) = validate_editor editor
  ∧ (validate_editor editor = true →
     PyStr.lower editor ∈ allowed_editors
     ∧ sep_free "/" editor = true
     ∧ sep_free " " editor = true).
Proof.
  intros Hascii. unfold validate_editor. rewrite lower_idemp by done.
  split; [done|].
  intros Hin%bool_decide_eq_true. split; [done|].
  rewrite (PyStr.lower_ascii editor Hascii) in Hin.
  rewrite <- (sep_free_lower "/" editor) by (done || apply lower_char_slash).
  rewrite <- (sep_free_lower " " editor) by (done || apply lower_char_blank).
  assert (Hall : Forall (λ e, sep_free "/" e = true ∧ sep_free " " e = true)
                        allowed_editors).
  { unfold allowed_editors. repeat constructor. }
  by apply (proj1 (Forall_forall _ _) Hall).
Qed.

(** ** Resolving a resolved path *)

Lemma Forall_removelast {A : Type} (P : A → Prop) (l : list A) :
  Forall P l → Forall P (removelast l).
Proof.
  induction 1 as [|x l Hx Hl IH]; simpl; [constructor|].
  destruct l; [constructor | by constructor].
Qed.

Lemma resolve_fold_no_dotdot (p acc : Path) :
  Forall (λ c, c ≠ "..") acc →
  Forall (λ c, c ≠ "..")
    (fold_left (λ acc c, if String.eqb c ".." then removelast acc else (acc ++ [c])%list)
               p acc).
Proof.
  revert acc. induction p as [|c p IH]; intros acc Hacc; simpl; [done|].
  apply IH. destruct (String.eqb c "..") eqn:Hc.
  - by apply Forall_removelast.
  - apply Forall_app. split; [done|]. constructor; [|constructor].
    by apply String.eqb_neq.
Qed.

Lemma resolve_fold_plain (p acc : Path) :
  Forall (λ c, c ≠ "..") p →
  fold_left (λ acc c, if String.eqb c ".." then removelast acc else (acc ++ [c])%list)
            p acc
  = (acc ++ p)%list.
Proof.
  intros Hp. revert acc. induction Hp as [|c p Hc Hp IH]; intros acc; simpl.
  - by rewrite app_nil_r.
  - apply String.eqb_neq in Hc. rewrite Hc, IH, <- app_assoc. done.
Qed.

Lemma resolve_idemp (p : Path) : PyPath.resolve (PyPath.resolve p) = PyPath.resolve p.
Proof.
  unfold PyPath.resolve at 1. rewrite resolve_fold_plain; [done|].
  apply resolve_fold_no_dotdot. constructor.
Qed.

(** ** Scanning *)

Lemma elem_of_find_notes fs folders p :
  p ∈ find_notes fs folders
  ↔ ∃ folder,
      folder ∈ folders
      ∧ validate_folder_access fs folder = true
      ∧ is_dir fs folder = true
      ∧ (p ∈ fs_dirs fs ∨ p ∈ fs_files fs)
      ∧ PyPath.in_parents folder p = true
      ∧ is_note_file fs p = true.
Proof.
  unfold find_notes. rewrite elem_of_py_sorted, list_elem_of_In, in_flat_map.
  split.
  - intros (folder & Hfolder & Hp). exists folder.
    apply list_elem_of_In in Hfolder. split; [done|].
    destruct (validate_folder_access fs folder); [|done]. simpl in Hp.
    destruct (is_dir fs folder); [|done].
    apply list_elem_of_In, list_elem_of_filter in Hp as [Hnote Hp].
    unfold rglob in Hp. apply list_elem_of_filter in Hp as [Hbelow Hp].
    apply elem_of_app in Hp. done.
  - intros (folder & Hfolder & Hvalid & Hdir & Hp & Hbelow & Hnote).
    exists folder. split; [by apply list_elem_of_In|].
    rewrite Hvalid, Hdir. simpl.
    apply list_elem_of_In, list_elem_of_filter. split; [done|].
    unfold rglob. apply list_elem_of_filter. split; [done|].
    by apply elem_of_app.
Qed.

(** X17.  [find_notes] returns its notes in ascending order of file name,
    and a path is among them exactly when it is an entry of the
    filesystem strictly below a listed folder that passes
    [validate_folder_access], is a regular file, and carries one of the
    note extensions in any letter case. *)
Theorem find_notes_sorted_and_exact (fs : FS) (folders : list Path) :
  StronglySorted (key_le PyPath.name) (find_notes fs folders)
  ∧ ∀ p,
      p ∈ find_notes fs folders
      ↔ ∃ folder,
          folder ∈ folders
          ∧ validate_folder_access fs folder = true
          ∧ (p ∈ fs_dirs fs ∨ p ∈ fs_files fs)
          ∧ PyPath.in_parents folder p = true
          ∧ is_file fs p = true
          ∧ PyStr.lower (PyPath.suffix (PyPath.name p)) ∈ NOTE_EXTENSIONS.
Proof.
  split; [apply py_sorted_sorted|].
  intros p. rewrite elem_of_find_notes. unfold is_note_file. split.
  - intros (folder & Hfolder & Hvalid & Hdir & Hp & Hbelow & Hnote).
    apply andb_true_iff in Hnote as [Hfile Hext].
    apply bool_decide_eq_true in Hext. by exists folder.
  - intros (folder & Hfolder & Hvalid & Hp & Hbelow & Hfile & Hext).
    exists folder. split; [done|]. split; [done|]. split.
    + unfold validate_folder_access in Hvalid.
      destruct (existsb _ sensitive_dirs); [done|].
      apply andb_true_iff in Hvalid as [Hdir _].
      unfold is_dir in *. apply bool_decide_eq_true in Hdir.
      apply bool_decide_eq_true.
      assert (Hidem : ∀ q, PyPath.resolve (PyPath.resolve q) = PyPath.resolve q);
        [|by rewrite <- Hidem].
      intros q. apply resolve_idemp.
    + split; [done|]. split; [done|].
      rewrite Hfile. simpl. by apply bool_decide_eq_true.
Qed.

Lemma relative_to_parent_below p r c rel :
  PyPath.relative_to p r = Some (c :: rel) →
  is_Some (PyPath.relative_to (PyPath.parent p) r).
Proof.
  unfold PyPath.parent. revert p.
  induction r as [|x r IH]; intros [|c' p]; simpl; try done.
  - intros _. destruct p as [|c'' p]; simpl; by eexists.
  - destruct (String.eqb x c') eqn:Hx; [|done]. intros Hrel.
    destruct p as [|c'' p]; [by destruct r|].
    change (removelast (c' :: c'' :: p)) with (c' :: removelast (c'' :: p)).
    cbn [PyPath.relative_to]. rewrite Hx. by apply IH.
Qed.

(** X18.  When the notes of the object are those of a scan of its
    configured folders, as at start-up, every one of them belongs to a
    folder of the synthesized list. *)
Theorem scanned_notes_all_have_folders (fs : FS) (self : NoteCLI) (note : Path) :
  all_notes self = find_notes fs (config_folders self) →
  note ∈ all_notes self →
  ∃ folder,
    folder ∈ _get_folders fs self ∧ note ∈ _get_notes_in_folder self folder.
Proof.
  intros Hscan Hnote.
  pose proof Hnote as Hfound. rewrite Hscan in Hfound.
  apply elem_of_find_notes in Hfound as (folder & Hfolder & _ & _ & _ & Hbelow & _).
  destruct (first_relative_is_Some (PyPath.parent note) (config_folders self))
    as [rel Hrel].
  { exists folder. split; [done|]. unfold PyPath.in_parents in Hbelow.
    destruct (PyPath.relative_to note folder) as [[|c rel]|] eqn:Hr; try done.
    by eapply relative_to_parent_below. }
  exists (PyPath.str rel). split.
  - apply elem_of_get_folders, folder_set_keeps_note_folders.
    apply (note_loop_adds _ _ _ note); [done|].
    intros Y. rewrite add_note_folder_first_relative, Hrel. simpl.
    apply elem_of_add_with_parents. by left.
  - unfold _get_notes_in_folder. apply list_elem_of_filter. split; [|done].
    by apply note_in_folder_first.
Qed.

Lemma validate_folder_access_same_dirs fs fs' folder :
  fs_dirs fs' = fs_dirs fs →
  validate_folder_access fs' folder = validate_folder_access fs folder.
Proof.
  intros Hdirs. unfold validate_folder_access, os_access, exists_, is_dir.
  rewrite Hdirs. destruct (existsb _ sensitive_dirs); [done|].
  by destruct (bool_decide (PyPath.resolve (PyPath.resolve folder) ∈ fs_dirs fs)).
Qed.

(** X19.  After a confirmed deletion a new scan no longer returns the
    deleted note, for any list of folders, and returns every other note
    it returned before. *)
Theorem rescan_after_delete (fs fs' : FS) (note_path : Path) (config : list Path)
    (line : string) (folders : list Path) :
  delete_file fs note_path config line = (true, fs') →
  (note_path ∉ find_notes fs' folders)
  ∧ ∀ p, p ∈ find_notes fs folders →
         PyPath.resolve p ≠ PyPath.resolve note_path →
         p ∈ find_notes fs' folders.
Proof.
  unfold delete_file.
  destruct (existsb _ config); simpl; [|done].
  destruct (String.eqb (PyStr.strip line) "DELETE"); simpl; [|done].
  unfold unlink.
  destruct (bool_decide (PyPath.resolve note_path ∈ fs_locked fs)); [done|].
  destruct (is_file fs note_path) eqn:Hfile; [|done].
  intros [= <-].
  set (fs' := mkFS (fs_dirs fs)
                   (filter (λ f, f ≠ PyPath.resolve note_path) (fs_files fs))
                   (fs_locked fs)).
  split.
  - intros (folder & _ & _ & _ & _ & _ & Hnote)%elem_of_find_notes.
    apply andb_true_iff in Hnote as [Hf _].
    apply bool_decide_eq_true in Hf. simpl in Hf.
    apply list_elem_of_filter in Hf as [Hne _]. done.
  - intros p (folder & Hfolder & Hvalid & Hdir & Hp & Hbelow & Hnote)%elem_of_find_notes
      Hne.
    apply elem_of_find_notes. exists folder. split; [done|]. split.
    { by rewrite (validate_folder_access_same_dirs fs fs'). }
    split; [done|].
    apply andb_true_iff in Hnote as [Hf Hext].
    apply bool_decide_eq_true in Hf.
    assert (Hp_ne : p ≠ PyPath.resolve note_path).
    { intros ->. apply Hne, resolve_idemp. }
    split.
    { destruct Hp as [Hp | Hp]; [by left | right]. simpl.
      by apply list_elem_of_filter. }
    split; [done|].
    unfold is_note_file. rewrite Hext, andb_true_r.
    apply bool_decide_eq_true. simpl. by apply list_elem_of_filter.
Qed.

(** ** The suffix of a created name *)

Lemma endswith_append s suf :
  PyStr.endswith s suf = true → ∃ x, s = x +:+ suf.
Proof.
  induction s as [|c s IH]; intros H.
  - destruct suf; [by exists EmptyString | done].
  - change (PyStr.endswith (String c s) suf)
      with (String.eqb (String c s) suf || PyStr.endswith s suf) in H.
    apply orb_true_iff in H as [Heq | Hs].
    + apply String.eqb_eq in Heq as <-. by exists EmptyString.
    + destruct (IH Hs) as [x ->]. by exists (String c x).
Qed.

Lemma string_length_append (x t : string) :
  String.length (x +:+ t) = (String.length x + String.length t)%nat.
Proof. induction x as [|c x IH]; simpl; [done | by rewrite IH]. Qed.

Lemma rfind_dot_append x t j :
  PyPath.rfind_dot t = Some j →
  PyPath.rfind_dot (x +:+ t) = Some (String.length x + j)%nat.
Proof.
  intros Ht. induction x as [|c x IH]; simpl; [done|]. by rewrite IH.
Qed.

Lemma drop_chars_append x t : PyPath.drop_chars (String.length x) (x +:+ t) = t.
Proof. induction x as [|c x IH]; simpl; [by destruct t | done]. Qed.

(** A name made of a non-empty stem and an extension that starts with
    its only dot has that extension as its suffix. *)
Lemma suffix_append x ext :
  x ≠ EmptyString →
  PyPath.rfind_dot ext = Some 0%nat →
  (2 ≤ String.length ext)%nat →
  PyPath.suffix (x +:+ ext) = ext.
Proof.
  intros Hx Hdot Hlen. unfold PyPath.suffix.
  rewrite (rfind_dot_append x ext 0 Hdot), Nat.add_0_r, string_length_append.
  assert (Hpos : (0 < String.length x)%nat) by (destruct x; [done | simpl; lia]).
  destruct (Nat.ltb_spec 0 (String.length x)) as [_ | ?]; [|lia].
  destruct (Nat.ltb_spec (String.length x) (String.length x + String.length ext - 1))
    as [_ | ?]; [|lia].
  simpl. apply drop_chars_append.
Qed.

Lemma with_default_extension_suffix filename :
  filename ≠ EmptyString →
  filename ∉ NOTE_EXTENSIONS →
  PyStr.lower (PyPath.suffix (with_default_extension filename)) ∈ NOTE_EXTENSIONS.
Proof.
  intros Hne Hbare. unfold with_default_extension, NOTE_EXTENSIONS in *.
  cbn [existsb]. rewrite orb_false_r.
  destruct (PyStr.endswith filename ".txt") eqn:Htxt; simpl.
  - apply endswith_append in Htxt as [x ->].
    rewrite suffix_append; [| | done | simpl; lia].
    + rewrite PyStr.lower_ascii by done. set_solver.
    + intros ->. set_solver.
  - destruct (PyStr.endswith filename ".md") eqn:Hmd; simpl.
    + apply endswith_append in Hmd as [x ->].
      rewrite suffix_append; [| | done | simpl; lia].
      * rewrite PyStr.lower_ascii by done. set_solver.
      * intros ->. set_solver.
    + rewrite suffix_append; [| done | done | simpl; lia].
      rewrite PyStr.lower_ascii by done. set_solver.
Qed.

(** What a successful [create_new_note] did, step by step. *)
Lemma create_new_note_success fs fs' folder_path config line p :
  create_new_note fs folder_path config line = (Some p, fs') →
  let final := with_default_extension (PyStr.strip line) in
  ∃ config_path dir rel,
    config_path ∈ config
    ∧ PyPath.relative_to (PyPath.resolve dir) config_path = Some rel
    ∧ p = (dir ++ [final])%list
    ∧ PyPath.resolve p = (PyPath.resolve dir ++ [final])%list
    ∧ fs' = mkFS (fs_dirs fs) (PyPath.resolve p :: fs_files fs) (fs_locked fs)
    ∧ PyStr.strip line ≠ EmptyString.
Proof.
  unfold create_new_note.
  destruct (locate_folder fs folder_path config None) as [[dir|]|] eqn:Hloc; [|done|done].
  destruct (negb (is_dir fs dir)); [done|].
  destruct (negb (PyStr.truthy (PyStr.strip line))) eqn:Hne; [done|].
  destruct (negb (validate_filename (PyStr.strip line))) eqn:Hvalid; [done|].
  apply negb_false_iff in Hne, Hvalid. apply truthy_true in Hne.
  destruct (with_default_extension_plain _ Hvalid Hne) as (Hfree & Hne' & Hdot).
  set (final := with_default_extension (PyStr.strip line)) in *.
  rewrite (joinpath_plain dir final) by done.
  destruct (exists_ fs (dir ++ [final])%list) eqn:Hexists; [done|].
  unfold touch.
  destruct (bool_decide (PyPath.resolve (dir ++ [final])%list ∈ fs_locked fs)); [done|].
  apply orb_false_iff in Hexists as [_ Hfile]. rewrite Hfile.
  intros [= <- <-]. simpl.
  apply locate_folder_safe in Hloc as [? | (cp & Hcp & -> & Hsafe)]; [done|].
  destruct (is_safe_path_relative _ _ Hsafe) as [rel Hrel].
  exists cp, (PyPath.joinpath cp folder_path), rel.
  split; [done|]. split; [done|]. split; [done|].
  split; [|done]. apply resolve_snoc, with_default_extension_not_dotdot.
Qed.

(** X20.  A note that [create_new_note] has created is returned by the
    next scan of the configured folders, provided those folders pass
    [validate_folder_access] and the typed name is more than a bare
    extension. *)
Theorem created_note_is_found (fs fs' : FS) (folder_path : string)
    (config : list Path) (line : string) (p : Path) :
  create_new_note fs folder_path config line = (Some p, fs') →
  (∀ config_path, config_path ∈ config → validate_folder_access fs config_path = true) →
  PyStr.strip line ∉ NOTE_EXTENSIONS →
  PyPath.resolve p ∈ find_notes fs' config.
Proof.
  intros Hcreate Hvalid Hbare.
  destruct (create_new_note_success _ _ _ _ _ _ Hcreate)
    as (cp & dir & rel & Hcp & Hrel & Hp & Hres & Hfs & Hne).
  apply elem_of_find_notes. exists cp. split; [done|].
  assert (Hdirs : fs_dirs fs' = fs_dirs fs) by (by rewrite Hfs).
  specialize (Hvalid cp Hcp).
  split; [by rewrite (validate_folder_access_same_dirs fs fs')|].
  split.
  { unfold validate_folder_access in Hvalid.
    destruct (existsb _ sensitive_dirs); [done|].
    apply andb_true_iff in Hvalid as [Hdir _].
    unfold is_dir in *. rewrite Hdirs. by rewrite resolve_idemp in Hdir. }
  split; [right; rewrite Hfs; apply list_elem_of_here|].
  split.
  { rewrite Hres. unfold PyPath.in_parents.
    rewrite (relative_to_app _ _ _ _ Hrel). by destruct rel. }
  unfold is_note_file, is_file. rewrite resolve_idemp.
  apply andb_true_iff. split.
  - apply bool_decide_eq_true. rewrite Hfs. apply list_elem_of_here.
  - apply bool_decide_eq_true. rewrite Hres. unfold PyPath.name.
    rewrite last_last. by apply with_default_extension_suffix.
Qed.

(** ** Creating a folder *)

(** X21.  A successful [create_new_folder] makes the new directory
    directly inside the located folder, strictly below a configured
    folder once resolved; it adds no directory that is not a leading part
    of the new path, keeps every directory there was and touches no
    file.  A failed call leaves the filesystem as it was. *)
Theorem create_new_folder_writes_inside_config (fs fs' : FS)
    (parent_folder_path : string) (config : list Path) (line : string)
    (result : option Path) :
  create_new_folder fs parent_folder_path config line = (result, fs') →
  match result with
  | None => fs' = fs
  | Some p =>
      (∃ config_path,
         config_path ∈ config
         ∧ PyPath.in_parents config_path (PyPath.resolve p) = true)
      ∧ PyPath.name p = PyStr.strip line
      ∧ PyPath.resolve p ∈ fs_dirs fs'
      ∧ (PyPath.resolve p ∉ fs_dirs fs)
      ∧ (∀ d, d ∈ fs_dirs fs' ↔
              d ∈ fs_dirs fs
              ∨ ((d ∉ fs_dirs fs)
                 ∧ ∃ i : nat, (0 < i ≤ length (PyPath.resolve p))%nat
                              ∧ d = take i (PyPath.resolve p)))
      ∧ fs_files fs' = fs_files fs
      ∧ fs_locked fs' = fs_locked fs
  end.
Proof.
  unfold create_new_folder.
  destruct (locate_folder fs parent_folder_path config None) as [[dir|]|] eqn:Hloc;
    [|by intros [= <- <-] | by intros [= <- <-]].
  destruct (negb (is_dir fs dir)) eqn:Hdir; [by intros [= <- <-]|].
  destruct (negb (PyStr.truthy (PyStr.strip line))) eqn:Hne; [by intros [= <- <-]|].
  destruct (negb (validate_filename (PyStr.strip line))) eqn:Hvalid;
    [by intros [= <- <-]|].
  apply negb_false_iff in Hdir, Hne, Hvalid. apply truthy_true in Hne.
  set (name := PyStr.strip line) in *.
  pose proof (validate_filename_sep_free _ Hvalid) as Hfree.
  destruct (exists_ fs (PyPath.joinpath dir name)) eqn:Hexists; [by intros [= <- <-]|].
  assert (Hdot : name ≠ ".").
  { intros Heq. rewrite Heq in Hexists.
    unfold PyPath.joinpath, PyPath.parts in Hexists. simpl in Hexists.
    rewrite filter_cons_False, filter_nil, app_nil_r in Hexists by (by intros [_ ?]).
    unfold exists_ in Hexists. by rewrite Hdir in Hexists. }
  assert (Hdotdot : name ≠ "..").
  { intros Heq. rewrite Heq in Hvalid. unfold validate_filename in Hvalid.
    destruct (existsb _ dangerous_extensions); [done|]. discriminate Hvalid. }
  rewrite (joinpath_plain dir name) in * by done.
  unfold mkdir. rewrite Hexists.
  destruct (bool_decide (PyPath.resolve (dir ++ [name])%list ∈ fs_locked fs));
    [by intros [= <- <-]|].
  intros [= <- <-]. simpl.
  apply orb_false_iff in Hexists as [Hnodir _].
  apply bool_decide_eq_false in Hnodir.
  set (q := PyPath.resolve (dir ++ [name])%list) in *.
  assert (Hq : q = (PyPath.resolve dir ++ [name])%list) by (by apply resolve_snoc).
  assert (Hlen : (0 < length q)%nat).
  { rewrite Hq, length_app. simpl. lia. }
  assert (Hmissing : ∀ d,
    d ∈ filter (λ d, d ∉ fs_dirs fs) (map (λ i, take i q) (seq 1 (length q)))
    ↔ (d ∉ fs_dirs fs) ∧ ∃ i : nat, (0 < i ≤ length q)%nat ∧ d = take i q).
  { intros d. rewrite list_elem_of_filter, list_elem_of_fmap. split.
    - intros [Hd (i & -> & Hi)]. apply elem_of_seq in Hi. split; [done|].
      exists i. split; [lia | done].
    - intros [Hd (i & Hi & ->)]. split; [done|]. exists i. split; [done|].
      apply elem_of_seq. lia. }
  split.
  { apply locate_folder_safe in Hloc as [? | (cp & Hcp & -> & Hsafe)]; [done|].
    exists cp. split; [done|].
    destruct (is_safe_path_relative _ _ Hsafe) as [rel Hrel].
    rewrite Hq. unfold PyPath.in_parents.
    rewrite (relative_to_app _ [name] _ _ Hrel). by destruct rel. }
  split; [unfold PyPath.name; apply last_last|].
  split.
  { apply elem_of_app. left. apply Hmissing. split; [done|].
    exists (length q). split; [lia|]. by rewrite firstn_all. }
  split; [done|]. split; [|done].
  intros d. rewrite elem_of_app, Hmissing. tauto.
Qed.

(** ** Rendering *)

Lemma length_row_text self i row : length (row_text self i row) = 2%nat.
Proof. by destruct row. Qed.

Lemma length_rows_text self i rows :
  length (rows_text self i rows) = (2 * length rows)%nat.
Proof.
  revert i. induction rows as [|row rows IH]; intros i; simpl; [done|].
  rewrite length_app, length_row_text, IH. lia.
Qed.

Lemma rows_text_lookup self i rows (k : nat) row :
  rows !! k = Some row →
  ∃ style text,
    row_text self (i + Z.of_nat k) row = [(style, text); (EmptyString, newline)]
    ∧ rows_text self i rows !! (2 * k)%nat = Some (style, text)
    ∧ rows_text self i rows !! (2 * k + 1)%nat = Some (EmptyString, newline).
Proof.
  revert i k. induction rows as [|r rows IH]; intros i k Hk; [done|].
  destruct k as [|k]; simpl in Hk.
  - injection Hk as ->. replace (i + Z.of_nat 0) with i by lia.
    destruct row; simpl; eauto.
  - destruct (IH (i + 1) k Hk) as (style & text & Hrow & H0 & H1).
    exists style, text. simpl rows_text.
    replace (2 * S k)%nat with (2 + 2 * k)%nat by lia.
    replace (2 + 2 * k + 1)%nat with (2 + (2 * k + 1))%nat by lia.
    rewrite !lookup_app_r by (rewrite length_row_text; lia).
    rewrite length_row_text.
    replace (2 + 2 * k - 2)%nat with (2 * k)%nat by lia.
    replace (2 + (2 * k + 1) - 2)%nat with (2 * k + 1)%nat by lia.
    split; [|done]. rewrite <- Hrow. f_equal. lia.
Qed.

(** X22.  The rendered list is the single placeholder when there are no
    rows; otherwise it holds two fragments per row, the second a bare
    line break, and the first fragment of a row carries a selected style
    exactly when the row's position is the selection index.  A selection
    index outside the rows highlights nothing. *)
Theorem notes_text_highlights_selection (self : NoteCLI) :
  (tree_items (state self) = [] →
   _get_notes_text self = [(EmptyString, "No folders or notes found.")])
  ∧ (tree_items (state self) ≠ [] →
     length (_get_notes_text self) = (2 * length (tree_items (state self)))%nat)
  ∧ (∀ (k : nat) row,
       tree_items (state self) !! k = Some row →
       ∃ style text,
         _get_notes_text self !! (2 * k)%nat = Some (style, text)
         ∧ _get_notes_text self !! (2 * k + 1)%nat = Some (EmptyString, newline)
         ∧ (selected_style style ↔ Z.of_nat k = selected_index (state self))).
Proof.
  unfold _get_notes_text. split; [by intros ->|]. split.
  - intros Hne. apply nonempty_true in Hne. rewrite Hne. simpl.
    apply length_rows_text.
  - intros k row Hk.
    assert (Hne : nonempty (tree_items (state self)) = true).
    { destruct (tree_items (state self)); [done | done]. }
    rewrite Hne. simpl.
    destruct (rows_text_lookup self 0 _ k row Hk) as (style & text & Hrow & H0 & H1).
    exists style, text. split; [exact H0|]. split; [exact H1|].
    replace (0 + Z.of_nat k) with (Z.of_nat k) in Hrow by lia.
    unfold selected_style.
    destruct row as [item indent | item indent]; simpl in Hrow;
      injection Hrow as <- _;
      destruct (Z.eqb_spec (Z.of_nat k) (selected_index (state self))) as [Heq | Hneq];
      split; try done; auto; intros [H | H]; discriminate H.
Qed.

(** X23.  On a non-empty row sequence [move_down] and [move_up] put the
    selection index inside the rows whatever it was before, so a stale
    index is repaired by the next arrow key. *)
Theorem move_repairs_selection (self : NoteCLI) :
  tree_items (state self) ≠ [] →
  let n := Z.of_nat (length (tree_items (state self))) in
  0 ≤ selected_index (state (move_down self)) < n
  ∧ 0 ≤ selected_index (state (move_up self)) < n
  ∧ tree_items (state (move_down self)) = tree_items (state self)
  ∧ tree_items (state (move_up self)) = tree_items (state self).
Proof.
  intros Hne n.
  assert (Hn : 0 < n).
  { unfold n. destruct (tree_items (state self)); [done | simpl; lia]. }
  apply nonempty_true in Hne. unfold move_down, move_up. rewrite Hne. simpl.
  fold n. repeat split; try done; by apply Z.mod_pos_bound.
Qed.

End Properties.

(** * The sample sessions, evaluated *)

#[local] Existing Instance PyStr.ascii_Lower.

Example strip_inner : PyStr.strip "  a b  " = "a b".
Proof. reflexivity. Qed.

Example lower_mixed : PyStr.lower "Foo/Bar-9" = "foo/bar-9".
Proof. reflexivity. Qed.

(** With three rows, down from index 2 gives 0 and up from index 0 gives 2. *)
Lemma move_wraps_around_witness :
  selected_index (state (move_down (Examples.three_rows 2))) = 0
  ∧ selected_index (state (move_up (Examples.three_rows 0))) = 2
  ∧ move_down (Examples.bare ∅) = Examples.bare ∅
  ∧ move_up (Examples.bare ∅) = Examples.bare ∅.
Proof.
  split; [|split].
  - apply (move_wraps_around (Examples.three_rows 2)); [done | reflexivity].
  - apply (move_wraps_around (Examples.three_rows 0)); [done | reflexivity].
  - apply (move_wraps_around (Examples.bare ∅)). reflexivity.
Defined.

Lemma selection_after_rebuild_witness :
  selected_index
    (state (_update_filtered_notes Examples.fs_ab (move_down Examples.cli_ab) "n")) = 0
  ∧ ∃ self', expand_folder (move_down Examples.cli_ab) = Ok self'
             ∧ selected_index (state self') = 1.
Proof.
  split.
  - apply (selection_after_rebuild Examples.fs_ab (move_down Examples.cli_ab)).
  - eexists. split; [vm_compute; reflexivity|].
    etransitivity.
    + apply (selection_after_rebuild Examples.fs_ab (move_down Examples.cli_ab)).
      vm_compute. reflexivity.
    + reflexivity.
Defined.

(** C1, as the specification has it, fails: with the selection on the
    second row, expanding that folder changes the rows and the selection
    index stays 1. *)
Lemma expand_keeps_selection_counterexample :
  ∃ self', expand_folder (move_down Examples.cli_ab) = Ok self'
    ∧ tree_items (state (move_down Examples.cli_ab))
      = [FolderItem "a" 0; FolderItem "b" 0]
    ∧ tree_items (state self')
      = [FolderItem "a" 0; FolderItem "b" 0; NoteItem ["srv"; "notes"; "b"; "n.md"] 2]
    ∧ selected_index (state self') = 1
    ∧ selected_index (state self') ≠ 0.
Proof.
  eexists. split; [vm_compute; reflexivity|].
  repeat split; try (vm_compute; reflexivity). vm_compute. discriminate.
Qed.

(** C2 fails on the code.  Folder [b] is expanded, the query [b] is typed,
    the selection goes down to the row of [b] (index 3 of four rows) and
    the folder is collapsed: the rows are rebuilt without the query, two
    rows remain and the selection index is still 3.  The next handler that
    reads the selected row raises [IndexError]. *)
Theorem collapse_under_query_leaves_stale_selection :
  ∃ before after,
    run_events Examples.fs_two [Down; Right; TextChanged "b"; Down; Down; Down]
               Examples.cli_two = Ok before
    ∧ selected_index (state before) = 3
    ∧ length (tree_items (state before)) = 4%nat
    ∧ collapse_folder before = Ok after
    ∧ run_events Examples.fs_two Examples.stale_selection_keys Examples.cli_two = Ok after
    ∧ selected_index (state after) = 3
    ∧ tree_items (state after) = [FolderItem "ab" 0; FolderItem "b" 0]
    ∧ expand_folder after = IndexError
    ∧ collapse_folder after = IndexError
    ∧ toggle_or_open after = IndexError.
Proof.
  do 2 eexists.
  split; [vm_compute; reflexivity|].
  split; [reflexivity|]. split; [reflexivity|].
  split; [vm_compute; reflexivity|].
  repeat split; vm_compute; reflexivity.
Qed.

(** The example of the specification: folders [a], [a/b], [a/b/c] with
    only [a] expanded show [a] and [a/b]. *)
Example visible_rows_abc :
  folder_rows (_build_tree_items (Examples.bare {[ "a" ]}) ["a"; "a/b"; "a/b/c"] EmptyString)
  = ["a"; "a/b"].
Proof. vm_compute. reflexivity. Qed.

(** The folder list of that example holds the ancestors of its members. *)
Lemma abc_closed f p :
  f ∈ ["a"; "a/b"; "a/b/c"] → is_ancestor p f → p ∈ ["a"; "a/b"; "a/b/c"].
Proof.
  intros Hf Hp%elem_of_parent_folders.
  repeat (apply elem_of_cons in Hf as [-> | Hf]); [| | |by apply elem_of_nil in Hf];
    vm_compute in Hp; set_solver.
Qed.

(** In the example of the specification [a/b] has its row, and what the
    row of [a/b/c] would need, an expanded [a/b], is not there. *)
Lemma folder_visible_without_query_witness :
  has_folder_row "a/b"
    (_build_tree_items (Examples.bare {[ "a" ]}) ["a"; "a/b"; "a/b/c"] EmptyString) = true
  ∧ (has_folder_row "a/b/c"
       (_build_tree_items (Examples.bare {[ "a" ]}) ["a"; "a/b"; "a/b/c"] EmptyString) = true
     → "a/b" ∈ expanded_folders (state (Examples.bare {[ "a" ]}))).
Proof.
  split.
  - apply (proj2 (folder_visible_without_query (Examples.bare {[ "a" ]})
                    ["a"; "a/b"; "a/b/c"] "a/b" abc_closed)).
    split; [set_solver|].
    intros p Hp%elem_of_parent_folders. vm_compute in Hp. set_solver.
  - intros Hrow.
    apply (proj1 (folder_visible_without_query (Examples.bare {[ "a" ]})
                    ["a"; "a/b"; "a/b/c"] "a/b/c" abc_closed)) in Hrow as [_ Hanc].
    apply Hanc. exists 2%nat. split; [simpl; lia | reflexivity].
Defined.

(** On a list that lacks an ancestor, which the program never builds,
    the loop does not ask for that ancestor: [a/b] alone is shown with
    nothing expanded. *)
Example unlisted_ancestor_is_not_asked_for :
  has_folder_row "a/b" (_build_tree_items (Examples.bare ∅) ["a/b"] EmptyString) = true
  ∧ is_ancestor "a" "a/b"
  ∧ "a" ∉ expanded_folders (state (Examples.bare ∅)).
Proof.
  split; [vm_compute; reflexivity|]. split.
  - exists 1%nat. split; [simpl; lia | reflexivity].
  - simpl. set_solver.
Qed.

Lemma query_bypasses_expansion_witness :
  FolderItem "x/y" 2
  ∈ tree_items (state (_update_filtered_notes Examples.fs_deep Examples.cli_deep "X/Y")).
Proof.
  apply (query_bypasses_expansion Examples.fs_deep Examples.cli_deep "X/Y" "x/y").
  - discriminate.
  - apply elem_of_get_folders. vm_compute. reflexivity.
  - reflexivity.
Defined.

(** C10 fails on the code.  The configured folders are [/srv/notes] and
    [/srv/notes/work]; the one note is [/srv/notes/work/sub/n.md], and
    [/srv/notes/sub] is an empty directory.  The containing folder of
    the note is [work/sub], by the first configured folder it lies
    under, and that is the folder synthesis adds for it.  With the
    folder [sub] expanded the rows of the note come under the row of
    [sub], in which the note does not lie, and [work/sub] has no row. *)
Theorem note_row_under_foreign_folder :
  let note := ["srv"; "notes"; "work"; "sub"; "n.md"] in
  find_notes Examples.fs_sub [Examples.root; Examples.inner] = all_notes Examples.cli_sub
  ∧ containing_folder Examples.cli_sub note = Some "work/sub"
  ∧ _get_folders Examples.fs_sub Examples.cli_sub = ["sub"; "work"; "work/sub"]
  ∧ tree_items (state Examples.cli_sub) = [FolderItem "sub" 0; FolderItem "work" 0]
  ∧ ∃ self',
      expand_folder Examples.cli_sub = Ok self'
      ∧ tree_items (state self')
        = [FolderItem "sub" 0; NoteItem note 2; NoteItem note 2; FolderItem "work" 0]
      ∧ has_folder_row "work/sub" (tree_items (state self')) = false
      ∧ PyPath.parent note ≠ ["srv"; "notes"; "sub"].
Proof.
  split; [vm_compute; reflexivity|]. split; [vm_compute; reflexivity|].
  split; [vm_compute; reflexivity|]. split; [vm_compute; reflexivity|].
  eexists. split; [vm_compute; reflexivity|].
  split; [vm_compute; reflexivity|]. split; [vm_compute; reflexivity|].
  discriminate.
Qed.

Lemma note_rows_follow_containing_folder_witness :
  ∃ (j : nat) folder,
    (j < 2)%nat
    ∧ _build_tree_items Examples.cli_two ["ab"; "b"] "b" !! j = Some (FolderItem folder 0)
    ∧ containing_folder Examples.cli_two ["srv"; "notes"; "ab"; "ab2.md"] = Some folder
    ∧ ∀ k : nat, (j < k < 2)%nat →
        ∃ note', _build_tree_items Examples.cli_two ["ab"; "b"] "b" !! k
                 = Some (NoteItem note' 2)
                 ∧ containing_folder Examples.cli_two note' = Some folder.
Proof.
  apply (note_rows_follow_containing_folder Examples.cli_two ["ab"; "b"] "b" 2
           ["srv"; "notes"; "ab"; "ab2.md"] 2).
  - intros note r1 r2 _ Hr1 Hr2 _ _.
    apply list_elem_of_singleton in Hr1, Hr2. by subst.
  - vm_compute. reflexivity.
Defined.

Lemma get_folders_ancestor_closed_witness :
  "x/y" ∈ _get_folders Examples.fs_deep Examples.cli_deep.
Proof.
  apply (get_folders_ancestor_closed Examples.fs_deep Examples.cli_deep "x/y/z" 2).
  - apply elem_of_get_folders. vm_compute. reflexivity.
  - simpl. lia.
Defined.

Lemma root_level_note_gives_dot_folder_witness :
  "." ∈ _get_folders Examples.fs_flat Examples.cli_flat.
Proof.
  apply (root_level_note_gives_dot_folder Examples.fs_flat Examples.cli_flat
           ["srv"; "notes"; "n.md"] [] []).
  - vm_compute. apply list_elem_of_here.
  - reflexivity.
  - constructor.
Defined.

(** C9, as stated, fails when configured folders nest: the note lies
    directly in the second configured folder, the first one claims it,
    and the synthesized list has no dot entry. *)
Lemma nested_roots_no_dot_folder_counterexample :
  ["srv"; "notes"; "work"; "n.md"] ∈ all_notes Examples.cli_nested
  ∧ PyPath.parent ["srv"; "notes"; "work"; "n.md"] ∈ config_folders Examples.cli_nested
  ∧ _get_folders Examples.fs_nested Examples.cli_nested = ["work"]
  ∧ "." ∉ _get_folders Examples.fs_nested Examples.cli_nested.
Proof.
  split; [vm_compute; apply list_elem_of_here|].
  split; [vm_compute; apply list_elem_of_further, list_elem_of_here|].
  assert (H : _get_folders Examples.fs_nested Examples.cli_nested = ["work"])
    by (vm_compute; reflexivity).
  split; [done|]. rewrite H. intros Hin.
  apply list_elem_of_singleton in Hin. discriminate.
Qed.

Lemma delete_requires_confirmation_witness :
  delete_file Examples.fs_two ["srv"; "notes"; "ab"; "ab1.md"] [Examples.root] "delete"
  = (false, Examples.fs_two)
  ∧ is_file Examples.fs_two ["srv"; "notes"; "ab"; "ab1.md"] = true.
Proof.
  split; [|reflexivity].
  apply (delete_requires_confirmation Examples.fs_two
           ["srv"; "notes"; "ab"; "ab1.md"] [Examples.root] "delete").
  vm_compute. discriminate.
Defined.

(** [str.strip] takes the no-break space U+00A0 (the bytes 194 160 in
    UTF-8) and the ideographic space U+3000 for whitespace as well. *)
Example strip_no_break_space :
  PyStr.strip (PyStr.bytes [194; 160]%nat +:+ "DELETE" +:+ PyStr.bytes [194; 160]%nat
               +:+ " " +:+ PyStr.bytes [227; 128; 128]%nat) = "DELETE".
Proof. vm_compute. reflexivity. Qed.

(** C6, as stated, fails: a confirmation that is not the exact phrase
    but differs from it only by surrounding blanks deletes the file. *)
Lemma padded_confirmation_deletes_counterexample :
  " DELETE " ≠ "DELETE"
  ∧ is_file Examples.fs_two ["srv"; "notes"; "ab"; "ab1.md"] = true
  ∧ ∃ fs',
      delete_file Examples.fs_two ["srv"; "notes"; "ab"; "ab1.md"] [Examples.root] " DELETE "
      = (true, fs')
      ∧ is_file fs' ["srv"; "notes"; "ab"; "ab1.md"] = false.
Proof.
  split; [discriminate|]. split; [reflexivity|].
  eexists. split; vm_compute; reflexivity.
Qed.

(** C7 fails on the code.  The name [plan.TXT] carries a note extension:
    the scan takes a file of that name for a note, its test being the
    lower-cased suffix.  [create_new_note] tests with [str.endswith] on
    the name as typed, finds neither [.txt] nor [.md] and appends the
    default extension: the file created is [plan.TXT.md]. *)
Theorem create_note_extension_test_is_case_sensitive :
  PyStr.lower (PyPath.suffix "plan.TXT") ∈ NOTE_EXTENSIONS
  ∧ is_note_file (mkFS [] [["srv"; "notes"; "ab"; "plan.TXT"]] [])
                 ["srv"; "notes"; "ab"; "plan.TXT"] = true
  ∧ validate_filename "plan.TXT" = true
  ∧ with_default_extension "plan.TXT" = "plan.TXT.md"
  ∧ ∃ fs',
      create_new_note Examples.fs_two "ab" [Examples.root] "plan.TXT"
      = (Some ["srv"; "notes"; "ab"; "plan.TXT.md"], fs')
      ∧ is_file fs' ["srv"; "notes"; "ab"; "plan.TXT.md"] = true
      ∧ is_file fs' ["srv"; "notes"; "ab"; "plan.TXT"] = false.
Proof.
  split; [vm_compute; set_solver|].
  split; [vm_compute; reflexivity|]. split; [vm_compute; reflexivity|].
  split; [vm_compute; reflexivity|].
  eexists. split; [vm_compute; reflexivity|]. split; vm_compute; reflexivity.
Qed.

(** The examples of the specification: typing [plan] creates [plan.md],
    typing [plan.txt] creates [plan.txt]. *)
Example create_new_note_name_plan :
  (∃ fs', create_new_note Examples.fs_two "ab" [Examples.root] "plan"
          = (Some ["srv"; "notes"; "ab"; "plan.md"], fs'))
  ∧ (∃ fs', create_new_note Examples.fs_two "ab" [Examples.root] "plan.txt"
            = (Some ["srv"; "notes"; "ab"; "plan.txt"], fs'))
  ∧ PyPath.name ["srv"; "notes"; "ab"; "plan.md"] = "plan" +:+ ".md"
  ∧ PyPath.name ["srv"; "notes"; "ab"; "plan.txt"] = "plan.txt".
Proof.
  split; [eexists; vm_compute; reflexivity|].
  split; [eexists; vm_compute; reflexivity|]. split.
  - eapply (create_new_note_name Examples.fs_two _ "ab" [Examples.root] "plan"
              ["srv"; "notes"; "ab"; "plan.md"]).
    + vm_compute. reflexivity.
    + split; reflexivity.
  - eapply (create_new_note_name Examples.fs_two _ "ab" [Examples.root] "plan.txt"
              ["srv"; "notes"; "ab"; "plan.txt"]).
    + vm_compute. reflexivity.
    + left. reflexivity.
Defined.

Lemma move_up_down_round_trip_witness :
  move_up (move_down (Examples.three_rows 2)) = Examples.three_rows 2
  ∧ move_down (move_up (Examples.three_rows 0)) = Examples.three_rows 0.
Proof.
  split.
  - apply (move_up_down_round_trip (Examples.three_rows 2)). simpl. lia.
  - apply (move_up_down_round_trip (Examples.three_rows 0)). simpl. lia.
Defined.

Lemma handlers_raise_iff_index_invalid_witness :
  expand_folder (Examples.three_rows 3) = IndexError
  ∧ KeyBindings.open_note (Examples.three_rows (-4)) = IndexError.
Proof.
  split.
  - apply (handlers_raise_iff_index_invalid (Examples.three_rows 3)).
    split; [done | unfold index_valid; simpl; lia].
  - apply (handlers_raise_iff_index_invalid (Examples.three_rows (-4))).
    split; [done | unfold index_valid; simpl; lia].
Defined.

Lemma row_indentation_witness :
  "x/y/z" ∈ ["x"; "x/y"; "x/y/z"] ∧ 4 = PyStr.count "/" "x/y/z" * 2.
Proof.
  apply (row_indentation (Examples.bare {[ "x"; "x/y" ]}) ["x"; "x/y"; "x/y/z"] EmptyString).
  vm_compute. do 2 apply list_elem_of_further. apply list_elem_of_here.
Defined.

Lemma rows_under_query_witness :
  (∃ folder,
     folder ∈ ["ab"; "b"]
     ∧ PyStr.contains "b" (PyStr.lower folder) = true
     ∧ ["srv"; "notes"; "ab"; "ab2.md"] ∈ _get_notes_in_folder Examples.cli_two folder
     ∧ PyStr.contains "b" (PyStr.lower (PyPath.name ["srv"; "notes"; "ab"; "ab2.md"])) = true
     ∧ 2 = PyStr.count "/" folder * 2 + 2)
  ∧ _build_tree_items Examples.cli_ab ["a"; "b"] "n" = [].
Proof.
  split; [|reflexivity].
  apply (proj2 (rows_under_query Examples.cli_two ["ab"; "b"] "b" ltac:(discriminate))
           ["srv"; "notes"; "ab"; "ab2.md"] 2).
  vm_compute. do 2 apply list_elem_of_further. apply list_elem_of_here.
Defined.

Lemma note_rows_without_query_witness :
  ∃ folder,
    has_folder_row folder
      (_build_tree_items (Examples.three_rows 0) ["a"; "b"] EmptyString) = true
    ∧ folder ∈ expanded_folders (state (Examples.three_rows 0))
    ∧ ["srv"; "notes"; "b"; "n.md"] ∈ _get_notes_in_folder (Examples.three_rows 0) folder
    ∧ 2 = PyStr.count "/" folder * 2 + 2.
Proof.
  apply (note_rows_without_query (Examples.three_rows 0) ["a"; "b"]
           ["srv"; "notes"; "b"; "n.md"] 2).
  vm_compute. do 2 apply list_elem_of_further. apply list_elem_of_here.
Defined.

Lemma folder_rows_ascending_witness :
  StronglySorted str_lt
    (folder_rows (_build_tree_items Examples.cli_two ["b"; "ab"] EmptyString))
  ∧ NoDup (folder_rows (_build_tree_items Examples.cli_two ["b"; "ab"] EmptyString)).
Proof.
  apply (folder_rows_ascending Examples.cli_two ["b"; "ab"] EmptyString).
  apply NoDup_cons. split; [|apply NoDup_singleton].
  intros Hin. apply list_elem_of_singleton in Hin. discriminate.
Defined.

Lemma unfiltered_tree_not_empty_witness :
  _build_tree_items (Examples.bare ∅)
    (_get_folders Examples.fs_deep Examples.cli_deep) EmptyString ≠ [].
Proof.
  apply (unfiltered_tree_not_empty Examples.fs_deep Examples.cli_deep (Examples.bare ∅)).
  vm_compute. discriminate.
Defined.

Lemma structural_handlers_keep_selected_row_witness :
  ∃ self',
    expand_folder (move_down Examples.cli_ab) = Ok self'
    ∧ selected_row self' = Some (FolderItem "b" 0)
    ∧ 0 ≤ selected_index (state self') < Z.of_nat (length (tree_items (state self')))
    ∧ unfiltered self'
    ∧ NoDup (filtered_notes (state self')).
Proof.
  eexists. split; [vm_compute; reflexivity|].
  apply (structural_handlers_keep_selected_row (move_down Examples.cli_ab) _
           (FolderItem "b" 0)).
  - vm_compute. reflexivity.
  - vm_compute. apply NoDup_cons. split; [|apply NoDup_singleton].
    intros Hin. apply list_elem_of_singleton in Hin. discriminate.
  - vm_compute. reflexivity.
  - left. vm_compute. reflexivity.
Defined.

Lemma expand_collapse_round_trip_witness :
  ∃ self', expand_folder (move_down Examples.cli_ab) = Ok self'
           ∧ collapse_folder self' = Ok (move_down Examples.cli_ab)
           ∧ "b" ∈ expanded_folders (state self').
Proof.
  apply (expand_collapse_round_trip (move_down Examples.cli_ab) "b" 0).
  - vm_compute. reflexivity.
  - vm_compute. apply NoDup_cons. split; [|apply NoDup_singleton].
    intros Hin. apply list_elem_of_singleton in Hin. discriminate.
  - vm_compute. reflexivity.
  - vm_compute. set_solver.
Defined.

Lemma query_free_session_never_raises_witness :
  ∃ self',
    run_events Examples.fs_two [Down; Right; Enter; Up; Right; Down; Down; Left; Up]
               (init Examples.fs_two [Examples.root] Examples.notes_two) = Ok self'
    ∧ selection_ok self'.
Proof.
  apply (query_free_session_never_raises Examples.fs_two [Examples.root]
           Examples.notes_two (Examples.bare ∅)).
  repeat constructor.
Defined.

Lemma get_folders_characterised_witness :
  ∃ base,
    ("x/y" = base ∨ is_ancestor "x/y" base)
    ∧ (note_folder Examples.cli_deep base
       ∨ noteless_folder Examples.fs_deep Examples.cli_deep base).
Proof.
  apply (get_folders_characterised Examples.fs_deep Examples.cli_deep "x/y").
  apply elem_of_get_folders. vm_compute. reflexivity.
Defined.

Lemma every_note_has_a_folder_witness :
  ∃ folder,
    folder ∈ _get_folders Examples.fs_nested Examples.cli_nested
    ∧ ["srv"; "notes"; "work"; "n.md"] ∈ _get_notes_in_folder Examples.cli_nested folder.
Proof.
  apply (every_note_has_a_folder Examples.fs_nested Examples.cli_nested
           ["srv"; "notes"; "work"; "n.md"]).
  - vm_compute. apply list_elem_of_here.
  - exists Examples.inner. split.
    + vm_compute. apply list_elem_of_further, list_elem_of_here.
    + vm_compute. eauto.
Defined.

Lemma create_new_note_writes_inside_config_witness :
  (∃ config_path,
     config_path ∈ [Examples.root]
     ∧ PyPath.in_parents config_path
         (PyPath.resolve ["srv"; "notes"; "ab"; "plan.md"]) = true)
  ∧ (create_new_note Examples.fs_two "ab" [Examples.root] "../evil.sh").2
    = Examples.fs_two.
Proof.
  split.
  - eapply (create_new_note_writes_inside_config Examples.fs_two _ "ab" [Examples.root]
              "plan" (Some ["srv"; "notes"; "ab"; "plan.md"])).
    vm_compute. reflexivity.
  - apply (create_new_note_writes_inside_config Examples.fs_two _ "ab" [Examples.root]
             "../evil.sh" None).
    vm_compute. reflexivity.
Defined.

Lemma delete_file_removes_only_confirmed_witness :
  (delete_file Examples.fs_two ["etc"; "passwd"] [Examples.root] "DELETE").2
  = Examples.fs_two.
Proof.
  apply (delete_file_removes_only_confirmed Examples.fs_two _ ["etc"; "passwd"]
           [Examples.root] "DELETE" false).
  vm_compute. reflexivity.
Defined.

Lemma validate_editor_accepts_bare_words_witness :
  PyStr.lower "NVim" ∈ allowed_editors
  ∧ sep_free "/" "NVim" = true ∧ sep_free " " "NVim" = true.
Proof.
  apply (validate_editor_accepts_bare_words "NVim"); vm_compute; reflexivity.
Defined.

Lemma find_notes_sorted_and_exact_witness :
  find_notes Examples.fs_two [Examples.root] = Examples.notes_two
  ∧ ∃ folder,
      folder ∈ [Examples.root]
      ∧ validate_folder_access Examples.fs_two folder = true
      ∧ (["srv"; "notes"; "ab"; "ab2.md"] ∈ fs_dirs Examples.fs_two
         ∨ ["srv"; "notes"; "ab"; "ab2.md"] ∈ fs_files Examples.fs_two)
      ∧ PyPath.in_parents folder ["srv"; "notes"; "ab"; "ab2.md"] = true
      ∧ is_file Examples.fs_two ["srv"; "notes"; "ab"; "ab2.md"] = true
      ∧ PyStr.lower (PyPath.suffix (PyPath.name ["srv"; "notes"; "ab"; "ab2.md"]))
        ∈ NOTE_EXTENSIONS.
Proof.
  split; [vm_compute; reflexivity|].
  apply (proj2 (find_notes_sorted_and_exact Examples.fs_two [Examples.root])).
  vm_compute. apply list_elem_of_further, list_elem_of_here.
Defined.

Lemma scanned_notes_all_have_folders_witness :
  ∃ folder,
    folder ∈ _get_folders Examples.fs_two Examples.cli_two
    ∧ ["srv"; "notes"; "ab"; "ab1.md"] ∈ _get_notes_in_folder Examples.cli_two folder.
Proof.
  apply (scanned_notes_all_have_folders Examples.fs_two Examples.cli_two
           ["srv"; "notes"; "ab"; "ab1.md"]).
  - vm_compute. reflexivity.
  - vm_compute. apply list_elem_of_here.
Defined.

Lemma rescan_after_delete_witness :
  ∃ fs',
    delete_file Examples.fs_two ["srv"; "notes"; "ab"; "ab1.md"] [Examples.root] "DELETE"
    = (true, fs')
    ∧ find_notes fs' [Examples.root] = [["srv"; "notes"; "ab"; "ab2.md"]]
    ∧ (["srv"; "notes"; "ab"; "ab1.md"] ∉ find_notes fs' [Examples.root]).
Proof.
  eexists. split; [vm_compute; reflexivity|]. split; [vm_compute; reflexivity|].
  eapply (rescan_after_delete Examples.fs_two _ ["srv"; "notes"; "ab"; "ab1.md"]
            [Examples.root] "DELETE" [Examples.root]).
  vm_compute. reflexivity.
Defined.

Lemma created_note_is_found_witness :
  PyPath.resolve ["srv"; "notes"; "ab"; "plan.md"]
  ∈ find_notes (create_new_note Examples.fs_two "ab" [Examples.root] "plan").2
               [Examples.root].
Proof.
  apply (created_note_is_found Examples.fs_two _ "ab" [Examples.root] "plan").
  - vm_compute. reflexivity.
  - intros cp Hcp. apply list_elem_of_singleton in Hcp as ->. vm_compute. reflexivity.
  - vm_compute. set_solver.
Defined.

(** A name that is only an extension gives a file the scan does not
    take for a note. *)
Example bare_extension_not_found :
  ∃ fs', create_new_note Examples.fs_two "ab" [Examples.root] ".md"
         = (Some ["srv"; "notes"; "ab"; ".md"], fs')
         ∧ find_notes fs' [Examples.root] = Examples.notes_two.
Proof. eexists. split; vm_compute; reflexivity. Qed.

Lemma create_new_folder_writes_inside_config_witness :
  (create_new_folder Examples.fs_two "b" [Examples.root] "../../etc").2 = Examples.fs_two
  ∧ ∃ fs', create_new_folder Examples.fs_two "b" [Examples.root] " drafts "
           = (Some ["srv"; "notes"; "b"; "drafts"], fs')
           ∧ PyPath.resolve ["srv"; "notes"; "b"; "drafts"] ∈ fs_dirs fs'.
Proof.
  split.
  - apply (create_new_folder_writes_inside_config Examples.fs_two _ "b" [Examples.root]
             "../../etc" None).
    vm_compute. reflexivity.
  - eexists. split; [vm_compute; reflexivity|].
    refine (proj1 (proj2 (proj2
      (create_new_folder_writes_inside_config Examples.fs_two _ "b" [Examples.root]
         " drafts " (Some ["srv"; "notes"; "b"; "drafts"]) _)))).
    vm_compute. reflexivity.
Defined.

Lemma notes_text_highlights_selection_witness :
  ∃ style text,
    _get_notes_text (Examples.three_rows 1) !! 2%nat = Some (style, text)
    ∧ _get_notes_text (Examples.three_rows 1) !! 3%nat = Some (EmptyString, newline)
    ∧ (selected_style style ↔ 1 = selected_index (state (Examples.three_rows 1))).
Proof.
  apply (proj2 (proj2 (notes_text_highlights_selection (Examples.three_rows 1)))
           1%nat (FolderItem "b" 0)).
  reflexivity.
Defined.

Lemma move_repairs_selection_witness :
  selected_index (state (move_down (Examples.three_rows 7))) = 2
  ∧ 0 ≤ selected_index (state (move_down (Examples.three_rows 7))) < 3.
Proof.
  split; [reflexivity|].
  apply (move_repairs_selection (Examples.three_rows 7)). done.
Defined.
